(** * kai-unified-session: goal graph persistence and consistency engine

    A shallow embedding of the TypeScript sources of the pack
    (models/goal.ts, models/snapshot.ts, models/branch.ts, models/project.ts,
    models/index.ts, lib/paths.ts, storage/yaml-store.ts,
    storage/index-builder.ts and storage/goal-service.ts, and the parallel
    contexts of the session state model), followed by the properties of the
    specification that concern them and by further properties of the same
    code.

    Conventions of the embedding:
    - an optional property [x?: T] is an [option T]; a property that is
      present with the value [undefined] is not distinguished from an absent
      one;
    - a JavaScript [number] is [number] below: NaN, the two infinities and
      the finite values, the latter as rationals (the sources only compare
      them);
    - the [Record<string, T>] objects of the index are association lists in
      insertion order, read through own properties only (keys are taken not
      to name inherited properties of [Object.prototype]);
    - a directory of the store is a finite map from file name to the parsed
      document in that file; YAML serialisation is the identity, the JSON of
      the index file loses the numbers that JSON cannot write (NaN and the
      infinities come back as [null]), and ids are taken not to contain a
      path separator;
    - [new Date()] and [Math.random()] read the host oracle of the world and
      advance its tick counter;
    - [async] functions run to completion at the call: the sources await
      every promise that they create. *)

From Stdlib Require Import QArith Lia Ascii String.
From stdpp Require Import gmap strings list fin_maps.

Close Scope Q_scope.
Open Scope string_scope.
Open Scope list_scope.

(** ** JavaScript primitives used by the sources *)

Module Js.

(** [number]: IEEE doubles up to what the sources observe. *)
Inductive number : Type :=
| NaN
| NegInf
| Fin (q : Q)
| PosInf.

(** [a <= b] on non-NaN numbers. *)
Definition num_leb (a b : number) : bool :=
  match a, b with
  | NaN, _ | _, NaN => false
  | NegInf, _ => true
  | _, PosInf => true
  | Fin x, Fin y => Qle_bool x y
  | _, _ => false
  end.

(** [Math.min(a, b)]: NaN if either argument is NaN. *)
Definition Math_min (a b : number) : number :=
  match a, b with
  | NaN, _ | _, NaN => NaN
  | _, _ => if num_leb a b then a else b
  end.

(** [Math.max(a, b)]: NaN if either argument is NaN. *)
Definition Math_max (a b : number) : number :=
  match a, b with
  | NaN, _ | _, NaN => NaN
  | _, _ => if num_leb a b then b else a
  end.

(** [JSON.stringify(a) === JSON.stringify(b)] on numbers: NaN and the
    infinities all print as [null]. *)
Definition json_num_eqb (a b : number) : bool :=
  match a, b with
  | Fin x, Fin y => Qeq_bool x y
  | Fin _, _ | _, Fin _ => false
  | _, _ => true
  end.

(** A [number] property of a document that went through JSON:
    [JSON.stringify] writes NaN and the infinities as [null], and
    [JSON.parse] reads [null] back. *)
Inductive JsonNumber : Type :=
| JNull
| JNum (n : number).

(** [JSON.parse(JSON.stringify(v))] on such a property. *)
Definition JSON_number (v : JsonNumber) : JsonNumber :=
  match v with
  | JNum (Fin q) => JNum (Fin q)
  | _ => JNull
  end.

(** Truthiness of a string: only the empty string is falsy. *)
Definition truthy (s : string) : bool := negb (String.eqb s "").

(** [o || d] for [o : string | undefined]. *)
Definition or_else (o : option string) (d : string) : string :=
  match o with
  | Some s => if truthy s then s else d
  | None => d
  end.

(** [s.startsWith(p)]. *)
Definition startsWith (s p : string) : bool := String.prefix p s.

(** [s.endsWith(suffix)]. *)
Definition endsWith (s suffix : string) : bool :=
  let n := String.length s in
  let m := String.length suffix in
  (m <=? n)%nat && String.eqb (substring (n - m) m s) suffix.

(** [s.slice(n)] for [0 <= n]. *)
Fixpoint drop_chars (n : nat) (s : string) : string :=
  match n, s with
  | O, _ => s
  | S _, EmptyString => EmptyString
  | S n', String _ s' => drop_chars n' s'
  end.

(** [s.replace(pat, rep)] with a string pattern: only the first
    occurrence is replaced. *)
Fixpoint replace_first (pat rep s : string) : string :=
  if String.prefix pat s then rep +:+ drop_chars (String.length pat) s
  else match s with
       | EmptyString => EmptyString
       | String c s' => String c (replace_first pat rep s')
       end.

(** [s.slice(a, b)] for [0 <= a <= b]. *)
Definition slice (a b : nat) (s : string) : string := substring a (b - a) s.

(** [s.replace(/\/+$/, '')]: drop the trailing run of slashes. *)
Fixpoint strip_trailing_slashes (s : string) : string :=
  match s with
  | EmptyString => EmptyString
  | String c s' =>
      let r := strip_trailing_slashes s' in
      if Ascii.eqb c "/" && String.eqb r "" then EmptyString else String c r
  end.

(** [s.replace(/[-:T]/g, '')]. *)
Fixpoint strip_date_punctuation (s : string) : string :=
  match s with
  | EmptyString => EmptyString
  | String c s' =>
      if Ascii.eqb c "-" || Ascii.eqb c ":" || Ascii.eqb c "T"
      then strip_date_punctuation s'
      else String c (strip_date_punctuation s')
  end.

Definition is_upper (c : ascii) : bool :=
  let n := nat_of_ascii c in (65 <=? n)%nat && (n <=? 90)%nat.

Definition is_lower_or_digit (c : ascii) : bool :=
  let n := nat_of_ascii c in
  ((97 <=? n)%nat && (n <=? 122)%nat) || ((48 <=? n)%nat && (n <=? 57)%nat).

(** [s.toLowerCase()] on ASCII text. *)
Fixpoint toLowerCase (s : string) : string :=
  match s with
  | EmptyString => EmptyString
  | String c s' =>
      String (if is_upper c then ascii_of_nat (nat_of_ascii c + 32) else c)
             (toLowerCase s')
  end.

(** [s.replace(/[^a-z0-9]+/g, '_')]: every maximal run of other
    characters becomes one underscore. *)
Fixpoint underscore_runs (in_run : bool) (s : string) : string :=
  match s with
  | EmptyString => EmptyString
  | String c s' =>
      if is_lower_or_digit c then String c (underscore_runs false s')
      else if in_run then underscore_runs true s'
           else String "_" (underscore_runs true s')
  end.

End Js.

Export Js.

(** ** models/goal.ts *)

Inductive GoalStatus : Type :=
| active | paused | completed | abandoned | blocked.

Inductive Priority : Type := high | medium | low.

Inductive VerificationMethod : Type := manual | automated | hybrid.

Record Verification : Type := {
  criteria : list string;
  method : VerificationMethod;
  test_commands : option (list string)
}.

(** [Partial<Verification>]. *)
Record PartialVerification : Type := {
  pv_criteria : option (list string);
  pv_method : option VerificationMethod;
  pv_test_commands : option (list string)
}.

Record SessionReference : Type := {
  sr_session_id : string;
  sr_date : string;
  sr_summary : string
}.

Inductive AgentStatus : Type :=
| agent_pending | agent_active | agent_completed | agent_failed.

Record AgentAssignment : Type := {
  aa_id : string;
  aa_task : string;
  aa_status : AgentStatus;
  aa_started : option string;
  aa_completed : option string
}.

Record Decision : Type := {
  dec_decision : string;
  dec_rationale : string;
  dec_date : string;
  dec_reversible : bool
}.

Record GoalContext : Type := {
  primary_files : list string;
  related_files : option (list string);
  sessions : list SessionReference;
  agents : list AgentAssignment;
  learnings : list string;
  decisions : list Decision
}.

Inductive BranchStatus : Type :=
| branch_active | branch_merged | branch_abandoned.

Record BranchReference : Type := {
  ref_id : string;
  ref_name : string;
  ref_status : BranchStatus;
  ref_reason : option string;
  ref_snapshot : option string;
  ref_current : option bool
}.

Record Goal : Type := {
  goal_id : string;
  goal_created : string;
  goal_updated : string;
  goal_current_state : string;
  goal_desired_state : string;
  goal_verification : Verification;
  goal_status : GoalStatus;
  goal_progress : number;
  goal_title : string;
  goal_description : string;
  goal_tags : list string;
  goal_project : string;
  goal_priority : Priority;
  goal_parent : option string;
  goal_children : list string;
  goal_depends_on : list string;
  goal_informs : list string;
  goal_evolved_from : option string;
  goal_context : GoalContext;
  goal_branches : list BranchReference;
  goal_snapshots : list string;
  goal_created_by : string;
  goal_last_touched_by : string
}.

Record CreateGoalInput : Type := {
  cgi_title : string;
  cgi_current_state : string;
  cgi_desired_state : string;
  cgi_project : string;
  cgi_description : option string;
  cgi_tags : option (list string);
  cgi_priority : option Priority;
  cgi_parent : option string;
  cgi_verification : option PartialVerification
}.

Record UpdateGoalInput : Type := {
  ugi_title : option string;
  ugi_current_state : option string;
  ugi_desired_state : option string;
  ugi_description : option string;
  ugi_status : option GoalStatus;
  ugi_progress : option number;
  ugi_tags : option (list string);
  ugi_priority : option Priority;
  ugi_verification : option PartialVerification
}.

(** ** models/snapshot.ts *)

Inductive SnapshotTrigger : Type :=
| trigger_manual | trigger_auto_progress | trigger_branch_create
| trigger_milestone | trigger_session_end.

(** The values that the compared goal fields can hold. *)
Inductive FieldValue : Type :=
| VNumber (n : number)
| VStatus (s : GoalStatus)
| VString (s : string).

Record FieldChange : Type := {
  fc_field : string;
  fc_from : option FieldValue;
  fc_to : option FieldValue;
  fc_added : option FieldValue;
  fc_removed : option FieldValue
}.

Record Snapshot : Type := {
  snap_id : string;
  snap_goal_id : string;
  snap_created : string;
  snap_trigger : SnapshotTrigger;
  snap_current_state : string;
  snap_desired_state : string;
  snap_progress : number;
  snap_status : GoalStatus;
  snap_event : string;
  snap_summary : string;
  snap_changes : list FieldChange;
  snap_previous_snapshot : option string;
  snap_branch : string;
  snap_session : option string
}.

(** ** models/branch.ts *)

Inductive ResolutionStatus : Type := resolved_merged | resolved_abandoned.

Record BranchResolution : Type := {
  res_status : ResolutionStatus;
  res_reason : option string;
  res_decided : string;
  res_decided_by : string
}.

Record Branch : Type := {
  br_id : string;
  br_goal_id : string;
  br_created : string;
  br_updated : string;
  br_name : string;
  br_description : string;
  br_status : BranchStatus;
  br_parent_branch : string;
  br_branch_point : string;
  br_current_state : option string;
  br_progress : option number;
  br_snapshots : list string;
  br_resolution : option BranchResolution;
  br_merged_to : option string;
  br_merge_snapshot : option string
}.

(** ** models/project.ts *)

(** [config: Record<string, unknown>] is kept as text: no function of the
    sources reads it. *)
Record AgentConfig : Type := {
  agent_type : string;
  agent_config : list (string * string)
}.

Record Project : Type := {
  proj_id : string;
  proj_name : string;
  proj_path : string;
  proj_created : string;
  proj_updated : string;
  proj_repo : option string;
  proj_branch : option string;
  proj_aliases : list string;
  proj_auto_detect : bool;
  proj_description : string;
  active_goals : list string;
  paused_goals : list string;
  completed_goals : list string;
  abandoned_goals : list string;
  default_agents : list AgentConfig;
  tech_stack : list string;
  conventions : list string
}.

(** ** models/index.ts *)

Record GoalIndexEntry : Type := {
  entry_title : string;
  entry_status : GoalStatus;
  entry_progress : JsonNumber;
  entry_project : string;
  entry_parent : option string;
  entry_children : list string;
  entry_tags : list string;
  entry_updated : string
}.

Inductive EdgeType : Type :=
| edge_parent | edge_child | edge_depends_on | edge_informs | edge_evolved_from.

Record GraphEdge : Type := {
  edge_from : string;
  edge_to : string;
  edge_type : EdgeType
}.

(** A [Record<string, V>]: own properties in insertion order. *)
Definition JsRecord (V : Type) : Type := list (string * V).

Record GoalIndex : Type := {
  idx_generated : string;
  idx_goals : JsRecord GoalIndexEntry;
  idx_by_status : JsRecord (list string);
  idx_by_project : JsRecord (list string);
  idx_by_tag : JsRecord (list string);
  idx_edges : list GraphEdge
}.

Section JsRecordOps.
Context {V : Type}.

(** [m[k]] *)
Fixpoint rec_get (k : string) (m : JsRecord V) : option V :=
  match m with
  | [] => None
  | (k', v) :: m' => if String.eqb k k' then Some v else rec_get k m'
  end.

(** [m[k] = v]: an existing property keeps its place. *)
Fixpoint rec_set (k : string) (v : V) (m : JsRecord V) : JsRecord V :=
  match m with
  | [] => [(k, v)]
  | (k', v') :: m' =>
      if String.eqb k k' then (k', v) :: m' else (k', v') :: rec_set k v m'
  end.

Definition rec_keys (m : JsRecord V) : list string := m.*1.
End JsRecordOps.

(** [if (!m[k]) m[k] = []; m[k].push(x)] *)
Definition rec_push (k x : string) (m : JsRecord (list string))
  : JsRecord (list string) :=
  let m1 := match rec_get k m with Some _ => m | None => rec_set k [] m end in
  match rec_get k m1 with
  | Some l => rec_set k (l ++ [x]) m1
  | None => m1
  end.

(** ** The world: host oracles and the file tree under [$PAI_DIR/goals] *)

Record Host : Type := {
  (** the [i]-th reading of [new Date().toISOString()] *)
  iso_time : nat -> string;
  (** the [i]-th reading of [Math.random().toString(36)] *)
  random36 : nat -> string;
  (** [String(Math.round((p || 0) * 100))] of the host's floating point *)
  percent : number -> string
}.

Record World : Type := {
  host : Host;
  ticks : nat;
  active_dir : gmap string Goal;
  archived_dir : gmap string Goal;
  snapshot_files : gmap (string * string) Snapshot;
  branch_files : gmap (string * string) Branch;
  project_dir : gmap string Project;
  index_json : option GoalIndex
}.

Definition set_ticks (n : nat) (w : World) : World :=
  {| host := host w; ticks := n; active_dir := active_dir w;
     archived_dir := archived_dir w; snapshot_files := snapshot_files w;
     branch_files := branch_files w; project_dir := project_dir w;
     index_json := index_json w |}.

Definition set_active_dir (d : gmap string Goal) (w : World) : World :=
  {| host := host w; ticks := ticks w; active_dir := d;
     archived_dir := archived_dir w; snapshot_files := snapshot_files w;
     branch_files := branch_files w; project_dir := project_dir w;
     index_json := index_json w |}.

Definition set_archived_dir (d : gmap string Goal) (w : World) : World :=
  {| host := host w; ticks := ticks w; active_dir := active_dir w;
     archived_dir := d; snapshot_files := snapshot_files w;
     branch_files := branch_files w; project_dir := project_dir w;
     index_json := index_json w |}.

Definition set_snapshot_files (d : gmap (string * string) Snapshot) (w : World)
  : World :=
  {| host := host w; ticks := ticks w; active_dir := active_dir w;
     archived_dir := archived_dir w; snapshot_files := d;
     branch_files := branch_files w; project_dir := project_dir w;
     index_json := index_json w |}.

Definition set_branch_files (d : gmap (string * string) Branch) (w : World)
  : World :=
  {| host := host w; ticks := ticks w; active_dir := active_dir w;
     archived_dir := archived_dir w; snapshot_files := snapshot_files w;
     branch_files := d; project_dir := project_dir w;
     index_json := index_json w |}.

Definition set_project_dir (d : gmap string Project) (w : World) : World :=
  {| host := host w; ticks := ticks w; active_dir := active_dir w;
     archived_dir := archived_dir w; snapshot_files := snapshot_files w;
     branch_files := branch_files w; project_dir := d;
     index_json := index_json w |}.

Definition set_index_json (i : option GoalIndex) (w : World) : World :=
  {| host := host w; ticks := ticks w; active_dir := active_dir w;
     archived_dir := archived_dir w; snapshot_files := snapshot_files w;
     branch_files := branch_files w; project_dir := project_dir w;
     index_json := i |}.

(** The state monad of effectful source functions. *)
Definition M (A : Type) : Type := World -> A * World.

Definition ret {A : Type} (a : A) : M A := fun w => (a, w).

Definition bind {A B : Type} (c : M A) (k : A -> M B) : M B :=
  fun w => let (a, w') := c w in k a w'.

Notation "'let*' x ':=' c 'in' k" := (bind c (fun x => k))
  (at level 10, x name, c at level 100, k at level 200).
Notation "c ';;' k" := (bind c (fun _ => k))
  (at level 100, k at level 200, right associativity).

Definition modify (f : World -> World) : M unit := fun w => (tt, f w).
Definition gets {A : Type} (f : World -> A) : M A := fun w => (f w, w).

(** [new Date().toISOString()] *)
Definition Date_now_iso : M string :=
  fun w => (iso_time (host w) (ticks w), set_ticks (S (ticks w)) w).

(** [Math.random().toString(36)] *)
Definition Math_random_base36 : M string :=
  fun w => (random36 (host w) (ticks w), set_ticks (S (ticks w)) w).

(** ** models/goal.ts: construction and update *)

Definition generateGoalId : M string :=
  let* now := Date_now_iso in
  let timestamp := slice 0 14 (strip_date_punctuation now) in
  let* r := Math_random_base36 in
  let random := slice 2 6 r in
  ret ("goal_" +:+ timestamp +:+ random).

Definition main_branch_ref : BranchReference :=
  {| ref_id := "branch_main"; ref_name := "main"; ref_status := branch_active;
     ref_reason := None; ref_snapshot := None; ref_current := Some true |}.

Definition empty_context : GoalContext :=
  {| primary_files := []; related_files := Some []; sessions := [];
     agents := []; learnings := []; decisions := [] |}.

Definition createGoal (input : CreateGoalInput) (createdBy : string) : M Goal :=
  let* now := Date_now_iso in
  let* id := generateGoalId in
  ret {| goal_id := id;
         goal_created := now;
         goal_updated := now;
         goal_current_state := cgi_current_state input;
         goal_desired_state := cgi_desired_state input;
         goal_verification :=
           {| criteria := default [] (cgi_verification input ≫= pv_criteria);
              method := default manual (cgi_verification input ≫= pv_method);
              test_commands := cgi_verification input ≫= pv_test_commands |};
         goal_status := active;
         goal_progress := Fin 0;
         goal_title := cgi_title input;
         goal_description := or_else (cgi_description input) "";
         goal_tags := default [] (cgi_tags input);
         goal_project := cgi_project input;
         goal_priority := default medium (cgi_priority input);
         goal_parent := cgi_parent input;
         goal_children := [];
         goal_depends_on := [];
         goal_informs := [];
         goal_evolved_from := None;
         goal_context := empty_context;
         goal_branches := [main_branch_ref];
         goal_snapshots := [];
         goal_created_by := createdBy;
         goal_last_touched_by := createdBy |}.

(** [{ ...v, ...p }] *)
Definition merge_verification (v : Verification) (p : PartialVerification)
  : Verification :=
  {| criteria := default (criteria v) (pv_criteria p);
     method := default (method v) (pv_method p);
     test_commands :=
       match pv_test_commands p with
       | Some t => Some t
       | None => test_commands v
       end |}.

Definition updateGoal (goal : Goal) (input : UpdateGoalInput)
    (updatedBy : string) : M Goal :=
  let* now := Date_now_iso in
  ret {| goal_id := goal_id goal;
         goal_created := goal_created goal;
         goal_updated := now;
         goal_current_state :=
           default (goal_current_state goal) (ugi_current_state input);
         goal_desired_state :=
           default (goal_desired_state goal) (ugi_desired_state input);
         goal_verification :=
           match ugi_verification input with
           | Some p => merge_verification (goal_verification goal) p
           | None => goal_verification goal
           end;
         goal_status := default (goal_status goal) (ugi_status input);
         goal_progress := default (goal_progress goal) (ugi_progress input);
         goal_title := default (goal_title goal) (ugi_title input);
         goal_description :=
           default (goal_description goal) (ugi_description input);
         goal_tags := default (goal_tags goal) (ugi_tags input);
         goal_project := goal_project goal;
         goal_priority := default (goal_priority goal) (ugi_priority input);
         goal_parent := goal_parent goal;
         goal_children := goal_children goal;
         goal_depends_on := goal_depends_on goal;
         goal_informs := goal_informs goal;
         goal_evolved_from := goal_evolved_from goal;
         goal_context := goal_context goal;
         goal_branches := goal_branches goal;
         goal_snapshots := goal_snapshots goal;
         goal_created_by := goal_created_by goal;
         goal_last_touched_by := updatedBy |}.

(** [goal.snapshots.push(id)] *)
Definition push_snapshot (id : string) (goal : Goal) : Goal :=
  {| goal_id := goal_id goal;
     goal_created := goal_created goal;
     goal_updated := goal_updated goal;
     goal_current_state := goal_current_state goal;
     goal_desired_state := goal_desired_state goal;
     goal_verification := goal_verification goal;
     goal_status := goal_status goal;
     goal_progress := goal_progress goal;
     goal_title := goal_title goal;
     goal_description := goal_description goal;
     goal_tags := goal_tags goal;
     goal_project := goal_project goal;
     goal_priority := goal_priority goal;
     goal_parent := goal_parent goal;
     goal_children := goal_children goal;
     goal_depends_on := goal_depends_on goal;
     goal_informs := goal_informs goal;
     goal_evolved_from := goal_evolved_from goal;
     goal_context := goal_context goal;
     goal_branches := goal_branches goal;
     goal_snapshots := goal_snapshots goal ++ [id];
     goal_created_by := goal_created_by goal;
     goal_last_touched_by := goal_last_touched_by goal |}.

(** [goal.branches = bs] *)
Definition set_branches (bs : list BranchReference) (goal : Goal) : Goal :=
  {| goal_id := goal_id goal;
     goal_created := goal_created goal;
     goal_updated := goal_updated goal;
     goal_current_state := goal_current_state goal;
     goal_desired_state := goal_desired_state goal;
     goal_verification := goal_verification goal;
     goal_status := goal_status goal;
     goal_progress := goal_progress goal;
     goal_title := goal_title goal;
     goal_description := goal_description goal;
     goal_tags := goal_tags goal;
     goal_project := goal_project goal;
     goal_priority := goal_priority goal;
     goal_parent := goal_parent goal;
     goal_children := goal_children goal;
     goal_depends_on := goal_depends_on goal;
     goal_informs := goal_informs goal;
     goal_evolved_from := goal_evolved_from goal;
     goal_context := goal_context goal;
     goal_branches := bs;
     goal_snapshots := goal_snapshots goal;
     goal_created_by := goal_created_by goal;
     goal_last_touched_by := goal_last_touched_by goal |}.

(** ** models/snapshot.ts *)

Definition generateSnapshotId : M string :=
  let* now := Date_now_iso in
  let timestamp := slice 0 14 (strip_date_punctuation now) in
  let* r := Math_random_base36 in
  let random := slice 2 4 r in
  ret ("snap_" +:+ timestamp +:+ random).

(** [b.current] as a condition *)
Definition is_current (b : BranchReference) : bool :=
  match ref_current b with
  | Some true => true
  | _ => false
  end.

(** [branches.find((b) => b.current)?.id || 'branch_main'] *)
Definition current_branch_id (branches : list BranchReference) : string :=
  or_else (ref_id <$> List.find is_current branches) "branch_main".

(** [xs.length > 0 ? xs[xs.length - 1] : undefined] *)
Definition last_snapshot (snapshots : list string) : option string :=
  match snapshots with
  | [] => None
  | _ :: _ => snapshots !! (length snapshots - 1)
  end.

Definition createSnapshot (goal : Goal) (event summary : string)
    (trigger : SnapshotTrigger) (changes : list FieldChange)
    (session : option string) : M Snapshot :=
  let currentBranch := current_branch_id (goal_branches goal) in
  let previousSnapshot := last_snapshot (goal_snapshots goal) in
  let* id := generateSnapshotId in
  let* created := Date_now_iso in
  ret {| snap_id := id;
         snap_goal_id := goal_id goal;
         snap_created := created;
         snap_trigger := trigger;
         snap_current_state := goal_current_state goal;
         snap_desired_state := goal_desired_state goal;
         snap_progress := goal_progress goal;
         snap_status := goal_status goal;
         snap_event := event;
         snap_summary := summary;
         snap_changes := changes;
         snap_previous_snapshot := previousSnapshot;
         snap_branch := currentBranch;
         snap_session := session |}.

(** The fields compared by [computeChanges]; every call site of the
    sources uses the default field list. *)
Inductive GoalField : Type :=
| field_progress | field_status | field_current_state | field_desired_state.

Definition default_fields : list GoalField :=
  [field_progress; field_status; field_current_state; field_desired_state].

Definition field_name (f : GoalField) : string :=
  match f with
  | field_progress => "progress"
  | field_status => "status"
  | field_current_state => "current_state"
  | field_desired_state => "desired_state"
  end.

(** [goal[field]] *)
Definition field_value (goal : Goal) (f : GoalField) : FieldValue :=
  match f with
  | field_progress => VNumber (goal_progress goal)
  | field_status => VStatus (goal_status goal)
  | field_current_state => VString (goal_current_state goal)
  | field_desired_state => VString (goal_desired_state goal)
  end.

Definition status_eqb (a b : GoalStatus) : bool :=
  match a, b with
  | active, active | paused, paused | completed, completed
  | abandoned, abandoned | blocked, blocked => true
  | _, _ => false
  end.

(** [JSON.stringify(a) === JSON.stringify(b)] on field values of one field *)
Definition json_eqb (a b : FieldValue) : bool :=
  match a, b with
  | VNumber x, VNumber y => json_num_eqb x y
  | VStatus x, VStatus y => status_eqb x y
  | VString x, VString y => String.eqb x y
  | _, _ => false
  end.

Definition computeChanges (before after : Goal) (fields : list GoalField)
  : list FieldChange :=
  flat_map (fun f =>
    let fromVal := field_value before f in
    let toVal := field_value after f in
    if json_eqb fromVal toVal then []
    else [ {| fc_field := field_name f; fc_from := Some fromVal;
              fc_to := Some toVal; fc_added := None; fc_removed := None |} ])
    fields.

(** ** models/branch.ts *)

Definition generateBranchId (name : string) : string :=
  let slug := slice 0 20 (underscore_runs false (toLowerCase name)) in
  "branch_" +:+ slug.

(** [xs.length > 0 ? xs[xs.length - 1] : ''] *)
Definition latest_snapshot (snapshots : list string) : string :=
  match snapshots with
  | [] => ""
  | _ :: _ => default "" (snapshots !! (length snapshots - 1))
  end.

Definition createBranch (goal : Goal) (name description : string) : M Branch :=
  let* now := Date_now_iso in
  let currentBranch := current_branch_id (goal_branches goal) in
  let latestSnapshot := latest_snapshot (goal_snapshots goal) in
  ret {| br_id := generateBranchId name;
         br_goal_id := goal_id goal;
         br_created := now;
         br_updated := now;
         br_name := name;
         br_description := description;
         br_status := branch_active;
         br_parent_branch := currentBranch;
         br_branch_point := latestSnapshot;
         br_current_state := None;
         br_progress := None;
         br_snapshots := [];
         br_resolution := None;
         br_merged_to := None;
         br_merge_snapshot := None |}.

(** [{ ...branch, status: 'abandoned', updated, resolution }] *)
Definition abandonBranch (branch : Branch) (reason decidedBy : string)
  : M Branch :=
  let* updated := Date_now_iso in
  let* decided := Date_now_iso in
  ret {| br_id := br_id branch;
         br_goal_id := br_goal_id branch;
         br_created := br_created branch;
         br_updated := updated;
         br_name := br_name branch;
         br_description := br_description branch;
         br_status := branch_abandoned;
         br_parent_branch := br_parent_branch branch;
         br_branch_point := br_branch_point branch;
         br_current_state := br_current_state branch;
         br_progress := br_progress branch;
         br_snapshots := br_snapshots branch;
         br_resolution :=
           Some {| res_status := resolved_abandoned;
                   res_reason := Some reason;
                   res_decided := decided;
                   res_decided_by := decidedBy |};
         br_merged_to := br_merged_to branch;
         br_merge_snapshot := br_merge_snapshot branch |}.

Definition mergeBranch (branch : Branch)
    (targetBranch mergeSnapshot decidedBy : string) : M Branch :=
  let* updated := Date_now_iso in
  let* decided := Date_now_iso in
  ret {| br_id := br_id branch;
         br_goal_id := br_goal_id branch;
         br_created := br_created branch;
         br_updated := updated;
         br_name := br_name branch;
         br_description := br_description branch;
         br_status := branch_merged;
         br_parent_branch := br_parent_branch branch;
         br_branch_point := br_branch_point branch;
         br_current_state := br_current_state branch;
         br_progress := br_progress branch;
         br_snapshots := br_snapshots branch;
         br_resolution :=
           Some {| res_status := resolved_merged;
                   res_reason := None;
                   res_decided := decided;
                   res_decided_by := decidedBy |};
         br_merged_to := Some targetBranch;
         br_merge_snapshot := Some mergeSnapshot |}.

(** ** models/project.ts *)

(** [ids.filter((id) => id !== goalId)] *)
Definition without (goalId : string) (ids : list string) : list string :=
  List.filter (fun id => negb (String.eqb id goalId)) ids.

(** The declared type of [status] has the first four values; the call in
    [update] casts a [GoalStatus] to it, so [blocked] can reach the
    [switch], where it matches no case. *)
Definition addGoalToProject (project : Project) (goalId : string)
    (status : GoalStatus) : M Project :=
  let* now := Date_now_iso in
  let active1 := without goalId (active_goals project) in
  let paused1 := without goalId (paused_goals project) in
  let completed1 := without goalId (completed_goals project) in
  let abandoned1 := without goalId (abandoned_goals project) in
  ret {| proj_id := proj_id project;
         proj_name := proj_name project;
         proj_path := proj_path project;
         proj_created := proj_created project;
         proj_updated := now;
         proj_repo := proj_repo project;
         proj_branch := proj_branch project;
         proj_aliases := proj_aliases project;
         proj_auto_detect := proj_auto_detect project;
         proj_description := proj_description project;
         active_goals :=
           match status with active => active1 ++ [goalId] | _ => active1 end;
         paused_goals :=
           match status with paused => paused1 ++ [goalId] | _ => paused1 end;
         completed_goals :=
           match status with
           | completed => completed1 ++ [goalId]
           | _ => completed1
           end;
         abandoned_goals :=
           match status with
           | abandoned => abandoned1 ++ [goalId]
           | _ => abandoned1
           end;
         default_agents := default_agents project;
         tech_stack := tech_stack project;
         conventions := conventions project |}.

Definition pathMatchesProject (project : Project) (testPath : string) : bool :=
  if negb (proj_auto_detect project) then false
  else
    let normalizedTestPath := strip_trailing_slashes testPath in
    if String.eqb normalizedTestPath (proj_path project)
       || startsWith normalizedTestPath (proj_path project +:+ "/")
    then true
    else
      existsb (fun alias =>
        let normalizedAlias := strip_trailing_slashes alias in
        String.eqb normalizedTestPath normalizedAlias
        || startsWith normalizedTestPath (normalizedAlias +:+ "/"))
        (proj_aliases project).

(** The loop state of [findBestMatchingProject]: [bestMatch] and
    [bestMatchLength]. *)
Definition best_match_step (testPath : string)
    (acc : option Project * nat) (project : Project) : option Project * nat :=
  if negb (pathMatchesProject project testPath) then acc
  else
    let matchLength := String.length (proj_path project) in
    let acc1 :=
      if (acc.2 <? matchLength)%nat then (Some project, matchLength) else acc in
    fold_left (fun a alias =>
      if startsWith testPath alias && (a.2 <? String.length alias)%nat
      then (Some project, String.length alias) else a)
      (proj_aliases project) acc1.

Definition findBestMatchingProject (projects : list Project)
    (testPath : string) : option Project :=
  (fold_left (best_match_step testPath) projects (None, 0%nat)).1.

Definition generateProjectId (name : string) : string :=
  let slug := slice 0 30 (underscore_runs false (toLowerCase name)) in
  "proj_" +:+ slug.

Record CreateProjectInput : Type := {
  cpi_name : string;
  cpi_path : string;
  cpi_description : option string;
  cpi_repo : option string;
  cpi_branch : option string;
  cpi_aliases : option (list string);
  cpi_auto_detect : option bool;
  cpi_tech_stack : option (list string);
  cpi_conventions : option (list string)
}.

Definition createProject (input : CreateProjectInput) : M Project :=
  let* now := Date_now_iso in
  let normalizedPath := strip_trailing_slashes (cpi_path input) in
  ret {| proj_id := generateProjectId (cpi_name input);
         proj_name := cpi_name input;
         proj_path := normalizedPath;
         proj_created := now;
         proj_updated := now;
         proj_repo := cpi_repo input;
         proj_branch := Some (or_else (cpi_branch input) "main");
         proj_aliases := default [] (cpi_aliases input);
         proj_auto_detect := default true (cpi_auto_detect input);
         proj_description := or_else (cpi_description input) "";
         active_goals := [];
         paused_goals := [];
         completed_goals := [];
         abandoned_goals := [];
         default_agents := [];
         tech_stack := default [] (cpi_tech_stack input);
         conventions := default [] (cpi_conventions input) |}.

Definition getAllProjectGoals (project : Project) : list string :=
  active_goals project ++ paused_goals project
  ++ completed_goals project ++ abandoned_goals project.

(** ** storage/yaml-store.ts *)

(** The entries of a directory as [readdirSync] lists them. *)
Definition readdirSync {V : Type} (dir : gmap string V) : list string :=
  (map_to_list dir).*1.

(** [join(dir, `${id}.yaml`)], relative to its directory. *)
Definition yaml_file (id : string) : string := id +:+ ".yaml".

(** [names.filter((f) => f.endsWith('.yaml')).map((f) => f.replace('.yaml', ''))] *)
Definition yaml_ids (names : list string) : list string :=
  List.map (fun f => replace_first ".yaml" "" f)
           (List.filter (fun f => endsWith f ".yaml") names).

Definition saveGoal (goal : Goal) : M unit :=
  modify (fun w =>
    set_active_dir (<[yaml_file (goal_id goal) := goal]> (active_dir w)) w).

Definition loadGoal (goalId : string) : M (option Goal) :=
  gets (fun w =>
    match active_dir w !! yaml_file goalId with
    | Some goal => Some goal
    | None => archived_dir w !! yaml_file goalId
    end).

Definition archiveGoal (goalId : string) : M bool :=
  fun w =>
    match active_dir w !! yaml_file goalId with
    | None => (false, w)
    | Some doc =>
        (true,
         set_archived_dir (<[yaml_file goalId := doc]> (archived_dir w))
           (set_active_dir (delete (yaml_file goalId) (active_dir w)) w))
    end.

Definition listGoals (includeArchived : bool) : M (list string) :=
  gets (fun w =>
    let activeFiles := yaml_ids (readdirSync (active_dir w)) in
    if negb includeArchived then activeFiles
    else
      let archivedFiles := yaml_ids (readdirSync (archived_dir w)) in
      activeFiles ++ archivedFiles).

(** [for (const id of ids) { const x = load(id); if (x) out.push(x) }] *)
Fixpoint load_each {A : Type} (load : string -> M (option A))
    (ids : list string) : M (list A) :=
  match ids with
  | [] => ret []
  | id :: rest =>
      let* x := load id in
      let* xs := load_each load rest in
      ret (match x with Some a => a :: xs | None => xs end)
  end.

Definition loadAllGoals (includeArchived : bool) : M (list Goal) :=
  let* ids := listGoals includeArchived in
  load_each loadGoal ids.

Definition saveSnapshot (snapshot : Snapshot) : M unit :=
  modify (fun w =>
    set_snapshot_files
      (<[(snap_goal_id snapshot, yaml_file (snap_id snapshot)) := snapshot]>
         (snapshot_files w)) w).

Definition saveBranch (branch : Branch) : M unit :=
  modify (fun w =>
    set_branch_files
      (<[(br_goal_id branch, yaml_file (br_id branch)) := branch]>
         (branch_files w)) w).

Definition saveProject (project : Project) : M unit :=
  modify (fun w =>
    set_project_dir (<[yaml_file (proj_id project) := project]> (project_dir w))
      w).

Definition loadProject (projectId : string) : M (option Project) :=
  gets (fun w => project_dir w !! yaml_file projectId).

Definition listProjects : M (list string) :=
  gets (fun w => yaml_ids (readdirSync (project_dir w))).

Definition loadAllProjects : M (list Project) :=
  let* ids := listProjects in
  load_each loadProject ids.

Definition findProjectByPath (path : string) : M (option Project) :=
  let* projects := loadAllProjects in
  ret (findBestMatchingProject projects path).

(** [JSON.parse(JSON.stringify(entry))]: strings, string arrays and the
    optional parent come back as they are, the progress through
    [JSON_number]. *)
Definition JSON_entry (entry : GoalIndexEntry) : GoalIndexEntry :=
  {| entry_title := entry_title entry;
     entry_status := entry_status entry;
     entry_progress := JSON_number (entry_progress entry);
     entry_project := entry_project entry;
     entry_parent := entry_parent entry;
     entry_children := entry_children entry;
     entry_tags := entry_tags entry;
     entry_updated := entry_updated entry |}.

(** [JSON.parse(JSON.stringify(index, null, 2))] *)
Definition JSON_index (index : GoalIndex) : GoalIndex :=
  {| idx_generated := idx_generated index;
     idx_goals := List.map (fun kv => (kv.1, JSON_entry kv.2)) (idx_goals index);
     idx_by_status := idx_by_status index;
     idx_by_project := idx_by_project index;
     idx_by_tag := idx_by_tag index;
     idx_edges := idx_edges index |}.

(** [writeFileSync(paths.index(), JSON.stringify(index, null, 2))]: the
    file holds the index as [JSON.parse] reads it back. *)
Definition saveIndex (index : GoalIndex) : M unit :=
  modify (set_index_json (Some (JSON_index index))).

(** [JSON.parse(readFileSync(paths.index()))], [null] without the file. *)
Definition loadIndex : M (option GoalIndex) := gets index_json.

Definition deleteGoal (goalId : string) : M bool :=
  fun w =>
    let inActive := bool_decide (is_Some (active_dir w !! yaml_file goalId)) in
    let w1 :=
      if inActive
      then set_active_dir (delete (yaml_file goalId) (active_dir w)) w
      else w in
    let inArchived :=
      bool_decide (is_Some (archived_dir w1 !! yaml_file goalId)) in
    let w2 :=
      if inArchived
      then set_archived_dir (delete (yaml_file goalId) (archived_dir w1)) w1
      else w1 in
    (inActive || inArchived, w2).

Definition loadSnapshot (goalId snapshotId : string) : M (option Snapshot) :=
  gets (fun w => snapshot_files w !! (goalId, yaml_file snapshotId)).

Definition loadBranch (goalId branchId : string) : M (option Branch) :=
  gets (fun w => branch_files w !! (goalId, yaml_file branchId)).

(** ** storage/index-builder.ts *)

Definition createEmptyIndex : M GoalIndex :=
  let* now := Date_now_iso in
  ret {| idx_generated := now; idx_goals := []; idx_by_status := [];
         idx_by_project := []; idx_by_tag := []; idx_edges := [] |}.

Definition status_name (s : GoalStatus) : string :=
  match s with
  | active => "active"
  | paused => "paused"
  | completed => "completed"
  | abandoned => "abandoned"
  | blocked => "blocked"
  end.

(** [x ? [edge] : []] for an optional id: the empty string is falsy. *)
Definition edge_if (o : option string) (mk : string -> GraphEdge)
  : list GraphEdge :=
  match o with
  | Some s => if truthy s then [mk s] else []
  | None => []
  end.

(** One iteration of the loop of [buildIndex]. *)
Definition index_goal (index : GoalIndex) (goal : Goal) : GoalIndex :=
  let entry :=
    {| entry_title := goal_title goal;
       entry_status := goal_status goal;
       entry_progress := JNum (goal_progress goal);
       entry_project := goal_project goal;
       entry_parent := goal_parent goal;
       entry_children := goal_children goal;
       entry_tags := goal_tags goal;
       entry_updated := goal_updated goal |} in
  let id := goal_id goal in
  {| idx_generated := idx_generated index;
     idx_goals := rec_set id entry (idx_goals index);
     idx_by_status :=
       rec_push (status_name (goal_status goal)) id (idx_by_status index);
     idx_by_project := rec_push (goal_project goal) id (idx_by_project index);
     idx_by_tag :=
       fold_left (fun m tag => rec_push tag id m) (goal_tags goal)
                 (idx_by_tag index);
     idx_edges :=
       idx_edges index
       ++ edge_if (goal_parent goal) (fun p =>
            {| edge_from := p; edge_to := id; edge_type := edge_parent |})
       ++ List.map (fun childId =>
            {| edge_from := id; edge_to := childId; edge_type := edge_child |})
            (goal_children goal)
       ++ List.map (fun depId =>
            {| edge_from := id; edge_to := depId;
               edge_type := edge_depends_on |})
            (goal_depends_on goal)
       ++ List.map (fun informsId =>
            {| edge_from := id; edge_to := informsId;
               edge_type := edge_informs |})
            (goal_informs goal)
       ++ edge_if (goal_evolved_from goal) (fun e =>
            {| edge_from := e; edge_to := id;
               edge_type := edge_evolved_from |}) |}.

Definition set_generated (now : string) (index : GoalIndex) : GoalIndex :=
  {| idx_generated := now; idx_goals := idx_goals index;
     idx_by_status := idx_by_status index;
     idx_by_project := idx_by_project index; idx_by_tag := idx_by_tag index;
     idx_edges := idx_edges index |}.

Definition buildIndex (goals : list Goal) : M GoalIndex :=
  let* index := createEmptyIndex in
  let* now := Date_now_iso in
  ret (fold_left index_goal goals (set_generated now index)).

Definition rebuildIndex : M GoalIndex :=
  let* goals := loadAllGoals true in
  let* index := buildIndex goals in
  saveIndex index;;
  ret index.

Definition getIndex : M GoalIndex :=
  let* cached := loadIndex in
  match cached with
  | Some index => ret index
  | None =>
      let* goals := loadAllGoals true in
      let* index := buildIndex goals in
      saveIndex index;;
      ret index
  end.

(** [index.goals[goalId]?.parent] *)
Definition getParentGoal (goalId : string) : M (option string) :=
  let* index := getIndex in
  ret (rec_get goalId (idx_goals index) ≫= entry_parent).

(** The [while (current)] loop of [getAncestors]; [fuel] bounds the number
    of iterations, and [None] means that the bound was reached with the
    loop still running. *)
Fixpoint ancestors_loop (fuel : nat) (current : option string)
    (ancestors : list string) : M (option (list string)) :=
  match current with
  | None => ret (Some ancestors)
  | Some c =>
      if negb (truthy c) then ret (Some ancestors)
      else
        match fuel with
        | O => ret None
        | S fuel' =>
            let* next := getParentGoal c in
            ancestors_loop fuel' next (ancestors ++ [c])
        end
  end.

Definition getAncestors (fuel : nat) (goalId : string)
  : M (option (list string)) :=
  let* current := getParentGoal goalId in
  ancestors_loop fuel current [].

(** [index.by_status[status] || []] *)
Definition getGoalsByStatus (status : string) : M (list string) :=
  let* index := getIndex in
  ret (default [] (rec_get status (idx_by_status index))).

Definition getGoalsByProject (project : string) : M (list string) :=
  let* index := getIndex in
  ret (default [] (rec_get project (idx_by_project index))).

Definition getGoalsByTag (tag : string) : M (list string) :=
  let* index := getIndex in
  ret (default [] (rec_get tag (idx_by_tag index))).

(** [ids.includes(id)], [set.has(id)] *)
Definition has_id (id : string) (ids : list string) : bool :=
  existsb (String.eqb id) ids.

(** [[...new Set(ids)]]: the ids without repetition, in the order of their
    first occurrence. *)
Definition set_elements (ids : list string) : list string :=
  fold_left (fun seen id => if has_id id seen then seen else seen ++ [id])
            ids [].

Definition getGoalsByTags (tags : list string) : M (list string) :=
  let* index := getIndex in
  match tags with
  | [] => ret []
  | first :: others =>
      let result :=
        set_elements (default [] (rec_get first (idx_by_tag index))) in
      ret (fold_left (fun result tag =>
             let tagGoals :=
               set_elements (default [] (rec_get tag (idx_by_tag index))) in
             set_elements (List.filter (fun id => has_id id tagGoals) result))
             others result)
  end.

Definition getActiveGoals : M (list string) := getGoalsByStatus "active".

Definition edge_type_eqb (a b : EdgeType) : bool :=
  match a, b with
  | edge_parent, edge_parent | edge_child, edge_child
  | edge_depends_on, edge_depends_on | edge_informs, edge_informs
  | edge_evolved_from, edge_evolved_from => true
  | _, _ => false
  end.

Definition getChildGoals (parentId : string) : M (list string) :=
  let* index := getIndex in
  ret (List.map edge_to
         (List.filter (fun e => String.eqb (edge_from e) parentId
                                && edge_type_eqb (edge_type e) edge_parent)
                      (idx_edges index))).

(** [getDescendants]; [fuel] bounds the depth of the recursive calls, and
    [None] means that the bound was reached. *)
Fixpoint getDescendants (fuel : nat) (goalId : string)
  : M (option (list string)) :=
  match fuel with
  | O => ret None
  | S fuel' =>
      let* children := getChildGoals goalId in
      (fix each_child (children descendants : list string)
         : M (option (list string)) :=
         match children with
         | [] => ret (Some descendants)
         | child :: rest =>
             let* below := getDescendants fuel' child in
             match below with
             | None => ret None
             | Some below => each_child rest (descendants ++ [child] ++ below)
             end
         end) children []
  end.

(** [s.includes(sub)] *)
Fixpoint includes (s sub : string) : bool :=
  String.prefix sub s
  || match s with
     | EmptyString => false
     | String _ s' => includes s' sub
     end.

Definition searchGoals (query : string) : M (list string) :=
  let* index := getIndex in
  let lowerQuery := toLowerCase query in
  ret (List.map fst
         (List.filter (fun e => includes (toLowerCase (entry_title e.2))
                                         lowerQuery)
                      (idx_goals index))).



(** ** storage/goal-service.ts *)

Module GoalService.

(** [create(input, { createdBy, autoSnapshot, autoIndex })]; the defaults
    of the options are ['main'], [true] and [true]. *)
Definition create (input : CreateGoalInput) (createdBy : string)
    (autoSnapshot autoIndex : bool) : M Goal :=
  let* goal := createGoal input createdBy in
  saveGoal goal;;
  let* goal :=
    if autoSnapshot then
      let* snapshot :=
        createSnapshot goal "Goal created"
          ("Initial goal: " +:+ goal_title goal) trigger_manual [] None in
      let goal := push_snapshot (snap_id snapshot) goal in
      saveSnapshot snapshot;;
      saveGoal goal;;
      ret goal
    else ret goal in
  let* project := findProjectByPath (cgi_project input) in
  match project with
  | Some project =>
      let* updatedProject := addGoalToProject project (goal_id goal) active in
      saveProject updatedProject
  | None => ret tt
  end;;
  (if autoIndex then rebuildIndex;; ret tt else ret tt);;
  ret goal.

Definition generateSnapshotEvent (input : UpdateGoalInput) : string :=
  match ugi_status input with
  | Some completed => "Goal completed"
  | Some abandoned => "Goal abandoned"
  | Some paused => "Goal paused"
  | Some active => "Goal resumed"
  | _ =>
      match ugi_progress input with
      | Some _ => "Progress updated"
      | None => "Goal updated"
      end
  end.

Definition newline : string := String (ascii_of_nat 10) EmptyString.

(** [lines.join('\n')] *)
Fixpoint join_lines (lines : list string) : string :=
  match lines with
  | [] => ""
  | [l] => l
  | l :: rest => l +:+ newline +:+ join_lines rest
  end.

Definition generateSnapshotSummary (h : Host) (before after : Goal)
    (changes : list FieldChange) : string :=
  join_lines
    (List.map (fun change =>
       if String.eqb (fc_field change) "progress" then
         "Progress: " +:+ percent h (goal_progress before) +:+ "% → "
           +:+ percent h (goal_progress after) +:+ "%"
       else if String.eqb (fc_field change) "status" then
         "Status: " +:+ status_name (goal_status before) +:+ " → "
           +:+ status_name (goal_status after)
       else fc_field change +:+ " updated")
       changes).

(** [update(goalId, input, { updatedBy, autoSnapshot, snapshotEvent,
    autoIndex })]; the defaults of the options are ['main'], [true],
    [undefined] and [true]. *)
Definition update (goalId : string) (input : UpdateGoalInput)
    (updatedBy : string) (autoSnapshot : bool) (snapshotEvent : option string)
    (autoIndex : bool) : M (option Goal) :=
  let* loaded := loadGoal goalId in
  match loaded with
  | None => ret None
  | Some goal =>
      let previousState := goal in
      let* updatedGoal := updateGoal goal input updatedBy in
      let* updatedGoal :=
        if autoSnapshot
           && (bool_decide (is_Some (ugi_progress input))
               || bool_decide (is_Some (ugi_status input)))
        then
          let changes :=
            computeChanges previousState updatedGoal default_fields in
          match changes with
          | [] => ret updatedGoal
          | _ :: _ =>
              let event :=
                or_else snapshotEvent (generateSnapshotEvent input) in
              let* h := gets host in
              let summary :=
                generateSnapshotSummary h previousState updatedGoal changes in
              let* snapshot :=
                createSnapshot updatedGoal event summary
                  trigger_auto_progress changes None in
              let updatedGoal :=
                push_snapshot (snap_id snapshot) updatedGoal in
              saveSnapshot snapshot;;
              ret updatedGoal
          end
        else ret updatedGoal in
      saveGoal updatedGoal;;
      match ugi_status input with
      | Some status =>
          if negb (status_eqb status (goal_status previousState)) then
            let* project := findProjectByPath (goal_project updatedGoal) in
            match project with
            | Some project =>
                let* updatedProject :=
                  addGoalToProject project goalId status in
                saveProject updatedProject
            | None => ret tt
            end
          else ret tt
      | None => ret tt
      end;;
      (if autoIndex then rebuildIndex;; ret tt else ret tt);;
      ret (Some updatedGoal)
  end.

Definition archive (goalId : string) (autoIndex : bool) : M bool :=
  let* result := archiveGoal goalId in
  (if result && autoIndex then rebuildIndex;; ret tt else ret tt);;
  ret result.

Definition progress_only (p : number) : UpdateGoalInput :=
  {| ugi_title := None; ugi_current_state := None;
     ugi_desired_state := None; ugi_description := None;
     ugi_status := None; ugi_progress := Some p; ugi_tags := None;
     ugi_priority := None; ugi_verification := None |}.

Definition setProgress (goalId : string) (progress : number)
    (updatedBy : string) : M (option Goal) :=
  let clampedProgress := Math_max (Fin 0) (Math_min (Fin 1) progress) in
  update goalId (progress_only clampedProgress) updatedBy true None true.

Definition createGoalBranch (goalId name description : string)
  : M (option Branch) :=
  let* loaded := loadGoal goalId in
  match loaded with
  | None => ret None
  | Some goal =>
      let* branchSnapshot :=
        createSnapshot goal ("Branch created: " +:+ name)
          ("Starting exploration: " +:+ or_else (Some description) name)
          trigger_branch_create [] None in
      let goal := push_snapshot (snap_id branchSnapshot) goal in
      saveSnapshot branchSnapshot;;
      let* branch := createBranch goal name description in
      saveBranch branch;;
      let goal :=
        set_branches
          (goal_branches goal
           ++ [ {| ref_id := br_id branch; ref_name := br_name branch;
                   ref_status := branch_active; ref_reason := None;
                   ref_snapshot := None; ref_current := None |} ])
          goal in
      saveGoal goal;;
      rebuildIndex;;
      ret (Some branch)
  end.

(** [{ ...b, current: b.id === branchId }] *)
Definition flag_current (branchId : string) (b : BranchReference)
  : BranchReference :=
  {| ref_id := ref_id b; ref_name := ref_name b; ref_status := ref_status b;
     ref_reason := ref_reason b; ref_snapshot := ref_snapshot b;
     ref_current := Some (String.eqb (ref_id b) branchId) |}.

Definition switchBranch (goalId branchId : string) : M (option Goal) :=
  let* loaded := loadGoal goalId in
  match loaded with
  | None => ret None
  | Some goal =>
      let goal :=
        set_branches (List.map (flag_current branchId) (goal_branches goal))
                     goal in
      saveGoal goal;;
      ret (Some goal)
  end.

Definition status_only (status : GoalStatus) : UpdateGoalInput :=
  {| ugi_title := None; ugi_current_state := None;
     ugi_desired_state := None; ugi_description := None;
     ugi_status := Some status; ugi_progress := None; ugi_tags := None;
     ugi_priority := None; ugi_verification := None |}.

Definition completed_patch : UpdateGoalInput :=
  {| ugi_title := None; ugi_current_state := None;
     ugi_desired_state := None; ugi_description := None;
     ugi_status := Some completed; ugi_progress := Some (Fin 1);
     ugi_tags := None; ugi_priority := None; ugi_verification := None |}.

Definition complete (goalId : string) (summary : option string)
    (updatedBy : string) : M (option Goal) :=
  let* goal :=
    update goalId completed_patch updatedBy true (Some "Goal completed") true in
  match goal, summary with
  | Some goal, Some summary =>
      if truthy summary then
        let* snapshot :=
          createSnapshot goal "Goal completed" summary trigger_milestone []
                         None in
        let goal := push_snapshot (snap_id snapshot) goal in
        saveSnapshot snapshot;;
        saveGoal goal;;
        ret (Some goal)
      else ret (Some goal)
  | _, _ => ret goal
  end.

Definition abandon (goalId reason updatedBy : string) : M (option Goal) :=
  update goalId (status_only abandoned) updatedBy true
         (Some ("Goal abandoned: " +:+ reason)) true.

Definition pause (goalId updatedBy : string) : M (option Goal) :=
  update goalId (status_only paused) updatedBy true (Some "Goal paused") true.

Definition resume (goalId updatedBy : string) : M (option Goal) :=
  update goalId (status_only active) updatedBy true (Some "Goal resumed") true.

Definition getSnapshot (goalId snapshotId : string) : M (option Snapshot) :=
  loadSnapshot goalId snapshotId.

Definition createManualSnapshot (goalId event summary : string)
  : M (option Snapshot) :=
  let* loaded := loadGoal goalId in
  match loaded with
  | None => ret None
  | Some goal =>
      let* snapshot :=
        createSnapshot goal event summary trigger_manual [] None in
      let goal := push_snapshot (snap_id snapshot) goal in
      saveSnapshot snapshot;;
      saveGoal goal;;
      ret (Some snapshot)
  end.

(** [b.id === branchId ? { ...b, status: 'abandoned', reason } : b] *)
Definition mark_abandoned (branchId reason : string) (b : BranchReference)
  : BranchReference :=
  if String.eqb (ref_id b) branchId then
    {| ref_id := ref_id b; ref_name := ref_name b;
       ref_status := branch_abandoned; ref_reason := Some reason;
       ref_snapshot := ref_snapshot b; ref_current := ref_current b |}
  else b.

Definition abandonGoalBranch (goalId branchId reason decidedBy : string)
  : M (option Branch) :=
  let* loaded := loadBranch goalId branchId in
  match loaded with
  | None => ret None
  | Some branch =>
      let* abandoned := abandonBranch branch reason decidedBy in
      saveBranch abandoned;;
      let* goal := loadGoal goalId in
      match goal with
      | Some goal =>
          saveGoal
            (set_branches
               (List.map (mark_abandoned branchId reason) (goal_branches goal))
               goal)
      | None => ret tt
      end;;
      rebuildIndex;;
      ret (Some abandoned)
  end.

(** [a || b] for optional strings *)
Definition or_option (a b : option string) : option string :=
  match a with
  | Some s => if truthy s then Some s else b
  | None => b
  end.

Definition registerProject (input : CreateProjectInput) : M Project :=
  let* existing := findProjectByPath (cpi_path input) in
  match existing with
  | Some existing =>
      let* now := Date_now_iso in
      let updated :=
        {| proj_id := proj_id existing;
           proj_name := cpi_name input;
           proj_path := proj_path existing;
           proj_created := proj_created existing;
           proj_updated := now;
           proj_repo := or_option (cpi_repo input) (proj_repo existing);
           proj_branch := or_option (cpi_branch input) (proj_branch existing);
           proj_aliases :=
             default (proj_aliases existing) (cpi_aliases input);
           proj_auto_detect :=
             default (proj_auto_detect existing) (cpi_auto_detect input);
           proj_description :=
             or_else (cpi_description input) (proj_description existing);
           active_goals := active_goals existing;
           paused_goals := paused_goals existing;
           completed_goals := completed_goals existing;
           abandoned_goals := abandoned_goals existing;
           default_agents := default_agents existing;
           tech_stack := default (tech_stack existing) (cpi_tech_stack input);
           conventions :=
             default (conventions existing) (cpi_conventions input) |} in
      saveProject updated;;
      ret updated
  | None =>
      let* project := createProject input in
      saveProject project;;
      ret project
  end.

Definition getOrCreateProject (name path description : string) : M Project :=
  registerProject
    {| cpi_name := name; cpi_path := path;
       cpi_description := Some description; cpi_repo := None;
       cpi_branch := None; cpi_aliases := None; cpi_auto_detect := None;
       cpi_tech_stack := None; cpi_conventions := None |}.

Definition detectProjectFromPath (path : string) : M (option Project) :=
  let* projects := loadAllProjects in
  ret (findBestMatchingProject projects path).

Definition getProjectGoals (projectId : string) : M (list Goal) :=
  let* project := loadProject projectId in
  match project with
  | None => ret []
  | Some project => load_each loadGoal (getAllProjectGoals project)
  end.

Definition getProjectActiveGoals (projectId : string) : M (list Goal) :=
  let* project := loadProject projectId in
  match project with
  | None => ret []
  | Some project => load_each loadGoal (active_goals project)
  end.

End GoalService.

(** ** The session state model *)

Record RecentFile : Type := {
  rf_path : string;
  rf_last_edit : string
}.

Inductive ActiveAgentStatus : Type :=
| active_agent_pending | active_agent_working | active_agent_completed
| active_agent_failed.

Record ActiveAgent : Type := {
  act_id : string;
  act_task : string;
  act_started : string;
  act_status : ActiveAgentStatus
}.

Record ActiveContext : Type := {
  ctx_goal : string;
  ctx_branch : string;
  ctx_focus : string;
  ctx_recent_files : list RecentFile;
  ctx_pending_questions : list string;
  ctx_pending_tasks : list string;
  ctx_active_agents : list ActiveAgent
}.

Inductive ParallelStatus : Type := parallel_active | parallel_paused.

Record ParallelContext : Type := {
  pc_goal : string;
  pc_project : string;
  pc_status : ParallelStatus;
  pc_last_summary : string
}.

Record SessionState : Type := {
  ss_last_updated : string;
  ss_last_device : string;
  ss_last_session : string;
  ss_active_context : option ActiveContext;
  ss_resume_prompt : string;
  ss_parallel_contexts : list ParallelContext
}.

(** [createEmptySessionState(device)]; the default of [device] is
    ['unknown']. *)
Definition createEmptySessionState (device : string) : M SessionState :=
  let* now := Date_now_iso in
  ret {| ss_last_updated := now;
         ss_last_device := device;
         ss_last_session := "";
         ss_active_context := None;
         ss_resume_prompt := "No previous session context available.";
         ss_parallel_contexts := [] |}.

(** [xs.findIndex(p)], with [None] for [-1]. *)
Fixpoint findIndex {A : Type} (p : A -> bool) (xs : list A) : option nat :=
  match xs with
  | [] => None
  | x :: rest => if p x then Some 0 else S <$> findIndex p rest
  end.

Definition addParallelContext (state : SessionState)
    (context : ParallelContext) : M SessionState :=
  let existing :=
    findIndex (fun c => String.eqb (pc_goal c) (pc_goal context))
              (ss_parallel_contexts state) in
  let parallel :=
    match existing with
    | Some i => <[i := context]> (ss_parallel_contexts state)
    | None => ss_parallel_contexts state ++ [context]
    end in
  let* now := Date_now_iso in
  ret {| ss_last_updated := now;
         ss_last_device := ss_last_device state;
         ss_last_session := ss_last_session state;
         ss_active_context := ss_active_context state;
         ss_resume_prompt := ss_resume_prompt state;
         ss_parallel_contexts := parallel |}.

(** * Vocabulary of the specification *)

(** ** Branch references *)

(** Number of branch references with [current = true]. *)
Definition count_current (branches : list BranchReference) : nat :=
  length (List.filter is_current branches).

(** Number of branch references with a given id. *)
Definition count_id (branchId : string) (branches : list BranchReference)
  : nat :=
  length (List.filter (fun b => String.eqb (ref_id b) branchId) branches).

(** [reflagged branchId b b']: [b'] is the branch reference [b] with its
    [current] flag set anew: true when the id of [b] is [branchId], false
    otherwise; nothing else differs. *)
Definition reflagged (branchId : string) (b b' : BranchReference) : Prop :=
  ref_id b' = ref_id b /\
  ref_name b' = ref_name b /\
  ref_status b' = ref_status b /\
  ref_reason b' = ref_reason b /\
  ref_snapshot b' = ref_snapshot b /\
  (ref_id b = branchId -> ref_current b' = Some true) /\
  (ref_id b <> branchId -> ref_current b' = Some false).

(** The branch that a goal is on, as the specification words it: the id of
    the (first) branch reference flagged [current], and [branch_main] when
    no reference is flagged or the flagged id is empty. *)
Inductive current_branch_of : list BranchReference -> string -> Prop :=
| current_none branches :
    Forall (fun b => is_current b = false) branches ->
    current_branch_of branches "branch_main"
| current_flagged pre b post :
    Forall (fun b => is_current b = false) pre ->
    is_current b = true ->
    ref_id b <> "" ->
    current_branch_of (pre ++ b :: post) (ref_id b)
| current_blank pre b post :
    Forall (fun b => is_current b = false) pre ->
    is_current b = true ->
    ref_id b = "" ->
    current_branch_of (pre ++ b :: post) "branch_main".

(** ** Goals *)

(** [progress ∈ [0,1]] *)
Definition in_unit_interval (n : number) : Prop :=
  match n with
  | Fin q => (0 <= q)%Q /\ (q <= 1)%Q
  | _ => False
  end.

(** The four required fields of a [CreateGoalInput], as a goal carries
    them. *)
Definition carries_input (input : CreateGoalInput) (goal : Goal) : Prop :=
  goal_title goal = cgi_title input /\
  goal_current_state goal = cgi_current_state input /\
  goal_desired_state goal = cgi_desired_state input /\
  goal_project goal = cgi_project input.

(** [setProgress] on the stored [goal] returns that goal, with the same id
    and a progress that satisfies [P], and has stored it where [loadGoal]
    finds it under the id of [goal]. *)
Definition setProgress_stores (w : World) (goalId : string) (goal : Goal)
    (progress : number) (updatedBy : string) (P : number -> Prop) : Prop :=
  let run := GoalService.setProgress goalId progress updatedBy w in
  exists goal',
    run.1 = Some goal' /\
    goal_id goal' = goal_id goal /\
    P (goal_progress goal') /\
    active_dir run.2 !! yaml_file (goal_id goal) = Some goal' /\
    (loadGoal (goal_id goal) run.2).1 = Some goal'.

(** ** Projects *)

(** The list of a project that holds the goals of a given status;
    [blocked] goals have no list. *)
Definition goal_list (status : GoalStatus) (project : Project) : list string :=
  match status with
  | active => active_goals project
  | paused => paused_goals project
  | completed => completed_goals project
  | abandoned => abandoned_goals project
  | blocked => []
  end.

(** [n] calls of [addGoalToProject] with the same goal id and status, each
    on the result of the previous one. *)
Fixpoint add_repeatedly (n : nat) (project : Project) (goalId : string)
    (status : GoalStatus) : M Project :=
  match n with
  | O => ret project
  | S n' =>
      let* project' := addGoalToProject project goalId status in
      add_repeatedly n' project' goalId status
  end.

(** Number of occurrences of an id in a list of ids. *)
Definition occurrences (id : string) (ids : list string) : nat :=
  count_occ string_dec ids id.

(** The four lists after one [addGoalToProject], from the four lists
    before. *)
Definition lists_after (goalId : string) (status : GoalStatus)
    (lists : GoalStatus -> list string) (s : GoalStatus) : list string :=
  match s with
  | blocked => []
  | _ => if status_eqb s status then without goalId (lists s) ++ [goalId]
         else without goalId (lists s)
  end.

(** ** File names *)

(** [s.includes(c)] for a character. *)
Fixpoint contains_char (c : ascii) (s : string) : bool :=
  match s with
  | EmptyString => false
  | String d s' => Ascii.eqb c d || contains_char c s'
  end.

(** No file of the active area other than the goal's own is listed under
    the goal's id. *)
Definition listed_by_own_file (goalId : string) (w : World) : Prop :=
  forall f,
    is_Some (active_dir w !! f) ->
    endsWith f ".yaml" = true ->
    replace_first ".yaml" "" f = goalId ->
    f = yaml_file goalId.

(** ** The parent walk of [getAncestors] on a given index *)

(** [index.goals[id]?.parent] *)
Definition parent_in (index : GoalIndex) (id : string) : option string :=
  rec_get id (idx_goals index) ≫= entry_parent.

(** The id that the walk visits after [id]: its denormalized parent, unless
    that is missing or empty. *)
Definition next_in (index : GoalIndex) (id : string) : option string :=
  match parent_in index id with
  | Some p => if truthy p then Some p else None
  | None => None
  end.

(** The [n]-th id of the walk that starts at [id], if the walk gets that
    far. *)
Fixpoint walk (index : GoalIndex) (id : string) (n : nat) : option string :=
  match n with
  | O => Some id
  | S n' => walk index id n' ≫= next_in index
  end.

(** Following the parent entries from [id] never revisits an id. *)
Definition acyclic_from (index : GoalIndex) (id : string) : Prop :=
  forall i j x, i < j -> walk index id i = Some x -> walk index id j <> Some x.

(** Following the parent entries from [id] comes back to an id. *)
Definition cyclic_from (index : GoalIndex) (id : string) : Prop :=
  exists i j x, i < j /\ walk index id i = Some x /\ walk index id j = Some x.

(** The ancestors of [id], nearest parent first, up to a goal without
    parent. *)
Inductive ancestor_chain (index : GoalIndex) : string -> list string -> Prop :=
| chain_top id :
    next_in index id = None -> ancestor_chain index id []
| chain_parent id p rest :
    next_in index id = Some p ->
    ancestor_chain index p rest ->
    ancestor_chain index id (p :: rest).

(** The loop of [getAncestors] on a fixed index. *)
Fixpoint ancestors_on (index : GoalIndex) (fuel : nat) (current : option string)
    (ancestors : list string) : option (list string) :=
  match current with
  | None => Some ancestors
  | Some c =>
      if negb (truthy c) then Some ancestors
      else
        match fuel with
        | O => None
        | S fuel' =>
            ancestors_on index fuel' (parent_in index c) (ancestors ++ [c])
        end
  end.

(** ** Computations in [M] *)

(** [wp c Q w]: running [c] from [w] ends in a result and a world that
    satisfy [Q]. Every computation of [M] is a total function, so this is a
    statement of total correctness. *)
Definition wp {A : Type} (c : M A) (Q : A -> World -> Prop) (w : World) : Prop :=
  Q (c w).1 (c w).2.

(** The files of the store: everything in the world except the tick
    counter and the index cache. *)
Record same_files (w w' : World) : Prop := {
  sf_host : host w' = host w;
  sf_active : active_dir w' = active_dir w;
  sf_archived : archived_dir w' = archived_dir w;
  sf_snapshots : snapshot_files w' = snapshot_files w;
  sf_branches : branch_files w' = branch_files w;
  sf_projects : project_dir w' = project_dir w
}.

(** A computation that only reads the clock, the random source or the
    files, whatever it returns. *)
Definition read_only {A : Type} (c : M A) : Prop :=
  forall w, same_files w (c w).2 /\ index_json (c w).2 = index_json w.

(** A computation that leaves the goal files of both areas as they are. *)
Definition keeps_goals {A : Type} (c : M A) : Prop :=
  forall w, active_dir (c w).2 = active_dir w /\
            archived_dir (c w).2 = archived_dir w.

(** ** Concrete worlds and inputs *)

Definition demo_host : Host :=
  {| iso_time := fun _ => "2025-01-15T10:30:00.000Z";
     random36 := fun _ => "0.k3x9qz7";
     percent := fun _ => "0" |}.

Definition empty_world : World :=
  {| host := demo_host; ticks := 0; active_dir := ∅; archived_dir := ∅;
     snapshot_files := ∅; branch_files := ∅; project_dir := ∅;
     index_json := None |}.

Definition blank_index : GoalIndex :=
  {| idx_generated := ""; idx_goals := []; idx_by_status := [];
     idx_by_project := []; idx_by_tag := []; idx_edges := [] |}.

Definition demo_input : CreateGoalInput :=
  {| cgi_title := "Ship the goal graph";
     cgi_current_state := "Not started";
     cgi_desired_state := "To be defined";
     cgi_project := "/home/kai/project";
     cgi_description := None; cgi_tags := Some ["core"];
     cgi_priority := None; cgi_parent := None; cgi_verification := None |}.

Definition blank_title_input : CreateGoalInput :=
  {| cgi_title := "";
     cgi_current_state := "Not started";
     cgi_desired_state := "To be defined";
     cgi_project := "/home/kai/project";
     cgi_description := None; cgi_tags := None;
     cgi_priority := None; cgi_parent := None; cgi_verification := None |}.

(** The goal of the scenarios: freshly created, no snapshot yet. *)
Definition demo_goal : Goal := (createGoal demo_input "main" empty_world).1.

(** A world whose active area holds the freshly created goal. *)
Definition stored_world : World := (saveGoal demo_goal empty_world).2.

(** A patch that sets [progress] to 5. *)
Definition progress_five : UpdateGoalInput :=
  GoalService.progress_only (Fin 5).

Definition demo_project : Project :=
  {| proj_id := "proj_demo"; proj_name := "demo";
     proj_path := "/home/kai/project";
     proj_created := "2025-01-01T00:00:00.000Z";
     proj_updated := "2025-01-01T00:00:00.000Z";
     proj_repo := None; proj_branch := Some "main"; proj_aliases := [];
     proj_auto_detect := true; proj_description := "";
     active_goals := ["goal_a"; "goal_b"; "goal_a"];
     paused_goals := ["goal_a"]; completed_goals := ["goal_c"];
     abandoned_goals := []; default_agents := []; tech_stack := [];
     conventions := [] |}.

(** A goal document under another id and parent. *)
Definition relabel (id : string) (parent : option string) (goal : Goal)
  : Goal :=
  {| goal_id := id;
     goal_created := goal_created goal;
     goal_updated := goal_updated goal;
     goal_current_state := goal_current_state goal;
     goal_desired_state := goal_desired_state goal;
     goal_verification := goal_verification goal;
     goal_status := goal_status goal;
     goal_progress := goal_progress goal;
     goal_title := goal_title goal;
     goal_description := goal_description goal;
     goal_tags := goal_tags goal;
     goal_project := goal_project goal;
     goal_priority := goal_priority goal;
     goal_parent := parent;
     goal_children := goal_children goal;
     goal_depends_on := goal_depends_on goal;
     goal_informs := goal_informs goal;
     goal_evolved_from := goal_evolved_from goal;
     goal_context := goal_context goal;
     goal_branches := goal_branches goal;
     goal_snapshots := goal_snapshots goal;
     goal_created_by := goal_created_by goal;
     goal_last_touched_by := goal_last_touched_by goal |}.

(** Two active goals whose ids contain the text [.yaml]: they are stored
    as [ab.yaml.yaml] and [a.yamlb.yaml]. *)
Definition dotted_world : World :=
  (saveGoal (relabel "a.yamlb" None demo_goal)
     (saveGoal (relabel "ab.yaml" None demo_goal) empty_world).2).2.

(** Three goals in a line: [goal_c] under [goal_b] under [goal_a]. *)
Definition family_world : World :=
  (saveGoal (relabel "goal_c" (Some "goal_b") demo_goal)
     (saveGoal (relabel "goal_b" (Some "goal_a") demo_goal)
        (saveGoal (relabel "goal_a" None demo_goal) empty_world).2).2).2.

(** Two goals that name each other as parent. *)
Definition looped_world : World :=
  (saveGoal (relabel "goal_y" (Some "goal_x") demo_goal)
     (saveGoal (relabel "goal_x" (Some "goal_y") demo_goal)
        empty_world).2).2.

(** * Vocabulary for the further properties *)

(** ** The index of a list of goals *)

(** The loop of [buildIndex], before the timestamp is set. *)
Definition index_of (goals : list Goal) : GoalIndex :=
  fold_left index_goal goals blank_index.

(** The summary entry that [buildIndex] writes for a goal. *)
Definition entry_of (goal : Goal) : GoalIndexEntry :=
  {| entry_title := goal_title goal;
     entry_status := goal_status goal;
     entry_progress := JNum (goal_progress goal);
     entry_project := goal_project goal;
     entry_parent := goal_parent goal;
     entry_children := goal_children goal;
     entry_tags := goal_tags goal;
     entry_updated := goal_updated goal |}.

(** The goals of a list that carry a given id, status, project or parent. *)
Definition with_id (id : string) (goals : list Goal) : list Goal :=
  List.filter (fun g => String.eqb (goal_id g) id) goals.

Definition with_status (status : GoalStatus) (goals : list Goal) : list Goal :=
  List.filter (fun g => status_eqb (goal_status g) status) goals.

Definition in_project (project : string) (goals : list Goal) : list Goal :=
  List.filter (fun g => String.eqb (goal_project g) project) goals.

Definition with_parent (parent : string) (goals : list Goal) : list Goal :=
  List.filter (fun g =>
    match goal_parent g with
    | Some p => String.eqb p parent
    | None => false
    end) goals.

(** The ids that a list of goals contributes to the list of a tag: each
    goal once per occurrence of the tag among its tags. *)
Definition tagged (tag : string) (goals : list Goal) : list string :=
  flat_map (fun g => repeat (goal_id g) (occurrences tag (goal_tags g))) goals.



(** The edges that [buildIndex] emits for one goal, in their order. *)
Definition goal_edges (goal : Goal) : list GraphEdge :=
  let id := goal_id goal in
  edge_if (goal_parent goal) (fun p =>
    {| edge_from := p; edge_to := id; edge_type := edge_parent |})
  ++ List.map (fun childId =>
       {| edge_from := id; edge_to := childId; edge_type := edge_child |})
       (goal_children goal)
  ++ List.map (fun depId =>
       {| edge_from := id; edge_to := depId; edge_type := edge_depends_on |})
       (goal_depends_on goal)
  ++ List.map (fun informsId =>
       {| edge_from := id; edge_to := informsId; edge_type := edge_informs |})
       (goal_informs goal)
  ++ edge_if (goal_evolved_from goal) (fun e =>
       {| edge_from := e; edge_to := id; edge_type := edge_evolved_from |}).

(** The targets of the [parent] edges that leave [parentId]. *)
Definition children_in (index : GoalIndex) (parentId : string) : list string :=
  List.map edge_to
    (List.filter (fun e => String.eqb (edge_from e) parentId
                           && edge_type_eqb (edge_type e) edge_parent)
                 (idx_edges index)).

(** [descends index p d]: [d] is reached from [p] by one or more [parent]
    edges of the index. *)
Inductive descends (index : GoalIndex) : string -> string -> Prop :=
  | descends_child p c :
      c ∈ children_in index p -> descends index p c
  | descends_step p c d :
      c ∈ children_in index p -> descends index c d -> descends index p d.

(** [depth_within index n id]: every chain of [parent] edges that leaves
    [id] has fewer than [n] edges. *)
Inductive depth_within (index : GoalIndex) : nat -> string -> Prop :=
  | depth_within_intro n id :
      (forall c, c ∈ children_in index id -> depth_within index n c) ->
      depth_within index (S n) id.

(** The ids under which [getGoalsByTag] files the goals of the index. *)
Definition tag_ids (index : GoalIndex) (tag : string) : list string :=
  default [] (rec_get tag (idx_by_tag index)).

(** The loop of [getDescendants] over the children, for a given way [below]
    of listing what is under a child. *)
Fixpoint collect (below : string -> option (list string))
    (children descendants : list string) : option (list string) :=
  match children with
  | [] => Some descendants
  | child :: rest =>
      match below child with
      | None => None
      | Some under => collect below rest (descendants ++ [child] ++ under)
      end
  end.

(** What [getDescendants] computes on a cached index, with the same bound
    on the depth of the calls. *)
Fixpoint descendants_on (index : GoalIndex) (fuel : nat) (goalId : string)
  : option (list string) :=
  match fuel with
  | O => None
  | S fuel' =>
      collect (descendants_on index fuel') (children_in index goalId) []
  end.

(** ** The goal service *)

(** The condition under which [update] records a snapshot: snapshots are
    wanted, the patch names a progress or a status, and one of the four
    compared fields changes. *)
Definition takes_snapshot (autoSnapshot : bool) (input : UpdateGoalInput)
    (before after : Goal) : bool :=
  autoSnapshot
  && (bool_decide (is_Some (ugi_progress input))
      || bool_decide (is_Some (ugi_status input)))
  && match computeChanges before after default_fields with
     | [] => false
     | _ :: _ => true
     end.

(** The goal, snapshot and branch files and the host: everything in the
    world except the tick counter, the project files and the index cache. *)
Record same_history (w w' : World) : Prop := {
  sh_host : host w' = host w;
  sh_active : active_dir w' = active_dir w;
  sh_archived : archived_dir w' = archived_dir w;
  sh_snapshots : snapshot_files w' = snapshot_files w;
  sh_branches : branch_files w' = branch_files w
}.

(** A computation that writes at most project files and the index cache. *)
Definition keeps_history {A : Type} (c : M A) : Prop :=
  forall w, same_history w (c w).2.

(** Two numbers are written alike in JSON: the same finite number, or
    neither of them finite, as NaN and the infinities are all written
    [null]. *)
Definition prints_alike (a b : number) : Prop :=
  match a, b with
  | Fin x, Fin y => (x == y)%Q
  | Fin _, _ | _, Fin _ => False
  | _, _ => True
  end.

(** The field [f] of the goal changes between [before] and [after]. *)
Definition field_changes (before after : Goal) (f : GoalField) : Prop :=
  match f with
  | field_progress =>
      ~ prints_alike (goal_progress before) (goal_progress after)
  | field_status => goal_status before <> goal_status after
  | field_current_state =>
      goal_current_state before <> goal_current_state after
  | field_desired_state =>
      goal_desired_state before <> goal_desired_state after
  end.

(** The record of the change of the field [f]: its name, the old and the
    new value. *)
Definition change_of (before after : Goal) (f : GoalField) : FieldChange :=
  {| fc_field := field_name f;
     fc_from := Some (field_value before f);
     fc_to := Some (field_value after f);
     fc_added := None; fc_removed := None |}.

(** The condition under which a snapshot is due: snapshots are wanted, the
    patch names a progress or a status, and one of progress, status, current
    state and desired state changes. *)
Definition snapshot_due (autoSnapshot : bool) (input : UpdateGoalInput)
    (before after : Goal) : Prop :=
  autoSnapshot = true /\
  (is_Some (ugi_progress input) \/ is_Some (ugi_status input)) /\
  exists f, field_changes before after f.

(** [recorded_by_update event before after s]: [s] is the snapshot that
    [update] takes of the goal [after], which it made from [before]: it
    holds the new values, and its changes are the records of the fields
    that change, each once, in the order progress, status, current state,
    desired state. *)
Definition recorded_by_update (event : string) (before after : Goal)
    (s : Snapshot) : Prop :=
  snap_goal_id s = goal_id before /\
  snap_trigger s = trigger_auto_progress /\
  snap_event s = event /\
  snap_progress s = goal_progress after /\
  snap_status s = goal_status after /\
  snap_current_state s = goal_current_state after /\
  snap_desired_state s = goal_desired_state after /\
  (forall c, c ∈ snap_changes s <->
             exists f, field_changes before after f /\
                       c = change_of before after f) /\
  sublist (List.map fc_field (snap_changes s))
          ["progress"; "status"; "current_state"; "desired_state"] /\
  snap_previous_snapshot s = last (goal_snapshots before) /\
  snap_branch s = current_branch_id (goal_branches before).

(** A patch that sets [progress] to one half. *)
Definition progress_half : UpdateGoalInput :=
  GoalService.progress_only (Fin (1 # 2)).

(** The reference that [createGoalBranch] adds to the goal for a branch
    named [name]. *)
Definition new_branch_ref (name : string) : BranchReference :=
  {| ref_id := generateBranchId name; ref_name := name;
     ref_status := branch_active; ref_reason := None;
     ref_snapshot := None; ref_current := None |}.

(** The stored goal after a branch has been created for it. *)
Definition branched_world : World :=
  (GoalService.createGoalBranch (goal_id demo_goal) "Try cache"
     "explore caching" stored_world).2.

(** ** Generated ids *)

(** Every character of [s] satisfies [p]. *)
Fixpoint all_chars (p : ascii -> bool) (s : string) : bool :=
  match s with
  | EmptyString => true
  | String c s' => p c && all_chars p s'
  end.

(** The characters of a slug: lower-case letters, digits and the
    underscore. *)
Definition slug_char (c : ascii) : bool :=
  is_lower_or_digit c || Ascii.eqb c "_".

(** ** Projects *)

(** The project files after the goal [goalId] has been filed under
    [status] in the project [found], if there is one; [wq] is the world in
    which [addGoalToProject] reads the clock. *)
Definition projects_after (goalId : string) (status : GoalStatus)
    (found : option Project) (wq : World) (dir : gmap string Project)
  : gmap string Project :=
  match found with
  | Some project =>
      <[yaml_file (proj_id project) :=
          (addGoalToProject project goalId status wq).1]> dir
  | None => dir
  end.

(** A patch that sets the status to [blocked]. *)
Definition blocked_patch : UpdateGoalInput := GoalService.status_only blocked.

(** The stored goal, with a registered project for its path. *)
Definition project_world : World := (saveProject demo_project stored_world).2.

(** ** Parallel contexts *)

(** The parallel contexts of a goal. *)
Definition contexts_of (goal : string) (contexts : list ParallelContext)
  : list ParallelContext :=
  List.filter (fun c => String.eqb (pc_goal c) goal) contexts.

(** A session state with one parallel context. *)
Definition demo_context : ParallelContext :=
  {| pc_goal := "goal_a"; pc_project := "/home/kai/project";
     pc_status := parallel_active; pc_last_summary := "indexing" |}.

(** ** Parent edges and parent entries *)

(** The parent edges of the graph and the denormalized parent entries say
    the same: [c] is a child of [p] by the edges exactly when the walk from
    [c] steps to [p]. *)
Definition parent_edges_agree (index : GoalIndex) : Prop :=
  forall c p, c ∈ children_in index p <-> next_in index c = Some p.

(** [a] lies on the parent walk that starts at [d], after at least one
    step. *)
Definition above (index : GoalIndex) (d a : string) : Prop :=
  exists n, walk index d (S n) = Some a.

(** ** The index file *)

(** [read_back entry entry']: [entry'] is what reading the index file gives
    for the written [entry]: every field as it was written, except that a
    progress that is not finite comes back as [null]. *)
Definition read_back (entry entry' : GoalIndexEntry) : Prop :=
  entry_title entry' = entry_title entry /\
  entry_status entry' = entry_status entry /\
  entry_project entry' = entry_project entry /\
  entry_parent entry' = entry_parent entry /\
  entry_children entry' = entry_children entry /\
  entry_tags entry' = entry_tags entry /\
  entry_updated entry' = entry_updated entry /\
  match entry_progress entry with
  | JNum (Fin q) => entry_progress entry' = JNum (Fin q)
  | _ => entry_progress entry' = JNull
  end.

(** The same for a whole index: the entries of the goals map key by key,
    everything else unchanged. *)
Definition index_read_back (index index' : GoalIndex) : Prop :=
  idx_generated index' = idx_generated index /\
  idx_by_status index' = idx_by_status index /\
  idx_by_project index' = idx_by_project index /\
  idx_by_tag index' = idx_by_tag index /\
  idx_edges index' = idx_edges index /\
  Forall2 (fun kv kv' => kv'.1 = kv.1 /\ read_back kv.2 kv'.2)
          (idx_goals index) (idx_goals index').

(** The progress of a goal is a finite number. *)
Definition finite_progress (goal : Goal) : Prop :=
  exists q, goal_progress goal = Fin q.

(** The stored goal after its progress has been set to NaN. *)
Definition nan_goal : Goal :=
  (updateGoal demo_goal (GoalService.progress_only NaN) "main" empty_world).1.

(** A store that holds that goal and no index file. *)
Definition nan_world : World := (saveGoal nan_goal empty_world).2.

(** * Reasoning about computations in [M] *)

(** ** Weakest preconditions *)

Lemma wp_bind {A B : Type} (c : M A) (k : A -> M B) Q w :
  wp c (fun a w' => wp (k a) Q w') w -> wp (bind c k) Q w.
Proof. unfold wp, bind. destruct (c w); trivial. Qed.

Lemma wp_ret {A : Type} (a : A) (Q : A -> World -> Prop) w :
  Q a w -> wp (ret a) Q w.
Proof. trivial. Qed.

Lemma wp_gets {A : Type} (f : World -> A) (Q : A -> World -> Prop) w :
  Q (f w) w -> wp (gets f) Q w.
Proof. trivial. Qed.

Lemma wp_modify (f : World -> World) (Q : unit -> World -> Prop) w :
  Q tt (f w) -> wp (modify f) Q w.
Proof. trivial. Qed.

Lemma wp_value {A : Type} (c : M A) (Q : A -> World -> Prop) w :
  (forall a w', a = (c w).1 -> w' = (c w).2 -> Q a w') -> wp c Q w.
Proof. intros H. apply H; reflexivity. Qed.

(** ** Computations that write no file *)

Lemma same_files_refl w : same_files w w.
Proof. split; reflexivity. Qed.

Lemma same_files_trans w1 w2 w3 :
  same_files w1 w2 -> same_files w2 w3 -> same_files w1 w3.
Proof. intros [] []; split; congruence. Qed.

Lemma read_only_ret {A : Type} (a : A) : read_only (ret a).
Proof. intros w; split; [apply same_files_refl | reflexivity]. Qed.

Lemma read_only_gets {A : Type} (f : World -> A) : read_only (gets f).
Proof. intros w; split; [apply same_files_refl | reflexivity]. Qed.

Lemma read_only_bind {A B : Type} (c : M A) (k : A -> M B) :
  read_only c -> (forall a, read_only (k a)) -> read_only (bind c k).
Proof.
  intros Hc Hk w. unfold bind.
  destruct (Hc w) as [F1 I1]. destruct (c w) as [a w1]; simpl in *.
  destruct (Hk a w1) as [F2 I2].
  split; [eapply same_files_trans; eassumption | congruence].
Qed.

Lemma read_only_Date_now_iso : read_only Date_now_iso.
Proof. intros w; split; [split|]; reflexivity. Qed.

Lemma read_only_Math_random_base36 : read_only Math_random_base36.
Proof. intros w; split; [split|]; reflexivity. Qed.

Create HintDb read_only.

#[local] Hint Resolve read_only_ret read_only_gets read_only_Date_now_iso
  read_only_Math_random_base36 : read_only.

(** Known computations first, so that they are not unfolded; then the
    structure of the term. *)
Ltac read_only_tac :=
  repeat first
    [ solve [eauto with read_only]
    | apply read_only_bind; [| intros ?]
    | match goal with |- read_only (match ?x with _ => _ end) => destruct x end ].

Lemma read_only_generateGoalId : read_only generateGoalId.
Proof. unfold generateGoalId. read_only_tac. Qed.

Lemma read_only_generateSnapshotId : read_only generateSnapshotId.
Proof. unfold generateSnapshotId. read_only_tac. Qed.

#[local] Hint Resolve read_only_generateGoalId read_only_generateSnapshotId
  : read_only.

Lemma read_only_createGoal input createdBy :
  read_only (createGoal input createdBy).
Proof. unfold createGoal. read_only_tac. Qed.

Lemma read_only_updateGoal goal input updatedBy :
  read_only (updateGoal goal input updatedBy).
Proof. unfold updateGoal. read_only_tac. Qed.

Lemma read_only_createSnapshot goal event summary trigger changes session :
  read_only (createSnapshot goal event summary trigger changes session).
Proof. unfold createSnapshot. read_only_tac. Qed.

Lemma read_only_createBranch goal name description :
  read_only (createBranch goal name description).
Proof. unfold createBranch. read_only_tac. Qed.

Lemma read_only_addGoalToProject project goalId status :
  read_only (addGoalToProject project goalId status).
Proof. unfold addGoalToProject. read_only_tac. Qed.

Lemma read_only_load_each {A : Type} (load : string -> M (option A)) ids :
  (forall id, read_only (load id)) -> read_only (load_each load ids).
Proof.
  intros Hload. induction ids as [|id rest IH]; simpl; read_only_tac; auto.
Qed.

Lemma read_only_loadGoal goalId : read_only (loadGoal goalId).
Proof. apply read_only_gets. Qed.

Lemma read_only_loadAllGoals includeArchived :
  read_only (loadAllGoals includeArchived).
Proof.
  unfold loadAllGoals, listGoals. read_only_tac.
  apply read_only_load_each, read_only_loadGoal.
Qed.

Lemma read_only_findProjectByPath path : read_only (findProjectByPath path).
Proof.
  unfold findProjectByPath, loadAllProjects, listProjects. read_only_tac.
  apply read_only_load_each. intros id. apply read_only_gets.
Qed.

Lemma read_only_buildIndex goals : read_only (buildIndex goals).
Proof. unfold buildIndex, createEmptyIndex. read_only_tac. Qed.

#[local] Hint Resolve read_only_createGoal read_only_updateGoal
  read_only_createSnapshot read_only_createBranch read_only_addGoalToProject
  read_only_loadGoal read_only_loadAllGoals read_only_findProjectByPath
  read_only_buildIndex : read_only.

Lemma wp_read_only {A : Type} (c : M A) (Q : A -> World -> Prop) w :
  read_only c ->
  (forall a w', a = (c w).1 -> same_files w w' ->
                index_json w' = index_json w -> Q a w') ->
  wp c Q w.
Proof. intros Hc H. destruct (Hc w). apply H; auto. Qed.

(** [rebuildIndex] writes the index cache and nothing else. *)
Lemma rebuildIndex_files w : same_files w (rebuildIndex w).2.
Proof.
  unfold rebuildIndex, bind.
  destruct (read_only_loadAllGoals true w) as [F1 _].
  destruct (loadAllGoals true w) as [goals w1]; simpl in F1.
  destruct (read_only_buildIndex goals w1) as [F2 _].
  destruct (buildIndex goals w1) as [index w2]; simpl in *.
  destruct F1, F2; split; simpl; congruence.
Qed.

Lemma wp_rebuildIndex (Q : GoalIndex -> World -> Prop) w :
  (forall index w', same_files w w' -> Q index w') -> wp rebuildIndex Q w.
Proof. intros H. apply H, rebuildIndex_files. Qed.

(** ** Computations that keep the goal files *)

Lemma keeps_goals_read_only {A : Type} (c : M A) : read_only c -> keeps_goals c.
Proof. intros H w. destruct (H w) as [[] _]. split; assumption. Qed.

Lemma keeps_goals_bind {A B : Type} (c : M A) (k : A -> M B) :
  keeps_goals c -> (forall a, keeps_goals (k a)) -> keeps_goals (bind c k).
Proof.
  intros Hc Hk w. unfold bind.
  destruct (Hc w) as [A1 R1]. destruct (c w) as [a w1]; simpl in *.
  destruct (Hk a w1) as [A2 R2]. split; congruence.
Qed.

Lemma keeps_goals_saveSnapshot snapshot : keeps_goals (saveSnapshot snapshot).
Proof. intros w; split; reflexivity. Qed.

Lemma keeps_goals_saveBranch branch : keeps_goals (saveBranch branch).
Proof. intros w; split; reflexivity. Qed.

Lemma keeps_goals_saveProject project : keeps_goals (saveProject project).
Proof. intros w; split; reflexivity. Qed.

Lemma keeps_goals_saveIndex index : keeps_goals (saveIndex index).
Proof. intros w; split; reflexivity. Qed.

Lemma keeps_goals_rebuildIndex : keeps_goals rebuildIndex.
Proof.
  intros w. destruct (rebuildIndex_files w). split; assumption.
Qed.

Create HintDb keeps_goals.

#[local] Hint Resolve keeps_goals_saveSnapshot keeps_goals_saveBranch
  keeps_goals_saveProject keeps_goals_saveIndex keeps_goals_rebuildIndex
  : keeps_goals.

Ltac keeps_goals_tac :=
  repeat first
    [ solve [eauto with keeps_goals]
    | solve [apply keeps_goals_read_only; eauto with read_only]
    | apply keeps_goals_bind; [| intros ?]
    | match goal with
      | |- keeps_goals (ret _) =>
          apply keeps_goals_read_only, read_only_ret
      | |- keeps_goals (match ?x with _ => _ end) => destruct x
      | |- keeps_goals (if ?x then _ else _) => destruct x
      end ].

Lemma wp_keeps_goals {A : Type} (c : M A) (Q : A -> World -> Prop) w :
  keeps_goals c ->
  (forall a w', active_dir w' = active_dir w ->
                archived_dir w' = archived_dir w -> Q a w') ->
  wp c Q w.
Proof. intros Hc H. destruct (Hc w). apply H; assumption. Qed.

Lemma loadGoal_active goalId goal w :
  active_dir w !! yaml_file goalId = Some goal ->
  (loadGoal goalId w).1 = Some goal.
Proof. unfold loadGoal, gets. simpl. intros ->. reflexivity. Qed.

(** * models/goal.ts: [createGoal] *)

Lemma prefix_empty (s : string) : String.prefix "" s = true.
Proof. destruct s; reflexivity. Qed.

Lemma count_current_createGoal input createdBy w :
  count_current (goal_branches (createGoal input createdBy w).1) = 1.
Proof. reflexivity. Qed.

(** C4: for every [CreateGoalInput] (valid or not), [createGoal] produces a
    goal with [progress = 0], [status = active], a non-empty id that starts
    with [goal_], and exactly one branch reference with [current = true],
    whose id is [branch_main]. *)
Theorem createGoal_defaults (input : CreateGoalInput) (createdBy : string)
    (w : World) :
  let goal := (createGoal input createdBy w).1 in
  goal_progress goal = Fin 0 /\
  goal_status goal = active /\
  goal_id goal <> "" /\
  startsWith (goal_id goal) "goal_" = true /\
  exists b, List.filter is_current (goal_branches goal) = [b] /\
            ref_id b = "branch_main" /\ ref_current b = Some true.
Proof.
  simpl. split; [reflexivity|]. split; [reflexivity|].
  split; [discriminate|]. split; [apply prefix_empty|].
  exists main_branch_ref. split; [reflexivity|]. split; reflexivity.
Qed.

(** [create] returns the goal that it has stored in the active area, with
    the four required fields of its input. *)
Lemma wp_create input createdBy autoSnapshot autoIndex w :
  wp (GoalService.create input createdBy autoSnapshot autoIndex)
     (fun goal w' =>
        carries_input input goal /\
        active_dir w' !! yaml_file (goal_id goal) = Some goal) w.
Proof.
  unfold GoalService.create.
  apply wp_bind, wp_value. intros g0 w1 Eg0 _.
  assert (carries_input input g0) as Hfields
    by (subst g0; repeat split).
  clear Eg0.
  apply wp_bind. unfold saveGoal at 1. apply wp_modify.
  apply wp_bind.
  set (tail := fun goal : Goal => _).
  assert (forall g w2,
    carries_input input g ->
    active_dir w2 !! yaml_file (goal_id g) = Some g ->
    tail g w2) as Htail.
  { intros g w2 Hin Hstored. subst tail. simpl.
    apply wp_bind. apply wp_keeps_goals; [keeps_goals_tac|].
    intros project w3 A3 _.
    apply wp_bind. apply wp_keeps_goals; [keeps_goals_tac|].
    intros ? w4 A4 _.
    apply wp_bind. apply wp_keeps_goals; [keeps_goals_tac|].
    intros ? w5 A5 _. apply wp_ret.
    split; [exact Hin|]. rewrite A5, A4, A3. exact Hstored. }
  destruct autoSnapshot.
  - apply wp_bind. apply wp_read_only; [auto with read_only|].
    intros snapshot w2 _ F2 _.
    apply wp_bind. unfold saveSnapshot. apply wp_modify.
    apply wp_bind. unfold saveGoal. apply wp_modify.
    apply wp_ret. apply Htail; [exact Hfields|].
    simpl. apply lookup_insert_eq.
  - apply wp_ret. apply Htail; [exact Hfields|].
    simpl. apply lookup_insert_eq.
Qed.

(** C1 (as amended): [createGoal] performs no validation and has no failure
    outcome. For every [CreateGoalInput], blank required fields included,
    it returns a goal that carries the four required fields unchanged, and
    [create] stores that goal in the active area, where [loadGoal] finds
    it. *)
Theorem createGoal_never_rejects (input : CreateGoalInput)
    (createdBy : string) (autoSnapshot autoIndex : bool) (w : World) :
  let goal := (createGoal input createdBy w).1 in
  let created :=
    GoalService.create input createdBy autoSnapshot autoIndex w in
  carries_input input goal /\
  carries_input input created.1 /\
  (loadGoal (goal_id created.1) created.2).1 = Some created.1.
Proof.
  intros goal created. split; [repeat split|].
  destruct (wp_create input createdBy autoSnapshot autoIndex w)
    as (Hin & Hstored).
  fold created in Hin, Hstored.
  split; [exact Hin|]. apply loadGoal_active, Hstored.
Qed.

(** C1 (counterexample): a [CreateGoalInput] with a blank title is not
    rejected; [create] returns a goal with that blank title and has stored
    it in the active area. *)
Lemma createGoal_blank_title_is_persisted :
  let created := GoalService.create blank_title_input "main" true true
                   empty_world in
  cgi_title blank_title_input = "" /\
  goal_title created.1 = "" /\
  active_dir created.2 !! yaml_file (goal_id created.1) = Some created.1 /\
  (loadGoal (goal_id created.1) created.2).1 = Some created.1.
Proof. vm_compute. repeat split. Qed.

(** * storage/index-builder.ts: [buildIndex] *)

Lemma index_goal_set_generated now index goal :
  index_goal (set_generated now index) goal
  = set_generated now (index_goal index goal).
Proof. reflexivity. Qed.

(** The loop of [buildIndex] never reads the [generated] field. *)
Lemma fold_index_goal_set_generated now goals index :
  fold_left index_goal goals (set_generated now index)
  = set_generated now (fold_left index_goal goals index).
Proof.
  revert index. induction goals as [|goal goals IH]; intros index; simpl.
  - reflexivity.
  - rewrite index_goal_set_generated. apply IH.
Qed.

(** [buildIndex] is the loop over the goals, stamped with the second
    reading of the clock. *)
Lemma buildIndex_run goals w :
  (buildIndex goals w).1
  = set_generated (iso_time (host w) (S (ticks w)))
      (fold_left index_goal goals blank_index).
Proof.
  unfold buildIndex, createEmptyIndex, bind, ret, Date_now_iso. simpl.
  unfold set_generated at 1. simpl.
  rewrite <- fold_index_goal_set_generated. reflexivity.
Qed.

(** C3: [buildIndex] is deterministic. Two runs on the same list of goals,
    from any two worlds (any clock readings, any store contents), produce
    indexes with the same goals map, [by_status], [by_project], [by_tag] and
    edge list, in the same order; the indexes differ at most in the
    [generated] timestamp. *)
Theorem buildIndex_deterministic (goals : list Goal) (w1 w2 : World) :
  let index1 := (buildIndex goals w1).1 in
  let index2 := (buildIndex goals w2).1 in
  idx_goals index1 = idx_goals index2 /\
  idx_by_status index1 = idx_by_status index2 /\
  idx_by_project index1 = idx_by_project index2 /\
  idx_by_tag index1 = idx_by_tag index2 /\
  idx_edges index1 = idx_edges index2 /\
  index1 = set_generated (idx_generated index1) index2.
Proof.
  intros index1 index2. subst index1 index2.
  rewrite !buildIndex_run. repeat split.
Qed.

(** The per-key id lists and the edges follow the iteration order of the
    goals: a run over [goals ++ more] extends the run over [goals]. *)
Lemma buildIndex_loop_app goals more index :
  fold_left index_goal (goals ++ more) index
  = fold_left index_goal more (fold_left index_goal goals index).
Proof. apply fold_left_app. Qed.

(** * models/snapshot.ts and models/branch.ts *)

Lemma truthy_false (s : string) : truthy s = false <-> s = "".
Proof.
  unfold truthy. rewrite negb_false_iff. apply String.eqb_eq.
Qed.

Lemma truthy_true (s : string) : truthy s = true <-> s <> "".
Proof.
  unfold truthy. rewrite negb_true_iff. apply String.eqb_neq.
Qed.

Lemma find_current_none branches :
  Forall (fun b => is_current b = false) branches ->
  List.find is_current branches = None.
Proof.
  induction 1 as [|b bs Hb _ IH]; simpl; [reflexivity|].
  rewrite Hb. exact IH.
Qed.

Lemma find_current_first pre b post :
  Forall (fun b => is_current b = false) pre ->
  is_current b = true ->
  List.find is_current (pre ++ b :: post) = Some b.
Proof.
  intros Hpre Hb. induction Hpre as [|p ps Hp _ IH]; simpl.
  - rewrite Hb. reflexivity.
  - rewrite Hp. exact IH.
Qed.

Lemma current_branch_of_cons b branches x :
  is_current b = false ->
  current_branch_of branches x ->
  current_branch_of (b :: branches) x.
Proof.
  intros Hb [bs Hall | pre c post Hpre Hc Hid | pre c post Hpre Hc Hid].
  - apply current_none. constructor; assumption.
  - apply (current_flagged (b :: pre) c post);
      [constructor; assumption | exact Hc | exact Hid].
  - apply (current_blank (b :: pre) c post);
      [constructor; assumption | exact Hc | exact Hid].
Qed.

(** The code's [find(...)?.id || 'branch_main'] computes the branch that
    the specification describes. *)
Lemma current_branch_id_spec branches :
  current_branch_of branches (current_branch_id branches).
Proof.
  unfold current_branch_id.
  induction branches as [|b bs IH].
  - apply current_none. constructor.
  - simpl. destruct (is_current b) eqn:Hb.
    + simpl. destruct (truthy (ref_id b)) eqn:Ht.
      * apply (current_flagged [] b bs); [constructor | exact Hb |].
        apply truthy_true, Ht.
      * apply (current_blank [] b bs); [constructor | exact Hb |].
        apply truthy_false, Ht.
    + apply current_branch_of_cons; assumption.
Qed.

(** The description determines the branch. *)
Lemma current_branch_of_unique branches x :
  current_branch_of branches x -> x = current_branch_id branches.
Proof.
  unfold current_branch_id.
  intros [bs Hall | pre b post Hpre Hb Hid | pre b post Hpre Hb Hid].
  - rewrite find_current_none by assumption. reflexivity.
  - rewrite find_current_first by assumption. simpl.
    apply truthy_true in Hid. rewrite Hid. reflexivity.
  - rewrite find_current_first by assumption. simpl.
    apply truthy_false in Hid. rewrite Hid. reflexivity.
Qed.

Lemma last_snapshot_last snapshots : last_snapshot snapshots = last snapshots.
Proof.
  destruct snapshots as [|s rest]; [reflexivity|].
  unfold last_snapshot. rewrite last_lookup.
  f_equal. simpl. lia.
Qed.

Lemma last_snapshot_push snapshots id :
  last_snapshot (snapshots ++ [id]) = Some id.
Proof. rewrite last_snapshot_last. apply last_snoc. Qed.

(** C5: snapshot chaining. For a goal without snapshots [createSnapshot]
    yields [previous_snapshot = undefined]; for a goal with snapshots it
    yields the last id of the goal's snapshot list; after the id of a first
    snapshot is appended, a second [createSnapshot] links back to the first;
    and the snapshot's branch is the id of the goal's current-flagged branch
    reference, defaulting to [branch_main]. *)
Theorem createSnapshot_chaining (goal : Goal) (event summary : string)
    (trigger : SnapshotTrigger) (changes : list FieldChange)
    (session : option string) (w : World) :
  let first := (createSnapshot goal event summary trigger changes session w).1 in
  (goal_snapshots goal = [] -> snap_previous_snapshot first = None) /\
  (goal_snapshots goal <> [] ->
   is_Some (snap_previous_snapshot first) /\
   snap_previous_snapshot first = last (goal_snapshots goal)) /\
  (forall event' summary' trigger' changes' session' w',
     let second :=
       (createSnapshot (push_snapshot (snap_id first) goal)
          event' summary' trigger' changes' session' w').1 in
     snap_previous_snapshot second = Some (snap_id first)) /\
  current_branch_of (goal_branches goal) (snap_branch first).
Proof.
  intros first. subst first. simpl.
  split; [intros ->; reflexivity|].
  split.
  { intros Hne. rewrite last_snapshot_last. split; [|reflexivity].
    destruct (goal_snapshots goal) as [|s rest] using rev_ind;
      [contradiction|].
    rewrite last_snoc. eexists; reflexivity. }
  split; [intros; apply last_snapshot_push|].
  apply current_branch_id_spec.
Qed.

(** The scenario of the specification, run on a freshly created goal. *)
Lemma createSnapshot_chaining_witness :
  let first :=
    (createSnapshot demo_goal "created" "..." trigger_manual [] None
       empty_world).1 in
  let second :=
    (createSnapshot (push_snapshot (snap_id first) demo_goal) "again" "..."
       trigger_manual [] None empty_world).1 in
  goal_snapshots demo_goal = [] /\
  snap_previous_snapshot first = None /\
  snap_previous_snapshot second = Some (snap_id first) /\
  goal_snapshots (push_snapshot (snap_id first) demo_goal) <> [] /\
  snap_previous_snapshot second
  = last (goal_snapshots (push_snapshot (snap_id first) demo_goal)).
Proof.
  intros first second.
  destruct (createSnapshot_chaining demo_goal "created" "..." trigger_manual
              [] None empty_world) as (Hempty & _ & Hsecond & _).
  destruct (createSnapshot_chaining (push_snapshot (snap_id first) demo_goal)
              "again" "..." trigger_manual [] None empty_world)
    as (_ & Hlast & _ & _).
  split; [reflexivity|].
  split; [apply Hempty; reflexivity|].
  split; [apply Hsecond|].
  split; [discriminate|].
  apply Hlast. discriminate.
Defined.

Lemma latest_snapshot_last snapshots :
  snapshots <> [] -> last snapshots = Some (latest_snapshot snapshots).
Proof.
  intros Hne. unfold latest_snapshot.
  destruct snapshots as [|x xs] eqn:E; [contradiction|].
  rewrite <- E. rewrite Nat.sub_1_r, <- last_lookup.
  destruct (last snapshots) eqn:El; [reflexivity|].
  apply last_None in El. congruence.
Qed.

(** C9 (as amended): for every goal, [createBranch] returns a branch whose
    [parent_branch] is the id of the goal's current-flagged branch reference
    (default [branch_main]), with an empty snapshot list and
    [status = active]. When the goal's snapshot list is non-empty,
    [branch_point] is its last entry, hence the id of a snapshot that the
    goal recorded before the branch was created; when the list is empty,
    [branch_point] is the empty string. *)
Theorem createBranch_anchoring (goal : Goal) (name description : string)
    (w : World) :
  let branch := (createBranch goal name description w).1 in
  current_branch_of (goal_branches goal) (br_parent_branch branch) /\
  br_snapshots branch = [] /\
  br_status branch = branch_active /\
  (goal_snapshots goal <> [] ->
   last (goal_snapshots goal) = Some (br_branch_point branch) /\
   br_branch_point branch ∈ goal_snapshots goal) /\
  (goal_snapshots goal = [] -> br_branch_point branch = "").
Proof.
  simpl. split; [apply current_branch_id_spec|].
  split; [reflexivity|]. split; [reflexivity|].
  split.
  - intros Hne. pose proof (latest_snapshot_last _ Hne) as Hlast.
    split; [exact Hlast|].
    apply last_Some_elem_of, Hlast.
  - intros ->. reflexivity.
Qed.

Lemma createBranch_anchoring_witness :
  let goal := push_snapshot "snap_20250115103000k3" demo_goal in
  let branch := (createBranch goal "Try SSE" "" empty_world).1 in
  br_parent_branch branch = "branch_main" /\
  br_branch_point branch = "snap_20250115103000k3" /\
  br_branch_point branch ∈ goal_snapshots goal.
Proof.
  intros goal branch.
  destruct (createBranch_anchoring goal "Try SSE" "" empty_world)
    as (_ & _ & _ & Hpoint & _).
  destruct Hpoint as [_ Hin]; [discriminate|].
  split; [reflexivity|]. split; [reflexivity|]. exact Hin.
Defined.

(** C9 (counterexample): on a goal without snapshots, the [branch_point] of
    the new branch is the empty string: it is not the id of a snapshot of
    the goal, and the goal has no latest snapshot. *)
Lemma createBranch_without_snapshots_has_no_anchor :
  let branch := (createBranch demo_goal "Try SSE" "" empty_world).1 in
  goal_snapshots demo_goal = [] /\
  br_branch_point branch = "" /\
  ~ br_branch_point branch ∈ goal_snapshots demo_goal /\
  last (goal_snapshots demo_goal) <> Some (br_branch_point branch).
Proof.
  simpl. split; [reflexivity|]. split; [reflexivity|].
  split; [apply not_elem_of_nil | discriminate].
Qed.

(** * models/project.ts: [addGoalToProject] *)

Lemma occurrences_without goalId ids : occurrences goalId (without goalId ids) = 0.
Proof.
  unfold occurrences, without. apply count_occ_not_In.
  rewrite filter_In. intros [_ H].
  rewrite String.eqb_refl in H. discriminate.
Qed.

Lemma occurrences_without_ne goalId id ids :
  id <> goalId -> occurrences id (without goalId ids) = occurrences id ids.
Proof.
  intros Hne. unfold occurrences, without.
  induction ids as [|x xs IH]; simpl; [reflexivity|].
  destruct (String.eqb x goalId) eqn:E; simpl.
  - apply String.eqb_eq in E. subst x.
    destruct (string_dec goalId id); [congruence | exact IH].
  - destruct (string_dec x id); [f_equal|]; exact IH.
Qed.

Lemma occurrences_app id xs ys :
  occurrences id (xs ++ ys) = occurrences id xs + occurrences id ys.
Proof. apply count_occ_app. Qed.

Lemma without_idempotent goalId ids :
  without goalId (without goalId ids) = without goalId ids.
Proof.
  unfold without. induction ids as [|x xs IH]; simpl; [reflexivity|].
  destruct (String.eqb x goalId) eqn:E; simpl; [exact IH|].
  rewrite E. simpl. f_equal. exact IH.
Qed.

Lemma without_pushed goalId ids :
  without goalId (without goalId ids ++ [goalId]) = without goalId ids.
Proof.
  unfold without at 1. rewrite List.filter_app. simpl.
  rewrite String.eqb_refl. simpl. rewrite app_nil_r.
  apply without_idempotent.
Qed.

(** One call, on the four lists. *)
Lemma addGoalToProject_lists project goalId status w s :
  status <> blocked ->
  goal_list s (addGoalToProject project goalId status w).1
  = lists_after goalId status (fun s' => goal_list s' project) s.
Proof.
  intros Hst. destruct s, status; try reflexivity; contradiction.
Qed.

Lemma lists_after_idempotent goalId status lists s :
  lists_after goalId status (lists_after goalId status lists) s
  = lists_after goalId status lists s.
Proof.
  destruct s, status; simpl;
    auto using without_idempotent, without_pushed.
  all: rewrite without_pushed; reflexivity.
Qed.

Lemma add_repeatedly_step n project goalId status w :
  add_repeatedly (S n) project goalId status w
  = add_repeatedly n (addGoalToProject project goalId status w).1 goalId status
      (addGoalToProject project goalId status w).2.
Proof. reflexivity. Qed.

Lemma add_repeatedly_lists n project goalId status w s :
  status <> blocked ->
  goal_list s (add_repeatedly (S n) project goalId status w).1
  = lists_after goalId status (fun s' => goal_list s' project) s.
Proof.
  intros Hst. revert project w.
  induction n as [|n IH]; intros project w; rewrite add_repeatedly_step.
  - apply addGoalToProject_lists, Hst.
  - rewrite IH.
    rewrite <- (lists_after_idempotent goalId status
                  (fun s' => goal_list s' project) s).
    destruct s, status; try contradiction; reflexivity.
Qed.

Lemma lists_after_occurrences goalId status lists :
  status <> blocked ->
  occurrences goalId (lists_after goalId status lists status) = 1 /\
  (forall other, other <> status ->
     occurrences goalId (lists_after goalId status lists other) = 0) /\
  (forall s id, id <> goalId -> s <> blocked ->
     occurrences id (lists_after goalId status lists s)
     = occurrences id (lists s)).
Proof.
  intros Hst. split; [|split].
  - destruct status; try contradiction; simpl;
      rewrite occurrences_app, occurrences_without; unfold occurrences; simpl;
      destruct (string_dec goalId goalId); congruence.
  - intros other Hne.
    destruct other, status; try contradiction; simpl;
      try apply occurrences_without; reflexivity.
  - intros s id Hid Hs.
    assert (occurrences id [goalId] = 0) as Hsingle.
    { unfold occurrences. simpl.
      destruct (string_dec goalId id); congruence. }
    destruct s, status; try contradiction; simpl;
      rewrite ?occurrences_app, ?Hsingle, ?Nat.add_0_r;
      apply occurrences_without_ne, Hid.
Qed.

(** C7: [addGoalToProject] is idempotent under repeated calls with the same
    goal id and status. After any number [S n] of calls the goal id occurs
    exactly once in the list of that status and in none of the other lists;
    the four lists are those left by a single call; the other ids keep
    their occurrences; and a further call with a different status removes
    the id from all four lists before it inserts it into the target list. *)
Theorem addGoalToProject_idempotent (project : Project) (goalId : string)
    (status : GoalStatus) (n : nat) (w : World) :
  status <> blocked ->
  let once := (addGoalToProject project goalId status w).1 in
  let many := (add_repeatedly (S n) project goalId status w).1 in
  occurrences goalId (goal_list status many) = 1 /\
  (forall other, other <> status ->
     occurrences goalId (goal_list other many) = 0) /\
  (forall s, goal_list s many = goal_list s once) /\
  (forall s id, id <> goalId ->
     occurrences id (goal_list s many) = occurrences id (goal_list s project)) /\
  (forall target w', target <> blocked ->
     let moved := (addGoalToProject many goalId target w').1 in
     occurrences goalId (goal_list target moved) = 1 /\
     forall other, other <> target ->
       occurrences goalId (goal_list other moved) = 0).
Proof.
  intros Hst once many.
  assert (forall s, goal_list s many
            = lists_after goalId status (fun s' => goal_list s' project) s)
    as Hmany by (intros s; apply add_repeatedly_lists, Hst).
  destruct (lists_after_occurrences goalId status
              (fun s' => goal_list s' project) Hst) as (Hone & Hzero & Hrest).
  split; [rewrite Hmany; exact Hone|].
  split; [intros other Hne; rewrite Hmany; apply Hzero, Hne|].
  split.
  { intros s. rewrite Hmany. symmetry.
    apply addGoalToProject_lists, Hst. }
  split.
  { intros s id Hid. rewrite Hmany.
    destruct s; try reflexivity; apply Hrest; try assumption; discriminate. }
  intros target w' Htarget moved.
  destruct (lists_after_occurrences goalId target
              (fun s' => goal_list s' many) Htarget) as (Hone' & Hzero' & _).
  subst moved. split.
  - rewrite addGoalToProject_lists by exact Htarget. exact Hone'.
  - intros other Hne. rewrite addGoalToProject_lists by exact Htarget.
    apply Hzero', Hne.
Qed.

Lemma addGoalToProject_idempotent_witness :
  let many := (add_repeatedly 3 demo_project "goal_a" paused empty_world).1 in
  occurrences "goal_a" (active_goals demo_project) = 2 /\
  occurrences "goal_a" (paused_goals many) = 1 /\
  occurrences "goal_a" (active_goals many) = 0 /\
  occurrences "goal_a" (completed_goals many) = 0 /\
  occurrences "goal_a" (abandoned_goals many) = 0.
Proof.
  intros many.
  destruct (addGoalToProject_idempotent demo_project "goal_a" paused 2
              empty_world) as (Hone & Hzero & _); [discriminate|].
  split; [reflexivity|]. split; [exact Hone|].
  split; [apply (Hzero active); discriminate|].
  split; [apply (Hzero completed); discriminate|].
  apply (Hzero abandoned); discriminate.
Defined.

(** * storage/goal-service.ts *)

(** What [update] does to the goal: it returns the result of [updateGoal],
    possibly with one more snapshot id, and has stored it in the active
    area under its id. *)
Lemma wp_update goalId input updatedBy autoSnapshot snapshotEvent autoIndex
    goal w :
  (loadGoal goalId w).1 = Some goal ->
  wp (GoalService.update goalId input updatedBy autoSnapshot snapshotEvent
        autoIndex)
     (fun result w' =>
        exists goal',
          result = Some goal' /\
          goal_id goal' = goal_id goal /\
          goal_progress goal'
          = default (goal_progress goal) (ugi_progress input) /\
          goal_branches goal' = goal_branches goal /\
          active_dir w' !! yaml_file (goal_id goal') = Some goal') w.
Proof.
  intros Hload. unfold GoalService.update.
  apply wp_bind. unfold wp at 1. rewrite Hload.
  change (loadGoal goalId w).2 with w.
  apply wp_bind, wp_value. intros g1 w1 Eg1 _.
  assert (goal_id g1 = goal_id goal /\
          goal_progress g1 = default (goal_progress goal) (ugi_progress input)
          /\ goal_branches g1 = goal_branches goal) as Hg1
    by (subst g1; repeat split).
  clear Eg1. apply wp_bind.
  set (tail := fun updatedGoal : Goal => _).
  assert (forall g w2,
    (goal_id g = goal_id goal /\
     goal_progress g = default (goal_progress goal) (ugi_progress input) /\
     goal_branches g = goal_branches goal) ->
    tail g w2) as Htail.
  { intros g w2 (Hid & Hprog & Hbr). subst tail. simpl.
    apply wp_bind. unfold saveGoal. apply wp_modify.
    apply wp_bind. apply wp_keeps_goals; [keeps_goals_tac|].
    intros ? w3 A3 _.
    apply wp_bind. apply wp_keeps_goals; [keeps_goals_tac|].
    intros ? w4 A4 _. apply wp_ret.
    exists g. repeat split; try assumption.
    rewrite A4, A3. simpl. apply lookup_insert_eq. }
  destruct (autoSnapshot && _).
  - destruct (computeChanges goal g1 default_fields) as [|change changes].
    + apply wp_ret, Htail, Hg1.
    + apply wp_bind, wp_gets.
      apply wp_bind, wp_value. intros snapshot w2 _ _.
      apply wp_bind. unfold saveSnapshot. apply wp_modify.
      apply wp_ret, Htail. exact Hg1.
  - apply wp_ret, Htail, Hg1.
Qed.

Lemma clamp_in_unit_interval (p : number) :
  p <> NaN -> in_unit_interval (Math_max (Fin 0) (Math_min (Fin 1) p)).
Proof.
  intros Hp. destruct p as [| |q|]; try contradiction; simpl.
  - split; [apply Qle_refl | discriminate].
  - destruct (Qle_bool 1 q) eqn:E1; simpl.
    + split; discriminate.
    + destruct (Qle_bool 0 q) eqn:E0; simpl.
      * split; [apply Qle_bool_iff, E0|].
        apply Qlt_le_weak, Qnot_le_lt. intros H.
        apply Qle_bool_iff in H. congruence.
      * split; [apply Qle_refl | discriminate].
  - split; discriminate.
Qed.

(** [setProgress] stores the clamped value in the goal that it was called
    for. *)
Lemma wp_setProgress goalId progress updatedBy goal w :
  (loadGoal goalId w).1 = Some goal ->
  wp (GoalService.setProgress goalId progress updatedBy)
     (fun result w' =>
        exists goal',
          result = Some goal' /\
          goal_id goal' = goal_id goal /\
          goal_progress goal' = Math_max (Fin 0) (Math_min (Fin 1) progress) /\
          active_dir w' !! yaml_file (goal_id goal) = Some goal' /\
          (loadGoal (goal_id goal) w').1 = Some goal') w.
Proof.
  intros Hload. unfold GoalService.setProgress.
  pose proof (wp_update goalId
    (GoalService.progress_only (Math_max (Fin 0) (Math_min (Fin 1) progress)))
    updatedBy true None true goal w Hload) as H.
  unfold wp in *. destruct H as (goal' & Hres & Hid & Hprog & _ & Hstored).
  rewrite Hid in Hstored.
  exists goal'. split; [exact Hres|]. split; [exact Hid|].
  split; [exact Hprog|]. split; [exact Hstored|].
  apply loadGoal_active, Hstored.
Qed.

(** [setProgress] clamps its input: [-0.3] and [1.7] are stored as [0] and
    [1], [0.5] is stored unchanged, and every input other than NaN is stored
    as a value of [[0,1]], in the goal that it was called for. [createGoal]
    yields progress [0], and [updateGoal] keeps the progress of a goal in
    [[0,1]] when its patch has no [progress] field or one that lies in
    [[0,1]]. *)
Lemma progress_stays_in_unit_interval (w : World) (goalId : string)
    (goal : Goal) (updatedBy : string) :
  (loadGoal goalId w).1 = Some goal ->
  in_unit_interval (goal_progress goal) ->
  setProgress_stores w goalId goal (Fin (-3 # 10)) updatedBy (eq (Fin 0)) /\
  setProgress_stores w goalId goal (Fin (17 # 10)) updatedBy (eq (Fin 1)) /\
  setProgress_stores w goalId goal (Fin (1 # 2)) updatedBy (eq (Fin (1 # 2)))
  /\
  (forall progress,
     progress <> NaN ->
     setProgress_stores w goalId goal progress updatedBy in_unit_interval) /\
  (forall input createdBy w0,
     goal_progress (createGoal input createdBy w0).1 = Fin 0) /\
  (forall input editor w0,
     (ugi_progress input = None \/
      exists p, ugi_progress input = Some p /\ in_unit_interval p) ->
     in_unit_interval (goal_progress (updateGoal goal input editor w0).1)).
Proof.
  intros Hload Hgoal.
  assert (forall progress (P : number -> Prop),
            P (Math_max (Fin 0) (Math_min (Fin 1) progress)) ->
            setProgress_stores w goalId goal progress updatedBy P) as Hstores.
  { intros progress P HP.
    destruct (wp_setProgress goalId progress updatedBy goal w Hload)
      as (goal' & Hres & Hid & Hprog & Hfile & Hstored).
    exists goal'. split; [exact Hres|]. split; [exact Hid|].
    split; [|split; [exact Hfile | exact Hstored]].
    rewrite Hprog. exact HP. }
  split; [apply Hstores; reflexivity|].
  split; [apply Hstores; reflexivity|].
  split; [apply Hstores; reflexivity|].
  split; [intros progress Hp; apply Hstores, clamp_in_unit_interval, Hp|].
  split.
  - intros input createdBy w0. reflexivity.
  - intros input editor w0 [Hnone | (p & Hsome & Hp)]; simpl.
    + rewrite Hnone. exact Hgoal.
    + rewrite Hsome. exact Hp.
Qed.

Lemma progress_stays_in_unit_interval_witness :
  let goalId := goal_id demo_goal in
  setProgress_stores stored_world goalId demo_goal (Fin (17 # 10)) "main"
    (eq (Fin 1)) /\
  setProgress_stores stored_world goalId demo_goal PosInf "main"
    in_unit_interval /\
  in_unit_interval
    (goal_progress
       (updateGoal demo_goal (GoalService.progress_only (Fin (1 # 4))) "main"
          stored_world).1).
Proof.
  intros goalId.
  assert ((loadGoal goalId stored_world).1 = Some demo_goal) as Hload
    by (vm_compute; reflexivity).
  assert (in_unit_interval (goal_progress demo_goal)) as Hunit
    by (simpl; split; [apply Qle_refl | discriminate]).
  destruct (progress_stays_in_unit_interval stored_world goalId demo_goal
              "main" Hload Hunit) as (_ & Hhigh & _ & Hclamp & _ & Hupdate).
  split; [exact Hhigh|]. split; [apply Hclamp; discriminate|].
  apply Hupdate. right. exists (Fin (1 # 4)).
  split; [reflexivity|]. simpl. split; discriminate.
Defined.

(** C6 (failing input): the stored goal has progress [0]; [update] with the
    patch [{ progress: 5 }] returns the goal with progress [5] and stores it
    so under the same id, where [loadGoal] finds it: [updateGoal] copies the
    [progress] of its patch without clamping. The sibling [setProgress], given
    the same number, stores [1]; given NaN it stores NaN, because [Math.min]
    and [Math.max] return NaN on NaN. *)
Theorem update_stores_progress_outside_unit_interval :
  let goalId := goal_id demo_goal in
  let run :=
    GoalService.update goalId progress_five "main" true None true
      stored_world in
  (loadGoal goalId stored_world).1 = Some demo_goal /\
  goal_progress demo_goal = Fin 0 /\
  in_unit_interval (goal_progress demo_goal) /\
  goal_progress (updateGoal demo_goal progress_five "main" stored_world).1
  = Fin 5 /\
  (exists goal',
     run.1 = Some goal' /\
     goal_id goal' = goalId /\
     goal_progress goal' = Fin 5 /\
     ~ in_unit_interval (goal_progress goal') /\
     active_dir run.2 !! yaml_file goalId = Some goal' /\
     (loadGoal goalId run.2).1 = Some goal') /\
  (exists goal',
     (GoalService.setProgress goalId (Fin 5) "main" stored_world).1
     = Some goal' /\
     goal_id goal' = goalId /\
     goal_progress goal' = Fin 1) /\
  (exists goal',
     (GoalService.setProgress goalId NaN "main" stored_world).1 = Some goal' /\
     goal_id goal' = goalId /\
     goal_progress goal' = NaN /\
     ~ in_unit_interval (goal_progress goal')).
Proof.
  intros goalId run.
  split; [vm_compute; reflexivity|]. split; [reflexivity|].
  split; [simpl; split; [apply Qle_refl | discriminate]|].
  split; [reflexivity|]. split; [|split].
  - eexists. split; [vm_compute; reflexivity|].
    split; [reflexivity|]. split; [reflexivity|].
    split; [simpl; intros [_ H]; apply H; reflexivity|].
    split; vm_compute; reflexivity.
  - eexists. split; [vm_compute; reflexivity|]. split; reflexivity.
  - eexists. split; [vm_compute; reflexivity|].
    split; [reflexivity|]. split; [reflexivity | simpl; tauto].
Qed.

(** ** Branch references: exactly one [current] *)

Lemma count_current_app xs ys :
  count_current (xs ++ ys) = count_current xs + count_current ys.
Proof. unfold count_current. rewrite List.filter_app. apply length_app. Qed.

(** [switchBranch] flags the references whose id is the target, and only
    those. *)
Lemma count_current_flagged branchId branches :
  count_current (List.map (GoalService.flag_current branchId) branches)
  = count_id branchId branches.
Proof.
  unfold count_current, count_id.
  induction branches as [|b bs IH]; simpl; [reflexivity|].
  unfold is_current at 1. simpl.
  destruct (String.eqb (ref_id b) branchId); simpl; [f_equal|]; exact IH.
Qed.

Lemma flagged_current_iff branchId branches b :
  b ∈ List.map (GoalService.flag_current branchId) branches ->
  (ref_current b = Some true <-> ref_id b = branchId).
Proof.
  intros Hin. apply list_elem_of_In, in_map_iff in Hin as (b0 & <- & _).
  simpl. rewrite <- String.eqb_eq.
  destruct (String.eqb (ref_id b0) branchId); split; congruence.
Qed.

(** What [createGoalBranch] does to the goal: it stores it with one more
    snapshot id and one more branch reference, which is not flagged
    [current]; the new branch starts at the snapshot just saved. *)
Lemma wp_createGoalBranch goalId name description goal w :
  (loadGoal goalId w).1 = Some goal ->
  wp (GoalService.createGoalBranch goalId name description)
     (fun result w' =>
        exists branch goal',
          result = Some branch /\
          active_dir w' !! yaml_file (goal_id goal) = Some goal' /\
          goal_id goal' = goal_id goal /\
          count_current (goal_branches goal')
          = count_current (goal_branches goal) /\
          last (goal_snapshots goal') = Some (br_branch_point branch) /\
          is_Some (snapshot_files w'
                     !! (goal_id goal, yaml_file (br_branch_point branch))) /\
          exists ref,
            goal_branches goal' = goal_branches goal ++ [ref] /\
            ref_id ref = br_id branch /\
            ref_name ref = br_name branch /\
            ref_current ref = None) w.
Proof.
  intros Hload. unfold GoalService.createGoalBranch.
  apply wp_bind. unfold wp at 1. rewrite Hload.
  change (loadGoal goalId w).2 with w.
  apply wp_bind, wp_value. intros snapshot w1 Es _.
  assert (snap_goal_id snapshot = goal_id goal) as Hsg by (subst; reflexivity).
  clear Es.
  apply wp_bind. unfold saveSnapshot. apply wp_modify.
  apply wp_bind. apply wp_read_only; [auto with read_only|].
  intros branch w2 Eb F2 _.
  assert (br_branch_point branch = snap_id snapshot) as Hpoint.
  { subst branch. simpl. pose proof (latest_snapshot_last
      (goal_snapshots goal ++ [snap_id snapshot])) as Hl.
    rewrite last_snoc in Hl. symmetry.
    assert (Some (snap_id snapshot)
            = Some (latest_snapshot (goal_snapshots goal ++ [snap_id snapshot])))
      as E by (apply Hl; destruct (goal_snapshots goal); discriminate).
    congruence. }
  assert (br_id branch = generateBranchId name /\ br_name branch = name)
    as [Hbid Hbname] by (subst branch; split; reflexivity).
  clear Eb.
  apply wp_bind. unfold saveBranch. apply wp_modify.
  apply wp_bind. unfold saveGoal. apply wp_modify.
  apply wp_bind, wp_rebuildIndex. intros index w3 F3. apply wp_ret.
  eexists branch, _. split; [reflexivity|].
  split; [|split; [|split; [|split; [|split]]]].
  - rewrite (sf_active _ _ F3). simpl. apply lookup_insert_eq.
  - reflexivity.
  - simpl. rewrite count_current_app. unfold count_current at 2. simpl. lia.
  - simpl. rewrite last_snoc, Hpoint. reflexivity.
  - rewrite (sf_snapshots _ _ F3). simpl. rewrite (sf_snapshots _ _ F2).
    simpl. rewrite Hpoint, <- Hsg, lookup_insert_eq.
    eexists; reflexivity.
  - eexists. split; [reflexivity|]. repeat split; reflexivity.
Qed.

(** Through [createGoalBranch] a branch is always anchored at a snapshot:
    the one that the service has just saved for the branch point. *)
Lemma createGoalBranch_anchors_at_saved_snapshot goalId name description
    goal w :
  (loadGoal goalId w).1 = Some goal ->
  let run := GoalService.createGoalBranch goalId name description w in
  exists branch,
    run.1 = Some branch /\
    is_Some (snapshot_files run.2
               !! (goal_id goal, yaml_file (br_branch_point branch))).
Proof.
  intros Hload run.
  destruct (wp_createGoalBranch goalId name description goal w Hload)
    as (branch & goal' & Hres & _ & _ & _ & _ & Hsaved & _).
  exists branch. split; assumption.
Qed.

(** What [switchBranch] does to the goal: it stores and returns it with
    every branch reference flagged anew. *)
Lemma wp_switchBranch goalId branchId goal w :
  (loadGoal goalId w).1 = Some goal ->
  wp (GoalService.switchBranch goalId branchId)
     (fun result w' =>
        exists goal',
          result = Some goal' /\
          active_dir w' !! yaml_file (goal_id goal) = Some goal' /\
          goal_branches goal'
          = List.map (GoalService.flag_current branchId) (goal_branches goal) /\
          goal' = set_branches (goal_branches goal') goal)
     w.
Proof.
  intros Hload. unfold GoalService.switchBranch.
  apply wp_bind. unfold wp at 1. rewrite Hload.
  change (loadGoal goalId w).2 with w.
  apply wp_bind. unfold saveGoal. apply wp_modify. apply wp_ret.
  eexists. split; [reflexivity|]. split; [|split; reflexivity].
  simpl. apply lookup_insert_eq.
Qed.

(** Flagging anew changes the [current] flag of a reference and nothing
    else. *)
Lemma flagged_reflagged branchId branches :
  Forall2 (reflagged branchId) branches
          (List.map (GoalService.flag_current branchId) branches).
Proof.
  induction branches as [|b bs IH]; constructor; [|exact IH].
  unfold reflagged, GoalService.flag_current. cbn.
  repeat (split; [reflexivity|]). split.
  - intros <-. rewrite String.eqb_refl. reflexivity.
  - intros Hne. apply String.eqb_neq in Hne. rewrite Hne. reflexivity.
Qed.

(** C2 (as amended): [createGoal] establishes that exactly one branch
    reference has [current = true], and [createGoalBranch] keeps it: the
    goal that it stores again has the references that it had and after them
    one for the new branch, which is not flagged, so it has exactly one
    [current] reference. [switchBranch] sets [current] to true on exactly
    the references whose id equals [branchId] and to false on all others,
    and changes nothing else of the goal or of its references: the goal that
    it returns and stores has exactly one [current] reference if and only if
    [branchId] is the id of exactly one branch reference of the goal. *)
Theorem current_branch_invariant (w : World) (goalId : string) (goal : Goal) :
  (loadGoal goalId w).1 = Some goal ->
  count_current (goal_branches goal) = 1 ->
  (forall input createdBy w0,
     count_current (goal_branches (createGoal input createdBy w0).1) = 1) /\
  (forall name description,
     let run := GoalService.createGoalBranch goalId name description w in
     exists branch goal',
       run.1 = Some branch /\
       (loadGoal (goal_id goal) run.2).1 = Some goal' /\
       (exists ref,
          goal_branches goal' = goal_branches goal ++ [ref] /\
          ref_id ref = br_id branch /\
          ref_name ref = name /\
          ref_current ref = None) /\
       count_current (goal_branches goal') = 1) /\
  (forall branchId,
     let run := GoalService.switchBranch goalId branchId w in
     exists goal',
       run.1 = Some goal' /\
       (loadGoal (goal_id goal) run.2).1 = Some goal' /\
       goal' = set_branches (goal_branches goal') goal /\
       goal_branches goal'
       = List.map (GoalService.flag_current branchId) (goal_branches goal) /\
       Forall2 (reflagged branchId) (goal_branches goal)
               (goal_branches goal') /\
       (forall b, b ∈ goal_branches goal' ->
          (ref_current b = Some true <-> ref_id b = branchId)) /\
       count_current (goal_branches goal')
       = count_id branchId (goal_branches goal) /\
       (count_current (goal_branches goal') = 1
        <-> count_id branchId (goal_branches goal) = 1)).
Proof.
  intros Hload Hone. split; [|split].
  - intros. apply count_current_createGoal.
  - intros name description run.
    destruct (wp_createGoalBranch goalId name description goal w Hload)
      as (branch & goal' & Hres & Hstored & _ & Hcount & _ & _ & Href).
    exists branch, goal'. split; [exact Hres|].
    split; [apply loadGoal_active, Hstored|]. split; [|congruence].
    destruct Href as (ref & Hbranches & Hid & Hname & Hcur).
    exists ref. split; [exact Hbranches|]. split; [exact Hid|].
    split; [|exact Hcur]. rewrite Hname.
    subst run. unfold GoalService.createGoalBranch, bind in Hres.
    revert Hres. rewrite (surjective_pairing (loadGoal goalId w)), Hload.
    cbn [fst snd]. unfold createBranch, saveBranch, saveSnapshot, saveGoal,
      modify, bind, gets, ret.
    repeat match goal with
           | |- context [let (_, _) := ?c in _] =>
               rewrite (surjective_pairing c); cbn [fst snd]
           end.
    intros [= <-]. reflexivity.
  - intros branchId run.
    destruct (wp_switchBranch goalId branchId goal w Hload)
      as (goal' & Hres & Hstored & Hbranches & Hrest).
    exists goal'. split; [exact Hres|].
    split; [apply loadGoal_active, Hstored|].
    split; [exact Hrest|]. split; [exact Hbranches|].
    rewrite Hbranches. split; [apply flagged_reflagged|].
    split; [apply flagged_current_iff|].
    rewrite count_current_flagged. split; [reflexivity | tauto].
Qed.

Lemma current_branch_invariant_witness :
  let goalId := goal_id demo_goal in
  (exists branch goal',
     (GoalService.createGoalBranch goalId "Try SSE" "" stored_world).1
     = Some branch /\
     (loadGoal goalId
        (GoalService.createGoalBranch goalId "Try SSE" "" stored_world).2).1
     = Some goal' /\
     count_current (goal_branches goal') = 1) /\
  (exists goal',
     (GoalService.switchBranch goalId "branch_main" stored_world).1
     = Some goal' /\
     count_current (goal_branches goal') = 1).
Proof.
  intros goalId.
  assert ((loadGoal goalId stored_world).1 = Some demo_goal) as Hload
    by (vm_compute; reflexivity).
  assert (count_current (goal_branches demo_goal) = 1) as Hone
    by reflexivity.
  destruct (current_branch_invariant stored_world goalId demo_goal Hload Hone)
    as (_ & Hbranch & Hswitch).
  split.
  - destruct (Hbranch "Try SSE" "") as (branch & goal' & Hres & Hl & _ & Hc).
    exists branch, goal'. repeat split; assumption.
  - destruct (Hswitch "branch_main")
      as (goal' & Hres & _ & _ & _ & _ & _ & _ & Hiff).
    exists goal'. split; [exact Hres|]. apply Hiff. reflexivity.
Defined.

(** C2 (counterexample): a goal with exactly one [current] branch reference
    is switched to a branch id that none of its references carries; the goal
    that [switchBranch] returns and stores has no [current] reference. *)
Lemma switchBranch_unknown_target_clears_current :
  let goalId := goal_id demo_goal in
  (loadGoal goalId stored_world).1 = Some demo_goal /\
  count_current (goal_branches demo_goal) = 1 /\
  exists goal',
    (GoalService.switchBranch goalId "branch_try_sse" stored_world).1
    = Some goal' /\
    (loadGoal goalId
       (GoalService.switchBranch goalId "branch_try_sse" stored_world).2).1
    = Some goal' /\
    count_current (goal_branches goal') = 0 /\
    count_current (goal_branches goal') <> 1.
Proof.
  split; [vm_compute; reflexivity|]. split; [reflexivity|].
  eexists. split; [vm_compute; reflexivity|].
  split; [vm_compute; reflexivity|]. split; [reflexivity | discriminate].
Qed.

(** * storage/yaml-store.ts: archival *)

Lemma elem_of_readdirSync {V : Type} (dir : gmap string V) (f : string) :
  f ∈ readdirSync dir <-> is_Some (dir !! f).
Proof.
  unfold readdirSync. rewrite list_elem_of_fmap. split.
  - intros ([f' v] & -> & Hin). apply elem_of_map_to_list in Hin.
    simpl. eexists; exact Hin.
  - intros [v Hv]. exists (f, v). split; [reflexivity|].
    apply elem_of_map_to_list, Hv.
Qed.

Lemma elem_of_yaml_ids (id : string) (names : list string) :
  id ∈ yaml_ids names <->
  exists f, f ∈ names /\ endsWith f ".yaml" = true /\
            replace_first ".yaml" "" f = id.
Proof.
  unfold yaml_ids. rewrite list_elem_of_In, in_map_iff. split.
  - intros (f & Hid & Hin). apply filter_In in Hin as [Hin Hends].
    exists f. rewrite list_elem_of_In. auto.
  - intros (f & Hin & Hends & Hid). exists f. split; [exact Hid|].
    apply filter_In. rewrite <- list_elem_of_In. auto.
Qed.

(** [archiveGoal] on a goal that is not in the active area returns [false]
    and changes nothing, also when the goal is in the archived area. *)
Lemma archiveGoal_not_active goalId w :
  active_dir w !! yaml_file goalId = None ->
  archiveGoal goalId w = (false, w).
Proof. intros H. unfold archiveGoal. rewrite H. reflexivity. Qed.

(** [archiveGoal] on an active goal returns [true], moves the document to
    the archived area, where [loadGoal] still finds it, and removes its file
    from the active area. *)
Lemma archiveGoal_active goalId goal w :
  active_dir w !! yaml_file goalId = Some goal ->
  (archiveGoal goalId w).1 = true /\
  active_dir (archiveGoal goalId w).2 = delete (yaml_file goalId) (active_dir w)
  /\
  archived_dir (archiveGoal goalId w).2 !! yaml_file goalId = Some goal /\
  (loadGoal goalId (archiveGoal goalId w).2).1 = Some goal.
Proof.
  intros H. unfold archiveGoal. rewrite H. simpl.
  split; [reflexivity|]. split; [reflexivity|].
  split; [apply lookup_insert_eq|].
  unfold loadGoal, gets. simpl.
  rewrite lookup_delete_eq, lookup_insert_eq. reflexivity.
Qed.

(** The archival scenario holds for every goal id that only its own file
    is listed under. *)
Lemma archival_scenario goalId w :
  (forall goal,
     active_dir w !! yaml_file goalId = None ->
     archived_dir w !! yaml_file goalId = Some goal ->
     (archiveGoal goalId w).1 = false) /\
  (forall goal,
     active_dir w !! yaml_file goalId = Some goal ->
     listed_by_own_file goalId w ->
     (archiveGoal goalId w).1 = true /\
     (loadGoal goalId (archiveGoal goalId w).2).1 = Some goal /\
     ~ goalId ∈ (listGoals false (archiveGoal goalId w).2).1).
Proof.
  split.
  - intros goal Hactive _. rewrite archiveGoal_not_active by exact Hactive.
    reflexivity.
  - intros goal Hactive Hown.
    destruct (archiveGoal_active goalId goal w Hactive)
      as (Hres & Hdir & _ & Hload).
    split; [exact Hres|]. split; [exact Hload|].
    unfold listGoals, gets. simpl. rewrite Hdir.
    rewrite elem_of_yaml_ids. intros (f & Hin & Hends & Hid).
    apply elem_of_readdirSync in Hin as [v Hv].
    assert (f = yaml_file goalId) as ->.
    { apply Hown; [|exact Hends|exact Hid].
      apply lookup_delete_Some in Hv as [_ Hv]. eexists; exact Hv. }
    rewrite lookup_delete_eq in Hv. discriminate.
Qed.

(** Ids with a dot: the active area holds two goals that were stored under
    the ids [ab.yaml] and [a.yamlb]. [archiveGoal "ab.yaml"] returns [true]
    and moves the file [ab.yaml.yaml]; [loadGoal] still finds the goal in
    the archived area; but [listGoals(false)] still contains [ab.yaml],
    because the file [a.yamlb.yaml] of the other goal is listed with its
    first [.yaml] removed. *)
Remark listGoals_after_archive_misnames_dotted_file :
  let goal := relabel "ab.yaml" None demo_goal in
  active_dir dotted_world !! yaml_file "ab.yaml" = Some goal /\
  (archiveGoal "ab.yaml" dotted_world).1 = true /\
  let w' := (archiveGoal "ab.yaml" dotted_world).2 in
  active_dir w' !! yaml_file "ab.yaml" = None /\
  (loadGoal "ab.yaml" w').1 = Some goal /\
  readdirSync (active_dir w') = ["a.yamlb.yaml"] /\
  (listGoals false w').1 = ["ab.yaml"] /\
  "ab.yaml" ∈ (listGoals false w').1.
Proof.
  split; [vm_compute; reflexivity|]. split; [vm_compute; reflexivity|].
  split; [vm_compute; reflexivity|]. split; [vm_compute; reflexivity|].
  split; [vm_compute; reflexivity|].
  assert ((listGoals false (archiveGoal "ab.yaml" dotted_world).2).1
          = ["ab.yaml"]) as E by (vm_compute; reflexivity).
  split; [exact E|]. rewrite E. left.
Qed.

(** ** File names and goal ids *)

Lemma substring_whole (s : string) : substring 0 (String.length s) s = s.
Proof. induction s as [|c s IH]; simpl; [reflexivity | f_equal; exact IH]. Qed.

Lemma endsWith_split (s suffix : string) :
  endsWith s suffix = true -> exists p, s = p +:+ suffix.
Proof.
  unfold endsWith. induction s as [|c s IH]; intros H.
  - apply andb_true_iff in H as [Hlen Heq]. apply String.eqb_eq in Heq.
    exists "". simpl in *. destruct suffix; [reflexivity|discriminate].
  - apply andb_true_iff in H as [Hlen Heq].
    apply Nat.leb_le in Hlen. apply String.eqb_eq in Heq.
    simpl String.length in *.
    destruct (decide (String.length suffix = S (String.length s))) as [E|E].
    + exists "". rewrite E, Nat.sub_diag in Heq.
      change (S (String.length s)) with (String.length (String c s)) in Heq.
      rewrite substring_whole in Heq. simpl. exact Heq.
    + assert (S (String.length s) - String.length suffix
              = S (String.length s - String.length suffix)) as E' by lia.
      rewrite E' in Heq. simpl in Heq.
      destruct IH as [p Hp].
      { apply andb_true_iff. split; [apply Nat.leb_le; lia|].
        apply String.eqb_eq. exact Heq. }
      exists (String c p). rewrite Hp at 1. reflexivity.
Qed.

Lemma prefix_split (p s : string) :
  String.prefix p s = true -> exists r, s = p +:+ r.
Proof.
  revert s. induction p as [|a p IH]; intros s H.
  - exists s. reflexivity.
  - destruct s as [|b s]; [discriminate|]. cbn [String.prefix] in H.
    destruct (ascii_dec a b) as [->|]; [|discriminate].
    destruct (IH s H) as [r ->]. exists r. reflexivity.
Qed.

Lemma append_cons c s t : String c s +:+ t = String c (s +:+ t).
Proof. reflexivity. Qed.

Lemma append_empty t : "" +:+ t = t.
Proof. reflexivity. Qed.

Lemma contains_char_app c s t :
  contains_char c (s +:+ t) = contains_char c s || contains_char c t.
Proof.
  induction s as [|d s IH]; [reflexivity|].
  rewrite append_cons. simpl. rewrite IH. apply orb_assoc.
Qed.

(** A name [yaml ++ r] that ends in [.yaml] has a dot in [r]. *)
Lemma yaml_overlap (p r : string) :
  "yaml" +:+ r = p +:+ ".yaml" -> contains_char "." r = true.
Proof.
  intros H.
  destruct p as [|c1 [|c2 [|c3 [|c4 p]]]];
    rewrite ?append_cons, ?append_empty in H; try discriminate.
  injection H as _ _ _ _ ->.
  rewrite contains_char_app. simpl. apply orb_true_r.
Qed.

Lemma replace_first_yaml_suffix (p id : string) :
  contains_char "." id = false ->
  replace_first ".yaml" "" (p +:+ ".yaml") = id ->
  p = id.
Proof.
  revert id. induction p as [|c p IH]; intros id Hdot H.
  - rewrite append_empty in H. vm_compute in H. congruence.
  - rewrite append_cons in H. cbn [replace_first] in H.
    destruct (String.prefix ".yaml" (String c (p +:+ ".yaml"))) eqn:Hpre.
    + exfalso. apply prefix_split in Hpre as [r Hr].
      rewrite Hr in H. rewrite !append_cons, !append_empty in H.
      cbn [drop_chars String.length] in H. subst id.
      rewrite !append_cons, !append_empty in Hr.
      injection Hr as _ Hr.
      symmetry in Hr. apply yaml_overlap in Hr. congruence.
    + destruct id as [|d id]; [discriminate|].
      injection H as -> H. simpl in Hdot.
      apply orb_false_iff in Hdot as [_ Hdot].
      f_equal. apply IH; assumption.
Qed.

(** An id without a dot is listed by its own file only. *)
Lemma plain_id_listed_by_own_file goalId w :
  contains_char "." goalId = false -> listed_by_own_file goalId w.
Proof.
  intros Hdot f _ Hends Hid.
  apply endsWith_split in Hends as [p ->].
  apply replace_first_yaml_suffix in Hid; [|exact Hdot].
  subst p. reflexivity.
Qed.

(** The archival scenario for goal ids without a dot, as the ids made by
    [generateGoalId] from an ISO date and base-36 digits are. *)
Lemma archival_scenario_plain_id goalId goal w :
  contains_char "." goalId = false ->
  active_dir w !! yaml_file goalId = Some goal ->
  (archiveGoal goalId w).1 = true /\
  (loadGoal goalId (archiveGoal goalId w).2).1 = Some goal /\
  ~ goalId ∈ (listGoals false (archiveGoal goalId w).2).1.
Proof.
  intros Hdot Hactive.
  apply (proj2 (archival_scenario goalId w) goal Hactive).
  apply plain_id_listed_by_own_file, Hdot.
Qed.

(** The ids that [generateGoalId] makes have no dot when the fourteen
    characters that it takes from the time stamp and the four that it takes
    from the random number have none, as is the case for an ISO time stamp
    and a number written in base 36. *)
Lemma generateGoalId_plain w :
  contains_char "."
    (slice 0 14 (strip_date_punctuation (iso_time (host w) (ticks w))))
  = false ->
  contains_char "." (slice 2 6 (random36 (host w) (S (ticks w)))) = false ->
  contains_char "." (generateGoalId w).1 = false.
Proof.
  intros Htime Hrandom. unfold generateGoalId, bind, Date_now_iso,
    Math_random_base36, ret. cbn [fst snd host ticks set_ticks].
  rewrite !contains_char_app, Htime.
  destruct w; cbn in *. rewrite Hrandom. reflexivity.
Qed.

(** The service's [archive] returns what [archiveGoal] returns and leaves
    the files as [archiveGoal] leaves them. *)
Lemma archive_files goalId autoIndex w :
  (GoalService.archive goalId autoIndex w).1 = (archiveGoal goalId w).1 /\
  same_files (archiveGoal goalId w).2 (GoalService.archive goalId autoIndex w).2.
Proof.
  unfold GoalService.archive, bind.
  destruct (archiveGoal goalId w) as [result w1]. cbn [fst snd].
  destruct (result && autoIndex); cbn [fst snd ret].
  - pose proof (rebuildIndex_files w1) as F.
    destruct (rebuildIndex w1) as [index w2]. split; [reflexivity | exact F].
  - split; [reflexivity | apply same_files_refl].
Qed.

(** C8: for a goal id without a dot, as the ids are that [generateGoalId]
    makes from an ISO time stamp and base-36 digits: [archive] on a goal that is only in the archived area returns
    [false] and changes no file, so [loadGoal] still finds the goal; on a
    goal in the active area it returns [true], after which the file is gone
    from the active area and is in the archived area, [loadGoal] still
    finds the goal there, and [listGoals(false)] does not contain the id
    any more. The store's [archiveGoal] returns the same. *)
Theorem archival_semantics (w : World) (goalId : string) (goal : Goal)
    (autoIndex : bool) :
  contains_char "." goalId = false ->
  let run := GoalService.archive goalId autoIndex w in
  (active_dir w !! yaml_file goalId = None ->
   archived_dir w !! yaml_file goalId = Some goal ->
   run.1 = false /\
   archiveGoal goalId w = (false, w) /\
   run.2 = w /\
   (loadGoal goalId run.2).1 = Some goal) /\
  (active_dir w !! yaml_file goalId = Some goal ->
   run.1 = true /\
   (archiveGoal goalId w).1 = true /\
   active_dir run.2 !! yaml_file goalId = None /\
   archived_dir run.2 !! yaml_file goalId = Some goal /\
   (loadGoal goalId run.2).1 = Some goal /\
   ~ goalId ∈ (listGoals false run.2).1 /\
   ~ goalId ∈ (listGoals false (archiveGoal goalId w).2).1).
Proof.
  intros Hdot run. destruct (archive_files goalId autoIndex w) as [Hres F].
  fold run in Hres, F. split.
  - intros Hactive Harchived.
    pose proof (archiveGoal_not_active goalId w Hactive) as Hnot.
    split; [rewrite Hres, Hnot; reflexivity|]. split; [exact Hnot|].
    assert (run.2 = w) as Hw.
    { subst run. unfold GoalService.archive, bind. rewrite Hnot.
      reflexivity. }
    split; [exact Hw|]. rewrite Hw. unfold loadGoal, gets. cbn [fst].
    rewrite Hactive. exact Harchived.
  - intros Hactive.
    destruct (archiveGoal_active goalId goal w Hactive)
      as (Htrue & Hdir & Harch & Hload).
    destruct (archival_scenario_plain_id goalId goal w Hdot Hactive)
      as (_ & _ & Hlist).
    split; [rewrite Hres; exact Htrue|]. split; [exact Htrue|].
    assert (active_dir run.2 !! yaml_file goalId = None) as Hgone
      by (rewrite (sf_active _ _ F), Hdir; apply lookup_delete_eq).
    assert (archived_dir run.2 !! yaml_file goalId = Some goal) as Hthere
      by (rewrite (sf_archived _ _ F); exact Harch).
    split; [exact Hgone|]. split; [exact Hthere|]. split.
    + unfold loadGoal, gets. cbn [fst]. rewrite Hgone. exact Hthere.
    + split; [|exact Hlist].
      unfold listGoals, gets in *. cbn [fst negb] in *.
      rewrite (sf_active _ _ F). exact Hlist.
Qed.

Lemma archival_semantics_witness :
  let goalId := goal_id demo_goal in
  let archived := (GoalService.archive goalId true stored_world).2 in
  ((GoalService.archive goalId true stored_world).1 = true /\
   (loadGoal goalId archived).1 = Some demo_goal /\
   ~ goalId ∈ (listGoals false archived).1) /\
  (GoalService.archive goalId true archived).1 = false.
Proof.
  intros goalId archived.
  assert (contains_char "." goalId = false) as Hdot
    by (vm_compute; reflexivity).
  split.
  - destruct (archival_semantics stored_world goalId demo_goal true Hdot)
      as [_ Hactive].
    destruct Hactive as (Hres & _ & _ & _ & Hload & Hlist & _);
      [vm_compute; reflexivity|].
    split; [exact Hres|]. split; [exact Hload | exact Hlist].
  - destruct (archival_semantics archived goalId demo_goal true Hdot)
      as [Harchived _].
    apply Harchived; vm_compute; reflexivity.
Defined.

(** * storage/index-builder.ts: [getAncestors] *)

Lemma getIndex_cached index w :
  index_json w = Some index -> getIndex w = (index, w).
Proof.
  intros H. unfold getIndex, loadIndex, bind, gets. simpl.
  rewrite H. reflexivity.
Qed.

Lemma rec_get_JSON (k : string) (m : JsRecord GoalIndexEntry) :
  rec_get k (List.map (fun kv => (kv.1, JSON_entry kv.2)) m)
  = JSON_entry <$> rec_get k m.
Proof.
  induction m as [|[k' v] m IH]; [reflexivity|]. simpl.
  destruct (String.eqb k k'); [reflexivity | exact IH].
Qed.


(** The parent entries go through JSON unchanged. *)
Lemma parent_in_JSON index id :
  parent_in (JSON_index index) id = parent_in index id.
Proof.
  unfold parent_in, JSON_index. cbn [idx_goals]. rewrite rec_get_JSON.
  destruct (rec_get id (idx_goals index)); reflexivity.
Qed.

(** After a call of [getIndex] an index is cached: the index that was
    cached before and that the call returned, or the index that it built,
    as JSON keeps it. *)
Lemma getIndex_caches w :
  (index_json w = Some (getIndex w).1 /\ (getIndex w).2 = w) \/
  (index_json w = None /\
   index_json (getIndex w).2 = Some (JSON_index (getIndex w).1)).
Proof.
  unfold getIndex, loadIndex, bind, gets. simpl.
  destruct (index_json w) as [index|] eqn:E; [left; split; reflexivity|].
  right. split; [reflexivity|].
  destruct (loadAllGoals true w) as [goals w1].
  destruct (buildIndex goals w1) as [index w2]. reflexivity.
Qed.

(** The index cached after a call of [getIndex] has the parent entries of
    the index that the call returned. *)
Lemma getIndex_caches_parents w :
  exists cached,
    index_json (getIndex w).2 = Some cached /\
    forall id, parent_in cached id = parent_in (getIndex w).1 id.
Proof.
  destruct (getIndex_caches w) as [[Hc Hw] | [_ Hc]].
  - exists (getIndex w).1. split; [rewrite Hw; exact Hc | reflexivity].
  - exists (JSON_index (getIndex w).1). split; [exact Hc|].
    intros id. apply parent_in_JSON.
Qed.

Lemma getParentGoal_cached index goalId w :
  index_json w = Some index ->
  getParentGoal goalId w = (parent_in index goalId, w).
Proof.
  intros H. unfold getParentGoal, bind. rewrite (getIndex_cached _ _ H).
  reflexivity.
Qed.

Lemma ancestors_loop_cached index fuel current ancestors w :
  index_json w = Some index ->
  ancestors_loop fuel current ancestors w
  = (ancestors_on index fuel current ancestors, w).
Proof.
  intros H. revert current ancestors.
  induction fuel as [|fuel IH]; intros [c|] ancestors; simpl;
    try reflexivity.
  - destruct (truthy c); reflexivity.
  - destruct (truthy c); simpl; [|reflexivity].
    unfold bind. rewrite (getParentGoal_cached _ _ _ H). apply IH.
Qed.

(** The loop reads the parent entries of the index and nothing else. *)
Lemma ancestors_on_parents index index' :
  (forall id, parent_in index id = parent_in index' id) ->
  forall fuel current ancestors,
    ancestors_on index fuel current ancestors
    = ancestors_on index' fuel current ancestors.
Proof.
  intros Hsame. induction fuel as [|fuel IH]; intros [c|] ancestors; simpl;
    try reflexivity.
  destruct (truthy c); simpl; [|reflexivity]. rewrite Hsame. apply IH.
Qed.

(** [getAncestors] runs its loop on the parent entries of the index that
    [getIndex] returns. *)
Lemma getAncestors_run fuel goalId w :
  (getAncestors fuel goalId w).1
  = ancestors_on (getIndex w).1 fuel (parent_in (getIndex w).1 goalId) [].
Proof.
  unfold getAncestors, getParentGoal.
  unfold bind at 1. unfold bind at 1.
  destruct (getIndex_caches_parents w) as (cached & Hc & Hsame).
  destruct (getIndex w) as [index w1]. simpl in *.
  unfold ret. rewrite (ancestors_loop_cached cached _ _ _ _ Hc).
  apply ancestors_on_parents, Hsame.
Qed.

Lemma walk_shift index id n :
  walk index id (S n) = next_in index id ≫= fun p => walk index p n.
Proof.
  induction n as [|n IH]; [simpl; destruct (next_in index id); reflexivity|].
  change (walk index id (S (S n)))
    with (walk index id (S n) ≫= next_in index).
  rewrite IH. destruct (next_in index id); reflexivity.
Qed.

Lemma walk_None_absorbing index id n m :
  n <= m -> walk index id n = None -> walk index id m = None.
Proof.
  induction 1 as [|m _ IH]; intros H; [exact H|].
  simpl. rewrite (IH H). reflexivity.
Qed.

Lemma walk_add index id a k :
  walk index id (a + k) = walk index id a ≫= fun x => walk index x k.
Proof.
  revert id. induction a as [|a IH]; intros id; [reflexivity|].
  change (S a + k) with (S (a + k)). rewrite !walk_shift.
  destruct (next_in index id) as [p|]; simpl; [apply IH | reflexivity].
Qed.

(** The loop sees an empty parent as no parent. *)
Lemma ancestors_on_next index fuel id ancestors :
  ancestors_on index fuel (parent_in index id) ancestors
  = ancestors_on index fuel (next_in index id) ancestors.
Proof.
  unfold next_in. destruct (parent_in index id) as [p|]; [|reflexivity].
  destruct (truthy p) eqn:E; [reflexivity|].
  destruct fuel; simpl; rewrite E; reflexivity.
Qed.

Lemma next_in_truthy index id p : next_in index id = Some p -> truthy p = true.
Proof.
  unfold next_in. destruct (parent_in index id) as [q|]; [|discriminate].
  destruct (truthy q) eqn:E; [|discriminate]. congruence.
Qed.

(** A walk that ends after [n] steps: the loop returns with fuel [n], and
    what it returns is the chain of ancestors. *)
Lemma ancestors_on_finite index n :
  forall id ancestors,
    walk index id (S n) = None ->
    exists chain,
      ancestor_chain index id chain /\
      forall fuel, n <= fuel ->
        ancestors_on index fuel (next_in index id) ancestors
        = Some (ancestors ++ chain).
Proof.
  induction n as [|n IH]; intros id ancestors Hend;
    rewrite walk_shift in Hend.
  - destruct (next_in index id) as [p|] eqn:Hnext; [discriminate|].
    exists []. split; [apply chain_top, Hnext|].
    intros fuel _. rewrite app_nil_r. destruct fuel; reflexivity.
  - destruct (next_in index id) as [p|] eqn:Hnext.
    + simpl in Hend.
      destruct (IH p (ancestors ++ [p]) Hend) as (chain & Hchain & Hrun).
      exists (p :: chain). split; [apply chain_parent; assumption|].
      intros fuel Hfuel. destruct fuel as [|fuel]; [lia|].
      simpl. rewrite (next_in_truthy _ _ _ Hnext). simpl.
      rewrite ancestors_on_next, Hrun by lia.
      rewrite <- app_assoc. reflexivity.
    + exists []. split; [apply chain_top, Hnext|].
      intros fuel _. rewrite app_nil_r. destruct fuel; reflexivity.
Qed.

(** A walk that never ends: the loop is still running whatever the fuel. *)
Lemma ancestors_on_infinite index fuel :
  forall id ancestors,
    (forall n, walk index id n <> None) ->
    ancestors_on index fuel (next_in index id) ancestors = None.
Proof.
  induction fuel as [|fuel IH]; intros id ancestors Hinf.
  - pose proof (Hinf 1) as H1. simpl in H1.
    destruct (next_in index id) as [p|] eqn:Hnext; [|contradiction].
    simpl. rewrite (next_in_truthy _ _ _ Hnext). reflexivity.
  - pose proof (Hinf 1) as H1. simpl in H1.
    destruct (next_in index id) as [p|] eqn:Hnext; [|contradiction].
    simpl. rewrite (next_in_truthy _ _ _ Hnext). simpl.
    rewrite ancestors_on_next. apply IH.
    intros n Hn. apply (Hinf (S n)). rewrite walk_shift, Hnext. exact Hn.
Qed.

(** Every id that the walk leaves has an entry in the goals map. *)
Lemma walk_step_key index id n x :
  walk index id n = Some x ->
  walk index id (S n) <> None ->
  x ∈ rec_keys (idx_goals index).
Proof.
  intros Hx Hnext. simpl in Hnext. rewrite Hx in Hnext. simpl in Hnext.
  unfold next_in, parent_in in Hnext.
  destruct (rec_get x (idx_goals index)) as [entry|] eqn:Hget;
    [|contradiction].
  clear Hnext. unfold rec_keys.
  induction (idx_goals index) as [|[k v] m IH]; [discriminate|].
  simpl in Hget. destruct (String.eqb x k) eqn:E.
  - apply String.eqb_eq in E. subst k. left.
  - right. apply IH, Hget.
Qed.

(** Pigeonhole: an acyclic walk ends within as many steps as the goals map
    has entries. *)
Lemma acyclic_walk_ends index id :
  acyclic_from index id ->
  walk index id (S (length (idx_goals index))) = None.
Proof.
  intros Hacyclic.
  set (N := length (idx_goals index)).
  destruct (walk index id (S N)) as [last|] eqn:Hlast; [|reflexivity].
  exfalso.
  assert (forall k, k <= S N -> walk index id k <> None) as Hdefined.
  { intros k Hk Hnone.
    rewrite (walk_None_absorbing index id k (S N) Hk Hnone) in Hlast.
    discriminate. }
  set (visited := walk index id <$> seq 0 (S N)).
  assert (NoDup visited) as Hnodup.
  { apply NoDup_alt. intros i j o Hi Hj. subst visited.
    rewrite list_lookup_fmap in Hi, Hj.
    destruct (seq 0 (S N) !! i) as [i'|] eqn:Ei; [|discriminate].
    destruct (seq 0 (S N) !! j) as [j'|] eqn:Ej; [|discriminate].
    apply lookup_seq in Ei as [-> Hi']. apply lookup_seq in Ej as [-> Hj'].
    simpl in Hi, Hj. injection Hi as Hi. injection Hj as Hj.
    destruct o as [x|]; [|exfalso; apply (Hdefined i); [lia | exact Hi]].
    destruct (Nat.lt_trichotomy i j) as [Hlt|[Heq|Hgt]]; [|exact Heq|].
    - exfalso. apply (Hacyclic i j x Hlt Hi Hj).
    - exfalso. apply (Hacyclic j i x Hgt Hj Hi). }
  assert (forall o, o ∈ visited -> o ∈ Some <$> rec_keys (idx_goals index))
    as Hincl.
  { intros o Hin. subst visited.
    apply list_elem_of_fmap in Hin as (k & -> & Hk).
    apply elem_of_seq in Hk.
    destruct (walk index id k) as [x|] eqn:Hx;
      [|exfalso; apply (Hdefined k); [lia | exact Hx]].
    apply list_elem_of_fmap. exists x. split; [reflexivity|].
    apply (walk_step_key index id k x Hx). apply Hdefined. lia. }
  pose proof (submseteq_length _ _ (NoDup_submseteq _ _ Hnodup Hincl)) as Hlen.
  subst visited. rewrite !length_fmap, length_seq in Hlen.
  unfold rec_keys in Hlen. rewrite length_fmap in Hlen. subst N. lia.
Qed.

(** A walk that revisits an id never ends. *)
Lemma cyclic_walk_never_ends index id :
  cyclic_from index id -> forall n, walk index id n <> None.
Proof.
  intros (i & j & x & Hlt & Hi & Hj) n Hnone.
  assert (forall t, walk index id (i + t * (j - i)) = Some x) as Hperiod.
  { induction t as [|t IH]; [rewrite Nat.add_0_r; exact Hi|].
    replace (i + S t * (j - i)) with (j + t * (j - i)) by lia.
    rewrite walk_add, Hj. simpl.
    rewrite walk_add, Hi in IH. exact IH. }
  specialize (Hperiod n).
  rewrite (walk_None_absorbing index id n (i + n * (j - i))) in Hperiod;
    [discriminate | nia | exact Hnone].
Qed.

(** A walk that ends revisits no id. *)
Lemma finite_walk_acyclic index id n :
  walk index id n = None -> acyclic_from index id.
Proof.
  intros Hend i j x Hlt Hi Hj.
  apply (cyclic_walk_never_ends index id) with (n := n); [|exact Hend].
  exists i, j, x. auto.
Qed.

(** C10: on an index in which the chain of parent entries from [goalId] is
    acyclic, [getAncestors goalId] terminates (with any fuel from the number
    of entries of the goals map on) and returns the ancestors from the
    nearest parent up to a goal without parent. The walk has no cycle
    detection: on a chain that revisits an id it is still running whatever
    the fuel. *)
Theorem getAncestors_terminates_on_acyclic_chain (w : World)
    (goalId : string) :
  let index := (getIndex w).1 in
  (acyclic_from index goalId ->
   exists ancestors,
     ancestor_chain index goalId ancestors /\
     forall fuel, length (idx_goals index) <= fuel ->
       (getAncestors fuel goalId w).1 = Some ancestors) /\
  (cyclic_from index goalId ->
   forall fuel, (getAncestors fuel goalId w).1 = None).
Proof.
  intros index. split.
  - intros Hacyclic.
    destruct (ancestors_on_finite index (length (idx_goals index)) goalId []
                (acyclic_walk_ends index goalId Hacyclic))
      as (chain & Hchain & Hrun).
    exists chain. split; [exact Hchain|].
    intros fuel Hfuel. rewrite getAncestors_run. fold index.
    rewrite ancestors_on_next. apply Hrun, Hfuel.
  - intros Hcyclic fuel. rewrite getAncestors_run. fold index.
    rewrite ancestors_on_next. apply ancestors_on_infinite.
    apply cyclic_walk_never_ends, Hcyclic.
Qed.

Lemma getAncestors_terminates_on_acyclic_chain_witness :
  (getAncestors 3 "goal_c" family_world).1 = Some ["goal_b"; "goal_a"] /\
  ancestor_chain (getIndex family_world).1 "goal_c" ["goal_b"; "goal_a"] /\
  (forall fuel, (getAncestors fuel "goal_x" looped_world).1 = None).
Proof.
  destruct (getAncestors_terminates_on_acyclic_chain family_world "goal_c")
    as [Hline _].
  destruct (getAncestors_terminates_on_acyclic_chain looped_world "goal_x")
    as [_ Hloop].
  destruct Hline as (ancestors & Hchain & Hrun).
  { apply (finite_walk_acyclic _ _ 3). vm_compute. reflexivity. }
  assert ((getAncestors 3 "goal_c" family_world).1 = Some ancestors) as Hthree.
  { apply Hrun. vm_compute. lia. }
  assert ((getAncestors 3 "goal_c" family_world).1 = Some ["goal_b"; "goal_a"])
    as Heval by (vm_compute; reflexivity).
  assert (ancestors = ["goal_b"; "goal_a"]) as -> by congruence.
  split; [exact Heval|]. split; [exact Hchain|].
  apply Hloop. exists 0, 2, "goal_x".
  split; [lia|]. split; vm_compute; reflexivity.
Defined.

(** * Further properties *)

(** ** [Record<string, V>] objects *)

Lemma rec_get_set_eq {V : Type} (k : string) (v : V) (m : JsRecord V) :
  rec_get k (rec_set k v m) = Some v.
Proof.
  induction m as [|[k' v'] m IH]; simpl.
  - rewrite String.eqb_refl. reflexivity.
  - destruct (String.eqb k k') eqn:E; simpl; rewrite E; [reflexivity | exact IH].
Qed.

Lemma rec_get_set_ne {V : Type} (k k' : string) (v : V) (m : JsRecord V) :
  k <> k' -> rec_get k (rec_set k' v m) = rec_get k m.
Proof.
  intros Hne. induction m as [|[k0 v0] m IH]; simpl.
  - apply String.eqb_neq in Hne. rewrite Hne. reflexivity.
  - destruct (String.eqb k' k0) eqn:E; simpl.
    + apply String.eqb_eq in E. subst k0.
      apply String.eqb_neq in Hne. rewrite Hne. reflexivity.
    + destruct (String.eqb k k0); [reflexivity | exact IH].
Qed.

Lemma rec_get_push_eq (k x : string) (m : JsRecord (list string)) :
  rec_get k (rec_push k x m) = Some (default [] (rec_get k m) ++ [x]).
Proof.
  unfold rec_push. destruct (rec_get k m) as [l|] eqn:E.
  - rewrite E. apply rec_get_set_eq.
  - rewrite rec_get_set_eq. apply rec_get_set_eq.
Qed.

Lemma rec_get_push_ne (k k' x : string) (m : JsRecord (list string)) :
  k <> k' -> rec_get k (rec_push k' x m) = rec_get k m.
Proof.
  intros Hne. unfold rec_push. destruct (rec_get k' m) as [l|] eqn:E.
  - rewrite E. apply rec_get_set_ne, Hne.
  - rewrite rec_get_set_eq. rewrite !rec_get_set_ne by exact Hne. reflexivity.
Qed.






(** ** storage/index-builder.ts: what [buildIndex] puts into the index *)

Lemma buildIndex_index_of goals w :
  (buildIndex goals w).1
  = set_generated (iso_time (host w) (S (ticks w))) (index_of goals).
Proof. apply buildIndex_run. Qed.

(** The state of the loop after [seen], continued over [goals]. *)
Lemma fold_index_goal_fields goals index :
  idx_goals (fold_left index_goal goals index)
  = fold_left (fun m g => rec_set (goal_id g) (entry_of g) m) goals
              (idx_goals index) /\
  idx_by_status (fold_left index_goal goals index)
  = fold_left (fun m g => rec_push (status_name (goal_status g)) (goal_id g) m)
              goals (idx_by_status index) /\
  idx_by_project (fold_left index_goal goals index)
  = fold_left (fun m g => rec_push (goal_project g) (goal_id g) m)
              goals (idx_by_project index) /\
  idx_by_tag (fold_left index_goal goals index)
  = fold_left (fun m g =>
                 fold_left (fun m tag => rec_push tag (goal_id g) m)
                           (goal_tags g) m)
              goals (idx_by_tag index).
Proof.
  revert index. induction goals as [|g goals IH]; intros index.
  - repeat split.
  - simpl. destruct (IH (index_goal index g)) as (H1 & H2 & H3 & H4).
    rewrite H1, H2, H3, H4. repeat split.
Qed.

Lemma push_all_lookup (key : Goal -> string) (k : string) goals m :
  default [] (rec_get k
    (fold_left (fun m g => rec_push (key g) (goal_id g) m) goals m))
  = default [] (rec_get k m)
    ++ List.map goal_id (List.filter (fun g => String.eqb (key g) k) goals).
Proof.
  revert m. induction goals as [|g goals IH]; intros m; simpl.
  - rewrite app_nil_r. reflexivity.
  - rewrite IH. destruct (String.eqb (key g) k) eqn:E.
    + apply String.eqb_eq in E. subst k. rewrite rec_get_push_eq. simpl.
      rewrite <- app_assoc. reflexivity.
    + apply String.eqb_neq in E. rewrite rec_get_push_ne by congruence.
      reflexivity.
Qed.

Lemma status_name_eqb a b :
  String.eqb (status_name a) (status_name b) = status_eqb a b.
Proof. destruct a, b; reflexivity. Qed.

Lemma tag_pushes_lookup (tag id : string) tags m :
  default [] (rec_get tag (fold_left (fun m t => rec_push t id m) tags m))
  = default [] (rec_get tag m) ++ repeat id (occurrences tag tags).
Proof.
  revert m. induction tags as [|t tags IH]; intros m; simpl.
  - rewrite app_nil_r. reflexivity.
  - rewrite IH. unfold occurrences. simpl.
    destruct (string_dec t tag) as [->|Hne].
    + rewrite rec_get_push_eq. simpl. rewrite <- app_assoc. reflexivity.
    + rewrite rec_get_push_ne by congruence. reflexivity.
Qed.

Lemma tagged_lookup (tag : string) goals m :
  default [] (rec_get tag
    (fold_left (fun m g =>
                  fold_left (fun m t => rec_push t (goal_id g) m)
                            (goal_tags g) m) goals m))
  = default [] (rec_get tag m) ++ tagged tag goals.
Proof.
  revert m. induction goals as [|g goals IH]; intros m; simpl.
  - rewrite app_nil_r. reflexivity.
  - rewrite IH, tag_pushes_lookup, <- app_assoc. reflexivity.
Qed.

(** The group-by maps of a built index are exact. *)
Lemma buildIndex_groups (goals : list Goal) (w : World) :
  let index := (buildIndex goals w).1 in
  (forall key,
     default [] (rec_get key (idx_by_status index))
     = List.map goal_id
         (List.filter (fun g => String.eqb (status_name (goal_status g)) key)
                      goals)) /\
  (forall project,
     default [] (rec_get project (idx_by_project index))
     = List.map goal_id (in_project project goals)) /\
  (forall tag,
     default [] (rec_get tag (idx_by_tag index)) = tagged tag goals).
Proof.
  intros index. subst index. rewrite buildIndex_index_of. simpl.
  destruct (fold_index_goal_fields goals blank_index) as (_ & Hs & Hp & Ht).
  unfold index_of. rewrite Hs, Hp, Ht. split; [|split].
  - intros key. rewrite (push_all_lookup (fun g => status_name (goal_status g))).
    reflexivity.
  - intros project. rewrite push_all_lookup. reflexivity.
  - intros tag. rewrite tagged_lookup. reflexivity.
Qed.

(** [rebuildIndex] builds the index of the goals that [loadAllGoals(true)]
    returns and leaves it in the index file. *)
Lemma rebuildIndex_run w :
  (rebuildIndex w).1
  = (buildIndex (loadAllGoals true w).1 (loadAllGoals true w).2).1 /\
  index_json (rebuildIndex w).2 = Some (JSON_index (rebuildIndex w).1).
Proof.
  unfold rebuildIndex, bind.
  destruct (loadAllGoals true w) as [goals w1]. cbn [fst snd].
  destruct (buildIndex goals w1) as [index w2]. split; reflexivity.
Qed.

Lemma getIndex_rebuilt w :
  getIndex (rebuildIndex w).2
  = (JSON_index (rebuildIndex w).1, (rebuildIndex w).2).
Proof. apply getIndex_cached, rebuildIndex_run. Qed.

(** X1: after [rebuildIndex], [getGoalsByStatus], [getGoalsByProject] and
    [getGoalsByTag] are exact with respect to the stored goals:
    [getGoalsByStatus] returns the ids of the goals with that status and
    [getGoalsByProject] the ids of the goals of that project, in the order
    in which [loadAllGoals(true)] lists the goals; [getGoalsByTag] returns
    each goal's id once per occurrence of the tag among the goal's tags. A
    key that is the name of no status gives the empty list. Keys are own
    properties of the index objects, as throughout. *)
Theorem rebuilt_index_groups (w : World) :
  let goals := (loadAllGoals true w).1 in
  let w' := (rebuildIndex w).2 in
  (forall status,
     (getGoalsByStatus (status_name status) w').1
     = List.map goal_id (with_status status goals)) /\
  (getActiveGoals w').1 = List.map goal_id (with_status active goals) /\
  (forall key,
     (forall status, status_name status <> key) ->
     (getGoalsByStatus key w').1 = []) /\
  (forall project,
     (getGoalsByProject project w').1
     = List.map goal_id (in_project project goals)) /\
  (forall tag, (getGoalsByTag tag w').1 = tagged tag goals).
Proof.
  intros goals w'.
  destruct (buildIndex_groups goals (loadAllGoals true w).2)
    as (Hs & Hp & Ht).
  destruct (rebuildIndex_run w) as [Hrun _]. fold goals in Hrun.
  rewrite <- Hrun in Hs, Hp, Ht.
  assert (forall status,
    (getGoalsByStatus (status_name status) w').1
    = List.map goal_id (with_status status goals)) as Hstatus.
  { intros status. unfold getGoalsByStatus, bind. subst w'.
    rewrite getIndex_rebuilt. simpl. rewrite Hs. f_equal.
    apply filter_ext. intros g. apply status_name_eqb. }
  split; [exact Hstatus|]. split; [apply (Hstatus active)|].
  split; [|split].
  - intros key Hkey. unfold getGoalsByStatus, bind. subst w'.
    rewrite getIndex_rebuilt. simpl. rewrite Hs.
    assert (forall l : list Goal,
      List.filter (fun g => String.eqb (status_name (goal_status g)) key) l
      = []) as ->; [|reflexivity].
    induction l as [|g l IH]; [reflexivity|]. simpl.
    destruct (String.eqb (status_name (goal_status g)) key) eqn:E;
      [|exact IH].
    apply String.eqb_eq in E. destruct (Hkey _ E).
  - intros project. unfold getGoalsByProject, bind. subst w'.
    rewrite getIndex_rebuilt. simpl. apply Hp.
  - intros tag. unfold getGoalsByTag, bind. subst w'.
    rewrite getIndex_rebuilt. simpl. apply Ht.
Qed.

(** ** The goals map and the parent lookup *)

Lemma set_all_lookup (id : string) goals (m : JsRecord GoalIndexEntry) :
  rec_get id
    (fold_left (fun m g => rec_set (goal_id g) (entry_of g) m) goals m)
  = match last (with_id id goals) with
    | Some g => Some (entry_of g)
    | None => rec_get id m
    end.
Proof.
  revert m. induction goals as [|g goals IH]; intros m; simpl; [reflexivity|].
  rewrite IH. destruct (String.eqb (goal_id g) id) eqn:E.
  - apply String.eqb_eq in E. subst id. rewrite last_cons.
    destruct (last (with_id (goal_id g) goals)); [reflexivity|].
    apply rec_get_set_eq.
  - apply String.eqb_neq in E.
    destruct (last (with_id id goals)); [reflexivity|].
    apply rec_get_set_ne. congruence.
Qed.

(** The parent entry of an id in the rebuilt index. *)
Lemma rebuilt_parent_in (w : World) (id : string) :
  parent_in (rebuildIndex w).1 id
  = last (with_id id (loadAllGoals true w).1) ≫= goal_parent.
Proof.
  unfold parent_in. destruct (rebuildIndex_run w) as [-> _].
  rewrite buildIndex_index_of. simpl. unfold index_of.
  destruct (fold_index_goal_fields (loadAllGoals true w).1 blank_index)
    as (-> & _).
  rewrite set_all_lookup.
  destruct (last (with_id id (loadAllGoals true w).1)); reflexivity.
Qed.

Lemma getParentGoal_rebuilt (w : World) (id : string) :
  (getParentGoal id (rebuildIndex w).2).1
  = last (with_id id (loadAllGoals true w).1) ≫= goal_parent.
Proof.
  rewrite (getParentGoal_cached (JSON_index (rebuildIndex w).1))
    by apply rebuildIndex_run.
  cbn [fst]. rewrite parent_in_JSON. apply rebuilt_parent_in.
Qed.

Lemma JSON_entry_read_back (entry : GoalIndexEntry) :
  read_back entry (JSON_entry entry).
Proof.
  unfold read_back, JSON_entry. cbn.
  repeat (split; [reflexivity|]).
  destruct (entry_progress entry) as [|[| |q|]]; reflexivity.
Qed.

Lemma JSON_index_read_back (index : GoalIndex) :
  index_read_back index (JSON_index index).
Proof.
  unfold index_read_back, JSON_index. cbn.
  repeat (split; [reflexivity|]).
  induction (idx_goals index) as [|[k v] m IH]; constructor.
  - split; [reflexivity | apply JSON_entry_read_back].
  - exact IH.
Qed.

(** X2: [rebuildIndex] returns an index in which the entry of an id is the
    summary of the last stored goal with that id. The entry that [getIndex]
    reads from the index file afterwards has the same title, status,
    project, parent, children, tags and update time, and the same progress
    when the progress of the goal is finite; a progress that is NaN or
    infinite is read back as [null]. [getParentGoal] returns the [parent]
    field of that goal; for an id that no stored goal carries there is no
    entry and [getParentGoal] returns [undefined]. *)
Theorem rebuilt_index_entries (w : World) (id : string) :
  let goals := (loadAllGoals true w).1 in
  let w' := (rebuildIndex w).2 in
  rec_get id (idx_goals (rebuildIndex w).1)
  = entry_of <$> last (with_id id goals) /\
  (forall g, last (with_id id goals) = Some g ->
     exists entry,
       rec_get id (idx_goals (getIndex w').1) = Some entry /\
       read_back (entry_of g) entry /\
       (finite_progress g -> entry = entry_of g) /\
       (~ finite_progress g -> entry_progress entry = JNull)) /\
  (with_id id goals = [] -> rec_get id (idx_goals (getIndex w').1) = None) /\
  (getParentGoal id w').1 = last (with_id id goals) ≫= goal_parent /\
  (with_id id goals = [] -> (getParentGoal id w').1 = None).
Proof.
  intros goals w'. subst w'.
  assert (rec_get id (idx_goals (rebuildIndex w).1)
          = entry_of <$> last (with_id id goals)) as Hentry.
  { destruct (rebuildIndex_run w) as [-> _]. fold goals.
    rewrite buildIndex_index_of. simpl. unfold index_of.
    destruct (fold_index_goal_fields goals blank_index) as (-> & _).
    rewrite set_all_lookup. destruct (last (with_id id goals)); reflexivity. }
  assert (rec_get id (idx_goals (getIndex (rebuildIndex w).2).1)
          = JSON_entry <$> (entry_of <$> last (with_id id goals))) as Hread.
  { rewrite getIndex_rebuilt. cbn [fst JSON_index idx_goals].
    rewrite rec_get_JSON, Hentry. reflexivity. }
  split; [exact Hentry|]. split; [|split; [|split]].
  - intros g Hg. rewrite Hread, Hg. exists (JSON_entry (entry_of g)).
    split; [reflexivity|]. split; [apply JSON_entry_read_back|]. split.
    + intros [q Hq]. unfold JSON_entry, entry_of. cbn. rewrite Hq.
      reflexivity.
    + intros Hnot. unfold JSON_entry, entry_of. cbn.
      destruct (goal_progress g) as [| |q|] eqn:E; try reflexivity.
      exfalso. apply Hnot. exists q. exact E.
  - intros Hnone. rewrite Hread, Hnone. reflexivity.
  - apply getParentGoal_rebuilt.
  - intros Hnone. rewrite getParentGoal_rebuilt. fold goals.
    rewrite Hnone. reflexivity.
Qed.

(** ** Graph edges and [getChildGoals] *)

Lemma fold_index_goal_edges goals index :
  idx_edges (fold_left index_goal goals index)
  = idx_edges index ++ flat_map goal_edges goals.
Proof.
  revert index. induction goals as [|g goals IH]; intros index; simpl.
  - rewrite app_nil_r. reflexivity.
  - rewrite IH. simpl. unfold goal_edges. rewrite <- !app_assoc. reflexivity.
Qed.

(** The edges of a built index: those of each goal, goal after goal; a
    parent and children pair authored on both sides gives two edges. *)
Lemma buildIndex_edges goals w :
  idx_edges (buildIndex goals w).1 = flat_map goal_edges goals.
Proof.
  rewrite buildIndex_index_of. simpl. unfold index_of.
  rewrite fold_index_goal_edges. reflexivity.
Qed.

Lemma filter_parent_edges_other (p : string) (type : EdgeType)
    (mk : string -> GraphEdge) (ids : list string) :
  (forall x, edge_type (mk x) = type) ->
  type <> edge_parent ->
  List.filter (fun e => String.eqb (edge_from e) p
                        && edge_type_eqb (edge_type e) edge_parent)
              (List.map mk ids) = [].
Proof.
  intros Hmk Htype. induction ids as [|x ids IH]; [reflexivity|]. simpl.
  rewrite Hmk. destruct type; try contradiction; simpl;
    rewrite andb_false_r; exact IH.
Qed.

Lemma filter_parent_edges_goal (p : string) (g : Goal) :
  List.map edge_to
    (List.filter (fun e => String.eqb (edge_from e) p
                           && edge_type_eqb (edge_type e) edge_parent)
                 (goal_edges g))
  = match goal_parent g with
    | Some q => if truthy q && String.eqb q p then [goal_id g] else []
    | None => []
    end.
Proof.
  unfold goal_edges. rewrite !List.filter_app.
  rewrite (filter_parent_edges_other p edge_child) by (reflexivity || discriminate).
  rewrite (filter_parent_edges_other p edge_depends_on)
    by (reflexivity || discriminate).
  rewrite (filter_parent_edges_other p edge_informs)
    by (reflexivity || discriminate).
  assert (List.filter (fun e => String.eqb (edge_from e) p
                                && edge_type_eqb (edge_type e) edge_parent)
            (edge_if (goal_evolved_from g) (fun e =>
               {| edge_from := e; edge_to := goal_id g;
                  edge_type := edge_evolved_from |})) = []) as ->.
  { unfold edge_if. destruct (goal_evolved_from g) as [e|]; [|reflexivity].
    destruct (truthy e); [|reflexivity]. simpl.
    rewrite andb_false_r. reflexivity. }
  rewrite !app_nil_r. unfold edge_if.
  destruct (goal_parent g) as [q|]; [|reflexivity].
  destruct (truthy q); [|reflexivity]. simpl.
  rewrite andb_true_r. destruct (String.eqb q p); reflexivity.
Qed.

Lemma children_in_buildIndex goals w (p : string) :
  children_in (buildIndex goals w).1 p
  = if truthy p then List.map goal_id (with_parent p goals) else [].
Proof.
  unfold children_in. rewrite buildIndex_edges.
  induction goals as [|g goals IH]; simpl; [destruct (truthy p); reflexivity|].
  rewrite List.filter_app, List.map_app, IH, filter_parent_edges_goal.
  destruct (goal_parent g) as [q|]; [|reflexivity].
  destruct (String.eqb q p) eqn:E.
  - apply String.eqb_eq in E. subst q.
    destruct (truthy p); reflexivity.
  - rewrite andb_false_r. reflexivity.
Qed.

Lemma with_id_absent goals (id : string) :
  ~ id ∈ List.map goal_id goals -> with_id id goals = [].
Proof.
  unfold with_id. induction goals as [|k goals IH]; intros Hfresh;
    [reflexivity|].
  simpl in *. apply not_elem_of_cons in Hfresh as [Hk Hfresh].
  destruct (String.eqb (goal_id k) id) eqn:E.
  - apply String.eqb_eq in E. congruence.
  - apply IH, Hfresh.
Qed.

Lemma with_id_unique goals (g : Goal) :
  NoDup (List.map goal_id goals) -> g ∈ goals ->
  with_id (goal_id g) goals = [g].
Proof.
  induction goals as [|h goals IH]; intros Hnodup Hin.
  - apply elem_of_nil in Hin. contradiction.
  - simpl in Hnodup. apply NoDup_cons in Hnodup as [Hfresh Hnodup].
    apply elem_of_cons in Hin as [->|Hin].
    + unfold with_id. simpl. rewrite String.eqb_refl. f_equal.
      apply (with_id_absent goals), Hfresh.
    + unfold with_id. simpl.
      destruct (String.eqb (goal_id h) (goal_id g)) eqn:E.
      * apply String.eqb_eq in E. exfalso. apply Hfresh. rewrite E.
        apply list_elem_of_fmap. exists g. split; [reflexivity | exact Hin].
      * apply IH; assumption.
Qed.

(** X3: after [rebuildIndex], [getChildGoals parentId] returns the ids of
    the stored goals whose [parent] field is [parentId], in listing order;
    it is derived from the [parent] fields alone, whatever the [children]
    lists say, and it is empty for the empty id. When the stored goal ids
    are distinct, [getParentGoal] of every returned child is [parentId]. *)
Theorem rebuilt_index_children (w : World) (parentId : string) :
  let goals := (loadAllGoals true w).1 in
  let w' := (rebuildIndex w).2 in
  (getChildGoals parentId w').1
  = (if truthy parentId then List.map goal_id (with_parent parentId goals)
     else []) /\
  (NoDup (List.map goal_id goals) ->
   forall child, child ∈ (getChildGoals parentId w').1 ->
     (getParentGoal child w').1 = Some parentId).
Proof.
  intros goals w'.
  assert ((getChildGoals parentId w').1
          = if truthy parentId
            then List.map goal_id (with_parent parentId goals) else [])
    as Hchildren.
  { unfold getChildGoals, bind. subst w'. rewrite getIndex_rebuilt. simpl.
    destruct (rebuildIndex_run w) as [-> _].
    apply (children_in_buildIndex goals). }
  split; [exact Hchildren|].
  intros Hnodup child Hin. rewrite Hchildren in Hin.
  destruct (truthy parentId); [|apply elem_of_nil in Hin; contradiction].
  apply list_elem_of_fmap in Hin as (g & -> & Hg).
  unfold with_parent in Hg. apply list_elem_of_In, filter_In in Hg as [Hg Hp].
  apply list_elem_of_In in Hg.
  subst w'. rewrite getParentGoal_rebuilt. fold goals.
  rewrite (with_id_unique goals g Hnodup Hg). simpl.
  destruct (goal_parent g) as [q|]; [|discriminate].
  apply String.eqb_eq in Hp. congruence.
Qed.

Lemma rebuilt_index_children_witness :
  (getChildGoals "goal_a" (rebuildIndex family_world).2).1 = ["goal_b"] /\
  (getParentGoal "goal_b" (rebuildIndex family_world).2).1 = Some "goal_a".
Proof.
  destruct (rebuilt_index_children family_world "goal_a") as [Hchildren Hparent].
  assert ((getChildGoals "goal_a" (rebuildIndex family_world).2).1
          = ["goal_b"]) as E by (vm_compute; reflexivity).
  split; [exact E|]. apply Hparent.
  - apply (bool_decide_unpack _). vm_compute. exact I.
  - rewrite E. left.
Defined.

(** ** Statistics *)










Lemma rebuilt_index_groups_witness :
  (getGoalsByStatus "done" (rebuildIndex stored_world).2).1 = [].
Proof.
  destruct (rebuilt_index_groups stored_world) as (_ & _ & Hunknown & _).
  apply Hunknown. intros []; discriminate.
Defined.

Lemma rebuilt_index_entries_witness :
  (getParentGoal "goal_z" (rebuildIndex family_world).2).1 = None /\
  exists entry,
    rec_get (goal_id nan_goal)
      (idx_goals (getIndex (rebuildIndex nan_world).2).1) = Some entry /\
    entry_progress entry = JNull.
Proof.
  split.
  - destruct (rebuilt_index_entries family_world "goal_z")
      as (_ & _ & _ & _ & Hnone).
    apply Hnone. vm_compute. reflexivity.
  - destruct (rebuilt_index_entries nan_world (goal_id nan_goal))
      as (_ & Hread & _).
    destruct (Hread nan_goal) as (entry & Hget & _ & _ & Hnull);
      [vm_compute; reflexivity|].
    exists entry. split; [exact Hget|]. apply Hnull.
    intros [q Hq]. vm_compute in Hq. discriminate.
Defined.

(** ** [getGoalsByTags] *)

Lemma has_id_elem_of (id : string) (ids : list string) :
  has_id id ids = true <-> id ∈ ids.
Proof.
  unfold has_id. rewrite existsb_exists. split.
  - intros (x & Hx & E). apply String.eqb_eq in E. subst x.
    apply list_elem_of_In, Hx.
  - intros H. exists id. split; [apply list_elem_of_In, H|].
    apply String.eqb_refl.
Qed.

Lemma set_elements_fold (ids seen : list string) :
  NoDup seen ->
  let result :=
    fold_left (fun seen id => if has_id id seen then seen else seen ++ [id])
              ids seen in
  NoDup result /\ forall id, id ∈ result <-> id ∈ seen \/ id ∈ ids.
Proof.
  revert seen. induction ids as [|x ids IH]; intros seen Hnodup; simpl.
  - split; [exact Hnodup|]. intros id. rewrite elem_of_nil. tauto.
  - destruct (has_id x seen) eqn:E.
    + destruct (IH seen Hnodup) as [H1 H2]. split; [exact H1|].
      intros id. rewrite H2, elem_of_cons.
      apply has_id_elem_of in E. split; [tauto|].
      intros [H|[->|H]]; tauto.
    + assert (~ x ∈ seen) as Hx.
      { intros H. apply has_id_elem_of in H. congruence. }
      destruct (IH (seen ++ [x])) as [H1 H2].
      { apply NoDup_app. split; [exact Hnodup|]. split.
        - intros y Hy Hin. apply list_elem_of_singleton in Hin. subst y.
          contradiction.
        - apply NoDup_singleton. }
      split; [exact H1|]. intros id.
      rewrite H2, elem_of_app, list_elem_of_singleton, elem_of_cons. tauto.
Qed.

(** [[...new Set(ids)]] has the elements of [ids], each once. *)
Lemma set_elements_spec (ids : list string) :
  NoDup (set_elements ids) /\ forall id, id ∈ set_elements ids <-> id ∈ ids.
Proof.
  destruct (set_elements_fold ids [] (NoDup_nil_2 (A := string))) as [H1 H2].
  split; [exact H1|]. intros id. unfold set_elements. rewrite H2, elem_of_nil.
  tauto.
Qed.

Lemma intersect_tags (index : GoalIndex) (others result : list string) :
  NoDup result ->
  let final :=
    fold_left (fun result tag =>
      let tagGoals :=
        set_elements (default [] (rec_get tag (idx_by_tag index))) in
      set_elements (List.filter (fun id => has_id id tagGoals) result))
      others result in
  NoDup final /\
  forall id, id ∈ final <->
    id ∈ result /\ forall tag, tag ∈ others -> id ∈ tag_ids index tag.
Proof.
  revert result. induction others as [|tag others IH]; intros result Hnodup;
    simpl.
  - split; [exact Hnodup|]. intros id. split; [|tauto].
    intros H. split; [exact H|]. intros tag Htag.
    apply elem_of_nil in Htag. contradiction.
  - set (kept := set_elements (List.filter _ result)).
    assert (NoDup kept) as Hkept by apply set_elements_spec.
    assert (forall id, id ∈ kept <-> id ∈ result /\ id ∈ tag_ids index tag)
      as Hmem.
    { intros id. subst kept.
      destruct (set_elements_spec
                  (List.filter
                     (fun id => has_id id (set_elements
                        (default [] (rec_get tag (idx_by_tag index)))))
                     result)) as [_ ->].
      rewrite list_elem_of_In, filter_In, has_id_elem_of, <- list_elem_of_In.
      destruct (set_elements_spec
                  (default [] (rec_get tag (idx_by_tag index)))) as [_ ->].
      reflexivity. }
    destruct (IH kept Hkept) as [H1 H2]. split; [exact H1|].
    intros id. rewrite H2, Hmem. split.
    + intros [[Hr Ht] Hrest]. split; [exact Hr|].
      intros tag' Htag'. apply elem_of_cons in Htag' as [->|Htag'];
        [exact Ht | apply Hrest, Htag'].
    + intros [Hr Hall]. split; [split|].
      * exact Hr.
      * apply Hall. left.
      * intros tag' Htag'. apply Hall. right. exact Htag'.
Qed.

(** X5: [getGoalsByTags] of a non-empty list of tags returns exactly the
    ids that [getGoalsByTag] lists under every one of the tags, each id
    once although [getGoalsByTag] may repeat it; the empty list of tags
    gives no goal at all rather than every goal. Tags are own properties of
    the tag index, as throughout. *)
Theorem getGoalsByTags_intersection (w : World) (first : string)
    (others : list string) :
  let ids := (getGoalsByTags (first :: others) w).1 in
  NoDup ids /\
  (forall id, id ∈ ids <->
     forall tag, tag ∈ first :: others -> id ∈ (getGoalsByTag tag w).1) /\
  (getGoalsByTags [] w).1 = [].
Proof.
  intros ids. subst ids. unfold getGoalsByTags, getGoalsByTag, bind.
  destruct (getIndex w) as [index w1]. cbn [fst snd ret].
  split; [|split; [|reflexivity]].
  - apply intersect_tags, set_elements_spec.
  - intros id.
    destruct (intersect_tags index others
                (set_elements (default [] (rec_get first (idx_by_tag index))))
                ltac:(apply set_elements_spec)) as [_ ->].
    destruct (set_elements_spec
                (default [] (rec_get first (idx_by_tag index)))) as [_ ->].
    fold (tag_ids index first). split.
    + intros [Hf Hrest] tag Htag. apply elem_of_cons in Htag as [->|Htag];
        [exact Hf | apply Hrest, Htag].
    + intros Hall. split; [apply Hall; left|].
      intros tag Htag. apply Hall. right. exact Htag.
Qed.

Lemma getGoalsByTags_intersection_witness :
  goal_id demo_goal ∈ (getGoalsByTags ["core"] stored_world).1.
Proof.
  destruct (getGoalsByTags_intersection stored_world "core" [])
    as (_ & Hmem & _).
  apply Hmem. intros tag Htag. apply list_elem_of_singleton in Htag.
  subst tag. vm_compute. left.
Defined.

(** ** The cached index *)

(** X6: [getIndex] answers from the index file whenever there is one, and
    changes nothing then. Without an index file it builds the index from the
    stored goals, returns it and writes it to the index file; from then on
    every call returns what is read back from that file: the index as it was
    built, except that a progress that is not finite has become [null].
    Writing, archiving or deleting a goal file does not change what
    [getIndex] returns; only [rebuildIndex] brings the index file up to date
    with the stored goals. *)
Theorem getIndex_answers_from_cache (w : World) (goal : Goal) (id : string) :
  let index := (getIndex w).1 in
  let w1 := (getIndex w).2 in
  (forall cached, index_json w = Some cached -> index = cached /\ w1 = w) /\
  (index_json w = None ->
   index = (buildIndex (loadAllGoals true w).1 (loadAllGoals true w).2).1) /\
  exists cached,
    index_json w1 = Some cached /\
    (index_json w = None -> index_read_back index cached) /\
    getIndex w1 = (cached, w1) /\
    (getIndex (saveGoal goal w1).2).1 = cached /\
    (getIndex (archiveGoal id w1).2).1 = cached /\
    (getIndex (deleteGoal id w1).2).1 = cached /\
    (rebuildIndex (saveGoal goal w1).2).1
    = (buildIndex (loadAllGoals true (saveGoal goal w1).2).1
                  (loadAllGoals true (saveGoal goal w1).2).2).1 /\
    index_read_back (rebuildIndex (saveGoal goal w1).2).1
                    (getIndex (rebuildIndex (saveGoal goal w1).2).2).1.
Proof.
  intros index w1. split; [|split].
  - intros cached Hc. subst index w1.
    rewrite (getIndex_cached cached w Hc). split; reflexivity.
  - intros Hnone. subst index. unfold getIndex, loadIndex, bind, gets.
    cbn [fst snd]. rewrite Hnone.
    destruct (loadAllGoals true w) as [goals w2]. cbn [fst snd].
    destruct (buildIndex goals w2) as [built w3]. reflexivity.
  - assert (exists cached, index_json w1 = Some cached /\
              (index_json w = None -> index_read_back index cached))
      as (cached & Hcached & Hback).
    { destruct (getIndex_caches w) as [[Hc Hw]|[Hnone Hc]].
      - exists index. fold index w1 in Hc, Hw. rewrite Hw. split; [exact Hc|].
        intros Hnone. rewrite Hnone in Hc. discriminate.
      - exists (JSON_index index). fold index w1 in Hc. split; [exact Hc|].
        intros _. apply JSON_index_read_back. }
    exists cached. split; [exact Hcached|]. split; [exact Hback|].
    split; [apply getIndex_cached, Hcached|].
    split; [|split; [|split; [|split]]].
    + rewrite (getIndex_cached cached); [reflexivity|].
      unfold saveGoal, modify. simpl. exact Hcached.
    + rewrite (getIndex_cached cached); [reflexivity|].
      unfold archiveGoal, bind, gets, modify, ret. simpl.
      destruct (active_dir w1 !! yaml_file id); simpl; exact Hcached.
    + rewrite (getIndex_cached cached); [reflexivity|].
      unfold deleteGoal, bind, gets, modify, ret. simpl.
      repeat case_bool_decide; simpl; exact Hcached.
    + apply rebuildIndex_run.
    + rewrite getIndex_rebuilt. cbn [fst]. apply JSON_index_read_back.
Qed.

Lemma getIndex_answers_from_cache_witness :
  index_json nan_world = None /\
  index_read_back (getIndex nan_world).1
                  (getIndex (getIndex nan_world).2).1.
Proof.
  split; [reflexivity|].
  destruct (getIndex_answers_from_cache nan_world demo_goal "goal_x")
    as (_ & _ & cached & _ & Hback & Hsecond & _).
  rewrite Hsecond. cbn [fst]. apply Hback. reflexivity.
Defined.

(** On a store whose goal has progress NaN the first call of [getIndex]
    returns that progress and the second call returns [null]. *)
Lemma getIndex_second_call_reads_null :
  entry_progress
    <$> rec_get (goal_id nan_goal) (idx_goals (getIndex nan_world).1)
  = Some (JNum NaN) /\
  entry_progress
    <$> rec_get (goal_id nan_goal)
          (idx_goals (getIndex (getIndex nan_world).2).1)
  = Some JNull.
Proof. split; vm_compute; reflexivity. Qed.


(** ** [getDescendants] *)

Lemma getChildGoals_cached index parentId w :
  index_json w = Some index ->
  getChildGoals parentId w = (children_in index parentId, w).
Proof.
  intros H. unfold getChildGoals, bind. rewrite (getIndex_cached _ _ H).
  reflexivity.
Qed.

(** On a cached index [getDescendants] only reads. *)
Lemma getDescendants_cached index w :
  index_json w = Some index ->
  forall fuel goalId,
    getDescendants fuel goalId w = (descendants_on index fuel goalId, w).
Proof.
  intros H. induction fuel as [|fuel IH]; intros goalId; [reflexivity|].
  cbn [getDescendants descendants_on]. unfold bind at 1.
  rewrite (getChildGoals_cached _ _ _ H). cbn [fst snd].
  assert (forall children descendants,
            (fix each_child (children descendants : list string)
               : M (option (list string)) :=
               match children with
               | [] => ret (Some descendants)
               | child :: rest =>
                   let* below := getDescendants fuel child in
                   match below with
                   | None => ret None
                   | Some below =>
                       each_child rest (descendants ++ [child] ++ below)
                   end
               end) children descendants w
            = (collect (descendants_on index fuel) children descendants, w))
    as Hloop.
  { induction children as [|child rest IHrest]; intros descendants;
      [reflexivity|].
    cbn [collect]. unfold bind at 1. rewrite IH. cbn [fst snd].
    destruct (descendants_on index fuel child) as [under|]; [|reflexivity].
    apply IHrest. }
  apply Hloop.
Qed.

Lemma collect_members (below : string -> option (list string))
    (R : string -> string -> Prop) (children : list string) :
  (forall c, c ∈ children ->
     exists l, below c = Some l /\ forall d, d ∈ l <-> R c d) ->
  forall descendants, exists l,
    collect below children descendants = Some l /\
    forall d, d ∈ l <->
      d ∈ descendants \/ exists c, c ∈ children /\ (d = c \/ R c d).
Proof.
  induction children as [|child rest IH]; intros Hbelow descendants.
  - exists descendants. split; [reflexivity|]. intros d. split; [tauto|].
    intros [H|(c & Hc & _)]; [exact H|].
    apply elem_of_nil in Hc. contradiction.
  - destruct (Hbelow child) as (under & Hunder & Hmem); [left|].
    destruct (IH (fun c Hc => Hbelow c ltac:(right; exact Hc))
                 (descendants ++ [child] ++ under)) as (l & Hl & Hin).
    exists l. cbn [collect]. rewrite Hunder. split; [exact Hl|].
    intros d. rewrite Hin, !elem_of_app, list_elem_of_singleton, Hmem.
    split.
    + intros [[H|[->|H]]|(c & Hc & H)].
      * left. exact H.
      * right. exists child. split; [left | left; reflexivity].
      * right. exists child. split; [left | right; exact H].
      * right. exists c. split; [right; exact Hc | exact H].
    + intros [H|(c & Hc & H)]; [tauto|].
      apply elem_of_cons in Hc as [->|Hc].
      * left. right. destruct H as [->|H]; [left; reflexivity | right; exact H].
      * right. exists c. split; assumption.
Qed.

Lemma collect_None (below : string -> option (list string))
    (children : list string) (c : string) :
  c ∈ children -> below c = None ->
  forall descendants, collect below children descendants = None.
Proof.
  induction children as [|child rest IH]; intros Hc Hnone descendants.
  - apply elem_of_nil in Hc. contradiction.
  - cbn [collect]. destruct (below child) as [under|] eqn:E; [|reflexivity].
    apply elem_of_cons in Hc as [->|Hc]; [congruence|].
    apply IH; assumption.
Qed.

Lemma collect_mono (f g : string -> option (list string))
    (children : list string) :
  (forall c l, f c = Some l -> g c = Some l) ->
  forall descendants l,
    collect f children descendants = Some l ->
    collect g children descendants = Some l.
Proof.
  intros Hfg. induction children as [|child rest IH]; intros descendants l;
    [exact id|].
  cbn [collect]. destruct (f child) as [under|] eqn:E; [|discriminate].
  rewrite (Hfg _ _ E). apply IH.
Qed.

(** A result that is reached with some bound is reached with every larger
    bound. *)
Lemma descendants_on_more_fuel index (n m : nat) (goalId : string)
    (l : list string) :
  n <= m -> descendants_on index n goalId = Some l ->
  descendants_on index m goalId = Some l.
Proof.
  revert m goalId l. induction n as [|n IH]; intros m goalId l Hle H;
    [discriminate|].
  destruct m as [|m]; [lia|]. cbn [descendants_on] in *.
  apply (collect_mono (descendants_on index n)); [|exact H].
  intros c l' Hc. apply IH; [lia | exact Hc].
Qed.

Lemma descends_children index (p d : string) :
  descends index p d <->
  exists c, c ∈ children_in index p /\ (d = c \/ descends index c d).
Proof.
  split.
  - intros H. destruct H as [p c Hc | p c d Hc Hd].
    + exists c. split; [exact Hc | left; reflexivity].
    + exists c. split; [exact Hc | right; exact Hd].
  - intros (c & Hc & [->|Hd]).
    + apply descends_child, Hc.
    + apply descends_step with c; assumption.
Qed.

Lemma descendants_on_bounded index (n : nat) (goalId : string) :
  depth_within index n goalId ->
  exists l, descendants_on index n goalId = Some l /\
            forall d, d ∈ l <-> descends index goalId d.
Proof.
  induction 1 as [n goalId _ IH].
  destruct (collect_members (descendants_on index n) (descends index)
              (children_in index goalId) IH []) as (l & Hl & Hmem).
  exists l. split; [exact Hl|]. intros d.
  rewrite Hmem, descends_children, elem_of_nil. tauto.
Qed.

Lemma descendants_on_cycle index (x : string) :
  descends index x x ->
  forall n goalId, goalId = x \/ descends index goalId x ->
    descendants_on index n goalId = None.
Proof.
  intros Hcycle. induction n as [|n IH]; intros goalId Hreach; [reflexivity|].
  assert (descends index goalId x) as Hx by (destruct Hreach; congruence).
  apply descends_children in Hx as (c & Hc & Hcx).
  cbn [descendants_on]. apply collect_None with c; [exact Hc|].
  apply IH. destruct Hcx as [->|H]; [left; reflexivity | right; exact H].
Qed.

(** X7: on a cached index, [getDescendants goalId] returns once the chains
    of parent edges below [goalId] are bounded, it leaves the store as it
    is, and the ids it returns are exactly the goals reached from [goalId]
    by one or more parent edges; when [goalId] reaches a goal that lies on
    a cycle of parent edges the call never returns, however deep the
    recursion is allowed to go. *)
Theorem getDescendants_reaches_descendants (w : World) (index : GoalIndex)
    (goalId : string) (n : nat) :
  index_json w = Some index ->
  (depth_within index n goalId ->
   exists l,
     (forall m, n <= m -> getDescendants m goalId w = (Some l, w)) /\
     (forall d, d ∈ l <-> descends index goalId d)) /\
  (forall x, goalId = x \/ descends index goalId x -> descends index x x ->
   forall m, (getDescendants m goalId w).1 = None).
Proof.
  intros H. split.
  - intros Hdepth.
    destruct (descendants_on_bounded index n goalId Hdepth) as (l & Hl & Hmem).
    exists l. split; [|exact Hmem]. intros m Hle.
    rewrite (getDescendants_cached index w H). f_equal.
    apply descendants_on_more_fuel with n; assumption.
  - intros x Hreach Hcycle m. rewrite (getDescendants_cached index w H).
    apply (descendants_on_cycle index x Hcycle), Hreach.
Qed.

Lemma getDescendants_reaches_descendants_witness :
  (exists l,
     getDescendants 5 "goal_a" (rebuildIndex family_world).2
     = (Some l, (rebuildIndex family_world).2) /\
     "goal_c" ∈ l) /\
  (getDescendants 5 "goal_x" (rebuildIndex looped_world).2).1 = None.
Proof.
  split.
  - destruct (getDescendants_reaches_descendants
                (rebuildIndex family_world).2 (rebuildIndex family_world).1
                "goal_a" 3) as [Hreturns _].
    { vm_compute. reflexivity. }
    destruct Hreturns as (l & Hl & Hmem).
    { constructor. intros b Hb.
      assert (children_in (rebuildIndex family_world).1 "goal_a" = ["goal_b"])
        as E by (vm_compute; reflexivity).
      rewrite E in Hb. apply list_elem_of_singleton in Hb. subst b.
      constructor. intros c Hc.
      assert (children_in (rebuildIndex family_world).1 "goal_b" = ["goal_c"])
        as E' by (vm_compute; reflexivity).
      rewrite E' in Hc. apply list_elem_of_singleton in Hc. subst c.
      constructor. intros d Hd.
      assert (children_in (rebuildIndex family_world).1 "goal_c" = [])
        as E'' by (vm_compute; reflexivity).
      rewrite E'' in Hd. apply elem_of_nil in Hd. contradiction. }
    exists l. split; [apply Hl; lia|]. apply Hmem.
    apply descends_step with "goal_b".
    + assert (children_in (rebuildIndex family_world).1 "goal_a" = ["goal_b"])
        as E by (vm_compute; reflexivity).
      rewrite E. left.
    + apply descends_child.
      assert (children_in (rebuildIndex family_world).1 "goal_b" = ["goal_c"])
        as E by (vm_compute; reflexivity).
      rewrite E. left.
  - destruct (getDescendants_reaches_descendants
                (rebuildIndex looped_world).2 (rebuildIndex looped_world).1
                "goal_x" 0) as [_ Hloops].
    { vm_compute. reflexivity. }
    apply (Hloops "goal_x"); [left; reflexivity|].
    apply descends_step with "goal_y".
    + assert (children_in (rebuildIndex looped_world).1 "goal_x" = ["goal_y"])
        as E by (vm_compute; reflexivity).
      rewrite E. left.
    + apply descends_child.
      assert (children_in (rebuildIndex looped_world).1 "goal_y" = ["goal_x"])
        as E by (vm_compute; reflexivity).
      rewrite E. left.
Defined.

(** ** The goal files *)

Lemma length_append_string (s t : string) :
  String.length (s +:+ t) = String.length s + String.length t.
Proof.
  induction s as [|c s IH]; [reflexivity|].
  rewrite append_cons. simpl. rewrite IH. reflexivity.
Qed.

Lemma append_cancel_r (s s' t : string) : s +:+ t = s' +:+ t -> s = s'.
Proof.
  revert s'. induction s as [|c s IH]; intros [|c' s'] H.
  - reflexivity.
  - apply (f_equal String.length) in H.
    rewrite append_empty, length_append_string in H. simpl in H. lia.
  - apply (f_equal String.length) in H.
    rewrite append_empty, length_append_string in H. simpl in H. lia.
  - rewrite !append_cons in H. injection H as -> H. f_equal. apply IH, H.
Qed.

(** Two ids have the same file only if they are the same id. *)
Lemma yaml_file_inj (id id' : string) : yaml_file id = yaml_file id' -> id = id'.
Proof. apply append_cancel_r. Qed.

Lemma substring_append (p s : string) :
  substring (String.length p) (String.length s) (p +:+ s) = s.
Proof.
  induction p as [|c p IH]; [apply substring_whole|].
  rewrite append_cons. simpl. exact IH.
Qed.

Lemma endsWith_append (p suffix : string) : endsWith (p +:+ suffix) suffix = true.
Proof.
  unfold endsWith. rewrite length_append_string.
  replace (String.length p + String.length suffix - String.length suffix)
    with (String.length p) by lia.
  rewrite substring_append, String.eqb_refl, andb_true_r.
  apply Nat.leb_le. lia.
Qed.

Lemma replace_first_yaml_file (id : string) :
  contains_char "." id = false ->
  replace_first ".yaml" "" (yaml_file id) = id.
Proof.
  unfold yaml_file. induction id as [|c id IH]; intros Hdot; [reflexivity|].
  simpl in Hdot. apply orb_false_iff in Hdot as [Hc Hdot].
  rewrite append_cons. cbn [replace_first String.prefix].
  destruct (ascii_dec "." c) as [<-|_]; [discriminate|].
  f_equal. apply IH, Hdot.
Qed.

(** For an id without a dot, the id is listed for a directory exactly when
    the directory holds the file of the id. *)
Lemma elem_of_yaml_ids_plain {V : Type} (dir : gmap string V) (id : string) :
  contains_char "." id = false ->
  id ∈ yaml_ids (readdirSync dir) <-> is_Some (dir !! yaml_file id).
Proof.
  intros Hdot. rewrite elem_of_yaml_ids. split.
  - intros (f & Hf & Hends & Hid). apply elem_of_readdirSync in Hf.
    apply endsWith_split in Hends as [p ->].
    apply replace_first_yaml_suffix in Hid; [|exact Hdot].
    subst p. exact Hf.
  - intros H. exists (yaml_file id). split; [apply elem_of_readdirSync, H|].
    split; [apply endsWith_append | apply replace_first_yaml_file, Hdot].
Qed.

(** A loop of loads that only read is a filter over the ids. *)
Lemma load_each_gets {A : Type} (f : string -> World -> option A)
    (ids : list string) (w : World) :
  load_each (fun id => gets (f id)) ids w = (omap (fun id => f id w) ids, w).
Proof.
  induction ids as [|id rest IH]; [reflexivity|].
  cbn [load_each]. unfold bind, gets, ret. cbn [fst snd].
  unfold gets in IH. rewrite IH. cbn [fst snd]. simpl.
  destruct (f id w); reflexivity.
Qed.

Lemma loadAllGoals_run (includeArchived : bool) (w : World) :
  loadAllGoals includeArchived w
  = (omap (fun id => (loadGoal id w).1) (listGoals includeArchived w).1, w).
Proof.
  unfold loadAllGoals, bind. unfold listGoals at 1 2, gets at 1 2.
  cbn [fst snd]. apply (load_each_gets (fun id w => (loadGoal id w).1)).
Qed.

(** X8: a goal saved by [saveGoal] is the goal that [loadGoal] returns for
    its id, also when an archived file of that id exists, which stays as it
    is; the other ids load as before. When the id has no dot, the id is
    listed by [listGoals] and the goal is among [loadAllGoals]. *)
Theorem saveGoal_then_loadGoal (w : World) (goal : Goal) (id : string) :
  let w' := (saveGoal goal w).2 in
  (loadGoal (goal_id goal) w').1 = Some goal /\
  archived_dir w' = archived_dir w /\
  (id <> goal_id goal -> (loadGoal id w').1 = (loadGoal id w).1) /\
  (contains_char "." (goal_id goal) = false ->
   goal_id goal ∈ (listGoals false w').1 /\
   goal ∈ (loadAllGoals false w').1).
Proof.
  intros w'.
  assert (active_dir w' !! yaml_file (goal_id goal) = Some goal) as Hfile
    by apply lookup_insert_eq.
  split; [apply loadGoal_active, Hfile|]. split; [reflexivity|]. split.
  - intros Hne. unfold loadGoal, gets. subst w'. simpl.
    rewrite lookup_insert_ne; [reflexivity|].
    intros E. apply yaml_file_inj in E. congruence.
  - intros Hdot.
    assert (goal_id goal ∈ (listGoals false w').1) as Hlisted.
    { change (goal_id goal ∈ yaml_ids (readdirSync (active_dir w'))).
      apply elem_of_yaml_ids_plain; [exact Hdot|]. rewrite Hfile. eauto. }
    split; [exact Hlisted|]. rewrite loadAllGoals_run. cbn [fst].
    apply list_elem_of_omap. exists (goal_id goal). split; [exact Hlisted|].
    exact (loadGoal_active _ _ _ Hfile).
Qed.

Lemma saveGoal_then_loadGoal_witness :
  (loadGoal "goal_a" (saveGoal demo_goal family_world).2).1
  = (loadGoal "goal_a" family_world).1 /\
  demo_goal ∈ (loadAllGoals false (saveGoal demo_goal family_world).2).1.
Proof.
  destruct (saveGoal_then_loadGoal family_world demo_goal "goal_a")
    as (_ & _ & Hother & Hlisted).
  split.
  - apply Hother. vm_compute. discriminate.
  - apply Hlisted. vm_compute. reflexivity.
Defined.

(** X9: [archiveGoal] moves a file and changes no answer of [loadGoal]:
    every id loads the same goal after it as before. It returns [true]
    exactly when the active area held the file, and then the active area
    holds it no longer; a second [archiveGoal] of the same id returns
    [false] and changes nothing, as does one of an id that is only
    archived. *)
Theorem archiveGoal_keeps_every_goal (w : World) (goalId id : string) :
  let r := archiveGoal goalId w in
  (loadGoal id r.2).1 = (loadGoal id w).1 /\
  (r.1 = true <-> is_Some (active_dir w !! yaml_file goalId)) /\
  active_dir r.2 !! yaml_file goalId = None /\
  archiveGoal goalId r.2 = (false, r.2) /\
  (r.1 = false -> r.2 = w).
Proof.
  intros r. subst r. unfold archiveGoal, loadGoal, gets.
  destruct (active_dir w !! yaml_file goalId) as [goal|] eqn:E; simpl.
  - split; [|split; [|split; [|split]]].
    + destruct (decide (yaml_file goalId = yaml_file id)) as [Heq|Hne].
      * rewrite <- Heq, lookup_delete_eq, lookup_insert_eq, E. reflexivity.
      * rewrite lookup_delete_ne, lookup_insert_ne by exact Hne. reflexivity.
    + split; [eauto | reflexivity].
    + apply lookup_delete_eq.
    + rewrite lookup_delete_eq. reflexivity.
    + discriminate.
  - rewrite E. split; [reflexivity|]. split.
    + split; [discriminate | intros [? ?]; discriminate].
    + split; [reflexivity|]. split; reflexivity.
Qed.

Lemma archiveGoal_keeps_every_goal_witness :
  (archiveGoal "goal_z" family_world).2 = family_world.
Proof.
  destruct (archiveGoal_keeps_every_goal family_world "goal_z" "goal_a")
    as (_ & _ & _ & _ & Hsame).
  apply Hsame. vm_compute. reflexivity.
Defined.

Lemma deleteGoal_absent goalId w :
  active_dir w !! yaml_file goalId = None ->
  archived_dir w !! yaml_file goalId = None ->
  deleteGoal goalId w = (false, w).
Proof.
  intros Ha Hb. unfold deleteGoal.
  rewrite Ha, (bool_decide_eq_false_2 (is_Some None)) by (intros [? ?]; discriminate).
  rewrite Hb, (bool_decide_eq_false_2 (is_Some None)) by (intros [? ?]; discriminate).
  reflexivity.
Qed.

Lemma deleteGoal_fields goalId w :
  (deleteGoal goalId w).1
  = bool_decide (is_Some (active_dir w !! yaml_file goalId))
    || bool_decide (is_Some (archived_dir w !! yaml_file goalId)) /\
  active_dir (deleteGoal goalId w).2
  = delete (yaml_file goalId) (active_dir w) /\
  archived_dir (deleteGoal goalId w).2
  = delete (yaml_file goalId) (archived_dir w) /\
  snapshot_files (deleteGoal goalId w).2 = snapshot_files w /\
  branch_files (deleteGoal goalId w).2 = branch_files w /\
  project_dir (deleteGoal goalId w).2 = project_dir w /\
  index_json (deleteGoal goalId w).2 = index_json w.
Proof.
  unfold deleteGoal. cbn [fst snd].
  destruct (bool_decide (is_Some (active_dir w !! yaml_file goalId))) eqn:Ea.
  - cbn [archived_dir set_active_dir].
    destruct (bool_decide (is_Some (archived_dir w !! yaml_file goalId)))
      eqn:Eb; simpl.
    + repeat split.
    + apply bool_decide_eq_false_1, eq_None_not_Some in Eb.
      rewrite (delete_id _ _ Eb). repeat split.
  - apply bool_decide_eq_false_1, eq_None_not_Some in Ea.
    rewrite (delete_id _ _ Ea).
    destruct (bool_decide (is_Some (archived_dir w !! yaml_file goalId)))
      eqn:Eb; simpl.
    + repeat split.
    + apply bool_decide_eq_false_1, eq_None_not_Some in Eb.
      rewrite (delete_id _ _ Eb). repeat split.
Qed.

(** X10: [deleteGoal] removes the file of the id from both areas: after it
    [loadGoal] finds nothing under the id, and it returns [true] exactly
    when [loadGoal] found a goal before. The other ids load as before, a
    second [deleteGoal] returns [false], and the snapshot files, the branch
    files, the project files and the cached index are left as they are,
    those of the deleted goal included. *)
Theorem deleteGoal_removes_both_copies (w : World) (goalId id : string) :
  let r := deleteGoal goalId w in
  (loadGoal goalId r.2).1 = None /\
  (r.1 = true <-> is_Some (loadGoal goalId w).1) /\
  (id <> goalId -> (loadGoal id r.2).1 = (loadGoal id w).1) /\
  deleteGoal goalId r.2 = (false, r.2) /\
  snapshot_files r.2 = snapshot_files w /\
  branch_files r.2 = branch_files w /\
  project_dir r.2 = project_dir w /\
  index_json r.2 = index_json w.
Proof.
  intros r.
  destruct (deleteGoal_fields goalId w)
    as (Hr & Ha & Hb & Hs & Hbr & Hp & Hi). fold r in Hr, Ha, Hb, Hs, Hbr, Hp, Hi.
  assert (active_dir r.2 !! yaml_file goalId = None) as Ha'
    by (rewrite Ha; apply lookup_delete_eq).
  assert (archived_dir r.2 !! yaml_file goalId = None) as Hb'
    by (rewrite Hb; apply lookup_delete_eq).
  split; [|split; [|split; [|split]]].
  - unfold loadGoal, gets. cbn [fst]. rewrite Ha'. exact Hb'.
  - rewrite Hr. unfold loadGoal, gets. cbn [fst].
    rewrite orb_true_iff, !bool_decide_eq_true.
    destruct (active_dir w !! yaml_file goalId); [|split].
    + split; eauto.
    + intros [[? ?]|H]; [discriminate | exact H].
    + intros H. right. exact H.
  - intros Hne. unfold loadGoal, gets. cbn [fst]. rewrite Ha, Hb.
    assert (yaml_file goalId <> yaml_file id)
      by (intros E; apply yaml_file_inj in E; congruence).
    rewrite !lookup_delete_ne by assumption. reflexivity.
  - apply deleteGoal_absent; assumption.
  - repeat split; assumption.
Qed.

Lemma deleteGoal_removes_both_copies_witness :
  (loadGoal "goal_a" (deleteGoal "goal_b" family_world).2).1
  = (loadGoal "goal_a" family_world).1.
Proof.
  destruct (deleteGoal_removes_both_copies family_world "goal_b" "goal_a")
    as (_ & _ & Hother & _).
  apply Hother. discriminate.
Defined.

(** A goal with a file in both areas is loaded twice by
    [loadAllGoals(true)], both times from the active file. *)
Lemma loaded_from_both_areas (w : World) (goalId : string) (a b : Goal) :
  contains_char "." goalId = false ->
  active_dir w !! yaml_file goalId = Some a ->
  archived_dir w !! yaml_file goalId = Some b ->
  exists archivedPart,
    (loadAllGoals true w).1 = (loadAllGoals false w).1 ++ archivedPart /\
    a ∈ (loadAllGoals false w).1 /\ a ∈ archivedPart.
Proof.
  intros Hdot Ha Hb. rewrite !loadAllGoals_run. unfold listGoals, gets.
  cbn [fst snd negb]. rewrite omap_app.
  eexists. split; [reflexivity|]. split.
  - apply list_elem_of_omap. exists goalId. split.
    + apply elem_of_yaml_ids_plain; [exact Hdot | rewrite Ha; eauto].
    + exact (loadGoal_active _ _ _ Ha).
  - apply list_elem_of_omap. exists goalId. split.
    + apply elem_of_yaml_ids_plain; [exact Hdot | rewrite Hb; eauto].
    + exact (loadGoal_active _ _ _ Ha).
Qed.



(** ** The goal service: [update] and the operations built on it *)

Lemma same_history_refl w : same_history w w.
Proof. split; reflexivity. Qed.

Lemma same_files_history w w' : same_files w w' -> same_history w w'.
Proof. intros []. split; assumption. Qed.

Lemma keeps_history_read_only {A : Type} (c : M A) :
  read_only c -> keeps_history c.
Proof. intros H w. apply same_files_history, H. Qed.

Lemma keeps_history_bind {A B : Type} (c : M A) (k : A -> M B) :
  keeps_history c -> (forall a, keeps_history (k a)) -> keeps_history (bind c k).
Proof.
  intros Hc Hk w. unfold bind.
  destruct (Hc w) as [H1 A1 R1 S1 B1]. destruct (c w) as [a w1]; simpl in *.
  destruct (Hk a w1) as [H2 A2 R2 S2 B2]. split; congruence.
Qed.

Lemma keeps_history_saveProject project : keeps_history (saveProject project).
Proof. intros w; split; reflexivity. Qed.

Lemma keeps_history_rebuildIndex : keeps_history rebuildIndex.
Proof. intros w. apply same_files_history, rebuildIndex_files. Qed.

Create HintDb keeps_history.

#[local] Hint Resolve keeps_history_saveProject keeps_history_rebuildIndex
  : keeps_history.

Ltac keeps_history_tac :=
  repeat first
    [ solve [eauto with keeps_history]
    | solve [apply keeps_history_read_only; eauto with read_only]
    | apply keeps_history_bind; [| intros ?]
    | match goal with
      | |- keeps_history (ret _) =>
          apply keeps_history_read_only, read_only_ret
      | |- keeps_history (match ?x with _ => _ end) => destruct x
      | |- keeps_history (if ?x then _ else _) => destruct x
      end ].

Lemma wp_keeps_history {A : Type} (c : M A) (Q : A -> World -> Prop) w :
  keeps_history c -> (forall a w', same_history w w' -> Q a w') -> wp c Q w.
Proof. intros Hc H. apply H, Hc. Qed.

Lemma loadGoal_run goalId w : loadGoal goalId w = ((loadGoal goalId w).1, w).
Proof. reflexivity. Qed.

(** What [update] does to the goal, snapshot and branch files of a goal
    that [loadGoal] finds. *)
Lemma update_run goalId input updatedBy autoSnapshot snapshotEvent autoIndex
    goal w :
  (loadGoal goalId w).1 = Some goal ->
  let g1 := (updateGoal goal input updatedBy w).1 in
  let w1 := (updateGoal goal input updatedBy w).2 in
  let changes := computeChanges goal g1 default_fields in
  let s :=
    (createSnapshot g1 (or_else snapshotEvent
                          (GoalService.generateSnapshotEvent input))
       (GoalService.generateSnapshotSummary (host w) goal g1 changes)
       trigger_auto_progress changes None w1).1 in
  let r := GoalService.update goalId input updatedBy autoSnapshot
             snapshotEvent autoIndex w in
  host r.2 = host w /\
  archived_dir r.2 = archived_dir w /\
  branch_files r.2 = branch_files w /\
  if takes_snapshot autoSnapshot input goal g1 then
    r.1 = Some (push_snapshot (snap_id s) g1) /\
    active_dir r.2
    = <[yaml_file (goal_id goal) := push_snapshot (snap_id s) g1]>
        (active_dir w) /\
    snapshot_files r.2
    = <[(goal_id goal, yaml_file (snap_id s)) := s]> (snapshot_files w)
  else
    r.1 = Some g1 /\
    active_dir r.2 = <[yaml_file (goal_id goal) := g1]> (active_dir w) /\
    snapshot_files r.2 = snapshot_files w.
Proof.
  intros Hload g1 w1 changes s r.
  change (wp (GoalService.update goalId input updatedBy autoSnapshot
                snapshotEvent autoIndex)
            (fun result w' =>
               host w' = host w /\
               archived_dir w' = archived_dir w /\
               branch_files w' = branch_files w /\
               if takes_snapshot autoSnapshot input goal g1 then
                 result = Some (push_snapshot (snap_id s) g1) /\
                 active_dir w'
                 = <[yaml_file (goal_id goal) := push_snapshot (snap_id s) g1]>
                     (active_dir w) /\
                 snapshot_files w'
                 = <[(goal_id goal, yaml_file (snap_id s)) := s]>
                     (snapshot_files w)
               else
                 result = Some g1 /\
                 active_dir w' = <[yaml_file (goal_id goal) := g1]> (active_dir w)
                 /\ snapshot_files w' = snapshot_files w) w).
  unfold GoalService.update.
  apply wp_bind. unfold wp at 1. rewrite Hload.
  change (loadGoal goalId w).2 with w.
  apply wp_bind. unfold wp at 1. fold g1 w1.
  assert (same_files w w1) as F1
    by apply (read_only_updateGoal goal input updatedBy w).
  assert (goal_id g1 = goal_id goal) as Hid by reflexivity.
  apply wp_bind.
  set (tail := fun updatedGoal : Goal => _).
  assert (forall g w2,
            host w2 = host w ->
            active_dir w2 = active_dir w ->
            archived_dir w2 = archived_dir w ->
            branch_files w2 = branch_files w ->
            (takes_snapshot autoSnapshot input goal g1 = true ->
             g = push_snapshot (snap_id s) g1 /\
             snapshot_files w2
             = <[(goal_id goal, yaml_file (snap_id s)) := s]>
                 (snapshot_files w)) ->
            (takes_snapshot autoSnapshot input goal g1 = false ->
             g = g1 /\ snapshot_files w2 = snapshot_files w) ->
            tail g w2) as Htail.
  { intros g w2 Hh Ha Hr Hb Hyes Hno. subst tail. cbv beta.
    apply wp_bind. unfold saveGoal. apply wp_modify.
    apply wp_bind. apply wp_keeps_history; [keeps_history_tac|].
    intros ? w3 H3.
    apply wp_bind. apply wp_keeps_history; [keeps_history_tac|].
    intros ? w4 H4. apply wp_ret.
    destruct H3 as [Hh3 Ha3 Hr3 Hs3 Hb3], H4 as [Hh4 Ha4 Hr4 Hs4 Hb4].
    cbn [host active_dir archived_dir snapshot_files branch_files
         set_active_dir] in Hh3, Ha3, Hr3, Hs3, Hb3.
    split; [congruence|]. split; [congruence|]. split; [congruence|].
    destruct (takes_snapshot autoSnapshot input goal g1).
    - destruct (Hyes eq_refl) as [-> Hs].
      split; [reflexivity|]. split; [|congruence].
      rewrite Ha4, Ha3, Ha. reflexivity.
    - destruct (Hno eq_refl) as [-> Hs].
      split; [reflexivity|]. split; [|congruence].
      rewrite Ha4, Ha3, Ha. reflexivity. }
  clearbody tail.
  destruct (autoSnapshot
            && (bool_decide (is_Some (ugi_progress input))
                || bool_decide (is_Some (ugi_status input)))) eqn:Ewanted.
  - destruct (computeChanges goal g1 default_fields) as [|change rest]
      eqn:Echanges.
    + unfold wp at 1, ret. cbn [fst snd]. destruct F1.
      apply Htail; try assumption; unfold takes_snapshot;
        rewrite Ewanted, Echanges; simpl;
        [discriminate | intros _; split; [reflexivity | assumption]].
    + apply wp_bind, wp_gets.
      apply wp_bind. unfold wp at 1.
      assert (host w1 = host w) as -> by apply F1.
      fold changes. fold s.
      set (w2 := (createSnapshot g1
                    (or_else snapshotEvent
                       (GoalService.generateSnapshotEvent input))
                    (GoalService.generateSnapshotSummary (host w) goal g1
                       changes)
                    trigger_auto_progress changes None w1).2).
      assert (same_files w1 w2) as F2
        by apply (read_only_createSnapshot g1
                    (or_else snapshotEvent
                       (GoalService.generateSnapshotEvent input))
                    (GoalService.generateSnapshotSummary (host w) goal g1
                       changes)
                    trigger_auto_progress changes None w1).
      apply wp_bind. unfold saveSnapshot. apply wp_modify.
      unfold wp at 1, ret. cbn [fst snd]. destruct F1, F2.
      apply Htail;
        cbn [host active_dir archived_dir snapshot_files branch_files
             set_snapshot_files];
        try congruence; unfold takes_snapshot;
        rewrite Ewanted, Echanges; simpl; [|discriminate].
      intros _. split; [reflexivity|].
      change (snap_goal_id s) with (goal_id goal). congruence.
  - unfold wp at 1, ret. cbn [fst snd]. destruct F1.
    apply Htail; try assumption; unfold takes_snapshot;
      rewrite Ewanted; simpl;
      [discriminate | intros _; split; [reflexivity | assumption]].
Qed.

(** [JSON.stringify] tells the values of a field apart exactly when the
    field changes. *)
Lemma json_eqb_field_changes (before after : Goal) (f : GoalField) :
  json_eqb (field_value before f) (field_value after f) = false
  <-> field_changes before after f.
Proof.
  destruct f; simpl.
  - destruct (goal_progress before) as [| |x|],
             (goal_progress after) as [| |y|]; simpl;
      try (split; [discriminate | tauto]);
      try (split; [intros _ H; exact H | reflexivity]).
    rewrite <- Qeq_bool_iff. destruct (Qeq_bool x y); split; congruence.
  - destruct (goal_status before), (goal_status after); simpl;
      split; congruence.
  - rewrite String.eqb_neq. reflexivity.
  - rewrite String.eqb_neq. reflexivity.
Qed.

(** [computeChanges] records the fields that change, and only those. *)
Lemma computeChanges_records (before after : Goal) (c : FieldChange) :
  c ∈ computeChanges before after default_fields <->
  exists f, field_changes before after f /\ c = change_of before after f.
Proof.
  unfold computeChanges. rewrite list_elem_of_In, in_flat_map. split.
  - intros (f & _ & Hin).
    destruct (json_eqb (field_value before f) (field_value after f)) eqn:E;
      [destruct Hin|].
    destruct Hin as [<-|[]]. exists f.
    split; [apply json_eqb_field_changes, E | reflexivity].
  - intros (f & Hf & ->). exists f. split.
    + destruct f; simpl; tauto.
    + apply json_eqb_field_changes in Hf. rewrite Hf. left. reflexivity.
Qed.

Lemma computeChanges_in_order (before after : Goal) :
  sublist (List.map fc_field (computeChanges before after default_fields))
          ["progress"; "status"; "current_state"; "desired_state"].
Proof.
  unfold computeChanges, default_fields. cbn [flat_map].
  repeat match goal with
         | |- context [if json_eqb ?a ?b then _ else _] =>
             destruct (json_eqb a b)
         end;
    cbn [app List.map fc_field field_name]; repeat constructor.
Qed.

(** [update] takes a snapshot exactly when one is due. *)
Lemma takes_snapshot_due autoSnapshot input before after :
  takes_snapshot autoSnapshot input before after = true
  <-> snapshot_due autoSnapshot input before after.
Proof.
  unfold takes_snapshot, snapshot_due.
  rewrite !andb_true_iff, orb_true_iff, !bool_decide_eq_true.
  assert ((match computeChanges before after default_fields with
           | [] => false
           | _ :: _ => true
           end = true)
          <-> exists f, field_changes before after f) as ->;
    [|tauto].
  pose proof (computeChanges_records before after) as Hrec.
  destruct (computeChanges before after default_fields) as [|c cs]; split.
  - discriminate.
  - intros [f Hf]. exfalso.
    apply (not_elem_of_nil (change_of before after f)), Hrec.
    exists f. split; [exact Hf | reflexivity].
  - intros _. destruct (proj1 (Hrec c)) as (f & Hf & _); [left|].
    exists f. exact Hf.
  - reflexivity.
Qed.

(** X12: [update] of a goal that [loadGoal] finds returns the patched goal
    and stores it in the active area under the goal's own id, leaving the
    archived area as it is. It records a snapshot exactly when snapshots
    are wanted, the patch names a progress or a status, and one of
    progress, status, current state and desired state changes, where two
    progress values that are not finite count as the same: then the
    snapshot is saved, it holds the new values and the records of the fields
    that change, it links to the previously last snapshot, and its id is
    appended to the goal's snapshots; otherwise no snapshot file is written
    and the goal's snapshots stay as they are. *)
Theorem update_records_change (w : World) (goalId : string)
    (input : UpdateGoalInput) (updatedBy : string) (autoSnapshot : bool)
    (snapshotEvent : option string) (autoIndex : bool) (goal : Goal) :
  (loadGoal goalId w).1 = Some goal ->
  let patched := (updateGoal goal input updatedBy w).1 in
  let r := GoalService.update goalId input updatedBy autoSnapshot
             snapshotEvent autoIndex w in
  exists goal',
    r.1 = Some goal' /\
    (loadGoal (goal_id goal) r.2).1 = Some goal' /\
    archived_dir r.2 = archived_dir w /\
    (snapshot_due autoSnapshot input goal patched ->
     exists s,
       goal' = push_snapshot (snap_id s) patched /\
       snapshot_files r.2
       = <[(goal_id goal, yaml_file (snap_id s)) := s]> (snapshot_files w) /\
       (loadSnapshot (goal_id goal) (snap_id s) r.2).1 = Some s /\
       recorded_by_update
         (or_else snapshotEvent (GoalService.generateSnapshotEvent input))
         goal patched s) /\
    (~ snapshot_due autoSnapshot input goal patched ->
     goal' = patched /\ snapshot_files r.2 = snapshot_files w).
Proof.
  intros Hload patched r.
  pose proof (update_run goalId input updatedBy autoSnapshot snapshotEvent
                autoIndex goal w Hload) as H.
  cbv zeta in H. fold patched r in H.
  destruct H as (_ & Harchived & _ & H).
  pose proof (takes_snapshot_due autoSnapshot input goal patched) as Hdue.
  destruct (takes_snapshot autoSnapshot input goal patched).
  - destruct H as (Hres & Hactive & Hsnaps).
    eexists. split; [exact Hres|]. split.
    { apply loadGoal_active. rewrite Hactive. apply lookup_insert_eq. }
    split; [exact Harchived|]. split.
    + intros _. eexists. split; [reflexivity|]. split; [exact Hsnaps|]. split.
      { unfold loadSnapshot, gets. cbn [fst]. rewrite Hsnaps.
        apply lookup_insert_eq. }
      unfold recorded_by_update.
      repeat (split; [reflexivity|]).
      split; [intros c; apply computeChanges_records|].
      split; [apply computeChanges_in_order|].
      split; [apply last_snapshot_last | reflexivity].
    + intros Hnot. exfalso. apply Hnot, Hdue. reflexivity.
  - destruct H as (Hres & Hactive & Hsnaps).
    exists patched. split; [exact Hres|]. split.
    { apply loadGoal_active. rewrite Hactive. apply lookup_insert_eq. }
    split; [exact Harchived|]. split.
    + intros Hyes. apply Hdue in Hyes. discriminate.
    + intros _. split; [reflexivity | exact Hsnaps].
Qed.

Lemma update_records_change_witness :
  exists goal',
    (GoalService.update (goal_id demo_goal) progress_half "main" true None
       true stored_world).1 = Some goal' /\
    (loadGoal (goal_id demo_goal)
       (GoalService.update (goal_id demo_goal) progress_half "main" true None
          true stored_world).2).1 = Some goal' /\
    length (goal_snapshots goal') = 1.
Proof.
  destruct (update_records_change stored_world (goal_id demo_goal)
              progress_half "main" true None true demo_goal)
    as (goal' & Hres & Hload & _ & Hsnap & _).
  { vm_compute. reflexivity. }
  exists goal'. split; [exact Hres|]. split; [exact Hload|].
  destruct Hsnap as (s & -> & _); [|reflexivity].
  split; [reflexivity|]. split; [left; eexists; reflexivity|].
  exists field_progress. simpl. intros H. vm_compute in H. discriminate.
Defined.

(** X13: every operation of the goal service that starts by loading the
    goal returns [null] and leaves the store, the clock and the index cache
    as they are when [loadGoal] finds no goal under the id; [archive] then
    returns [false], and [abandonGoalBranch] does the same when the branch
    file is missing, whether or not the goal exists. *)
Theorem operations_on_missing_goal (w : World) (goalId : string) :
  (loadGoal goalId w).1 = None ->
  (forall input updatedBy autoSnapshot snapshotEvent autoIndex,
     GoalService.update goalId input updatedBy autoSnapshot snapshotEvent
       autoIndex w = (None, w)) /\
  (forall progress updatedBy,
     GoalService.setProgress goalId progress updatedBy w = (None, w)) /\
  (forall summary updatedBy,
     GoalService.complete goalId summary updatedBy w = (None, w)) /\
  (forall reason updatedBy,
     GoalService.abandon goalId reason updatedBy w = (None, w)) /\
  (forall updatedBy, GoalService.pause goalId updatedBy w = (None, w)) /\
  (forall updatedBy, GoalService.resume goalId updatedBy w = (None, w)) /\
  (forall event summary,
     GoalService.createManualSnapshot goalId event summary w = (None, w)) /\
  (forall name description,
     GoalService.createGoalBranch goalId name description w = (None, w)) /\
  (forall branchId, GoalService.switchBranch goalId branchId w = (None, w)) /\
  (forall autoIndex, GoalService.archive goalId autoIndex w = (false, w)) /\
  (forall branchId reason decidedBy,
     (loadBranch goalId branchId w).1 = None ->
     GoalService.abandonGoalBranch goalId branchId reason decidedBy w
     = (None, w)).
Proof.
  intros Hload.
  assert (forall input updatedBy autoSnapshot snapshotEvent autoIndex,
            GoalService.update goalId input updatedBy autoSnapshot
              snapshotEvent autoIndex w = (None, w)) as Hupdate.
  { intros. unfold GoalService.update, bind.
    rewrite (loadGoal_run goalId w), Hload. reflexivity. }
  split; [exact Hupdate|].
  split; [intros; apply Hupdate|].
  split.
  { intros. unfold GoalService.complete, bind. rewrite Hupdate. reflexivity. }
  split; [intros; apply Hupdate|].
  split; [intros; apply Hupdate|].
  split; [intros; apply Hupdate|].
  split.
  { intros. unfold GoalService.createManualSnapshot, bind.
    rewrite (loadGoal_run goalId w), Hload. reflexivity. }
  split.
  { intros. unfold GoalService.createGoalBranch, bind.
    rewrite (loadGoal_run goalId w), Hload. reflexivity. }
  split.
  { intros. unfold GoalService.switchBranch, bind.
    rewrite (loadGoal_run goalId w), Hload. reflexivity. }
  split.
  { intros. unfold GoalService.archive, bind.
    rewrite archiveGoal_not_active; [reflexivity|].
    unfold loadGoal, gets in Hload. cbn [fst] in Hload.
    destruct (active_dir w !! yaml_file goalId); [discriminate | reflexivity]. }
  intros branchId reason decidedBy Hbranch.
  unfold GoalService.abandonGoalBranch, bind.
  change (loadBranch goalId branchId w)
    with ((loadBranch goalId branchId w).1, w).
  rewrite Hbranch. reflexivity.
Qed.

Lemma operations_on_missing_goal_witness :
  GoalService.setProgress "goal_z" (Fin 1) "main" family_world
  = (None, family_world) /\
  GoalService.abandonGoalBranch "goal_z" "branch_x" "stale" "main" family_world
  = (None, family_world).
Proof.
  destruct (operations_on_missing_goal family_world "goal_z")
    as (_ & Hprogress & _ & _ & _ & _ & _ & _ & _ & _ & Hbranch).
  { vm_compute. reflexivity. }
  split; [apply Hprogress|]. apply Hbranch. vm_compute. reflexivity.
Defined.

(** X14: the service writes an archived goal back into the active area. If
    a goal stored under its own id, an id without a dot, is archived by
    [archive] and then changed by [update], the update succeeds, the goal is
    listed among the active goals again, and the archived area still holds
    the document from before the update; [loadAllGoals(true)] then loads
    the updated goal twice. *)
Theorem update_after_archive_revives (w : World) (goal : Goal)
    (input : UpdateGoalInput) (updatedBy : string)
    (autoSnapshot : bool) (snapshotEvent : option string)
    (autoIndex archiveIndex : bool) :
  let goalId := goal_id goal in
  active_dir w !! yaml_file goalId = Some goal ->
  contains_char "." goalId = false ->
  let w1 := (GoalService.archive goalId archiveIndex w).2 in
  let r := GoalService.update goalId input updatedBy autoSnapshot
             snapshotEvent autoIndex w1 in
  (GoalService.archive goalId archiveIndex w).1 = true /\
  ~ goalId ∈ (listGoals false w1).1 /\
  exists goal',
    r.1 = Some goal' /\
    goalId ∈ (listGoals false r.2).1 /\
    active_dir r.2 !! yaml_file goalId = Some goal' /\
    archived_dir r.2 !! yaml_file goalId = Some goal /\
    exists archivedPart,
      (loadAllGoals true r.2).1 = (loadAllGoals false r.2).1 ++ archivedPart /\
      goal' ∈ (loadAllGoals false r.2).1 /\ goal' ∈ archivedPart.
Proof.
  intros goalId Hactive Hdot w1 r.
  destruct (archive_files goalId archiveIndex w) as [Hres F]. fold w1 in F.
  destruct (archiveGoal_active goalId goal w Hactive)
    as (Htrue & Hdel & Harch & _).
  assert (active_dir w1 !! yaml_file goalId = None) as Hgone.
  { rewrite (sf_active _ _ F), Hdel. apply lookup_delete_eq. }
  assert (archived_dir w1 !! yaml_file goalId = Some goal) as Hkept.
  { rewrite (sf_archived _ _ F). exact Harch. }
  split; [congruence|]. split.
  { change (~ goalId ∈ yaml_ids (readdirSync (active_dir w1))).
    rewrite elem_of_yaml_ids_plain by exact Hdot. rewrite Hgone.
    intros [? ?]. discriminate. }
  assert ((loadGoal goalId w1).1 = Some goal) as Hload.
  { unfold loadGoal, gets. cbn [fst]. rewrite Hgone. exact Hkept. }
  pose proof (update_run goalId input updatedBy autoSnapshot snapshotEvent
                autoIndex goal w1 Hload) as H.
  cbv zeta in H. fold r in H. destruct H as (_ & Harchived & _ & H).
  assert (exists goal',
            r.1 = Some goal' /\
            active_dir r.2 = <[yaml_file goalId := goal']> (active_dir w1))
    as (goal' & Hr & Hfile).
  { destruct (takes_snapshot _ _ _ _); destruct H as (Hr & Ha & _);
      eexists; split; eassumption. }
  assert (active_dir r.2 !! yaml_file goalId = Some goal') as Hnew
    by (rewrite Hfile; apply lookup_insert_eq).
  assert (archived_dir r.2 !! yaml_file goalId = Some goal) as Hold
    by (rewrite Harchived; exact Hkept).
  exists goal'. split; [exact Hr|]. split.
  { change (goalId ∈ yaml_ids (readdirSync (active_dir r.2))).
    apply elem_of_yaml_ids_plain; [exact Hdot | rewrite Hnew; eauto]. }
  split; [exact Hnew|]. split; [exact Hold|].
  apply (loaded_from_both_areas r.2 goalId goal' goal); assumption.
Qed.

Lemma update_after_archive_revives_witness :
  goal_id demo_goal
  ∈ (listGoals false
       (GoalService.update (goal_id demo_goal) progress_half "main" true None
          true (GoalService.archive (goal_id demo_goal) true stored_world).2).2).1.
Proof.
  destruct (update_after_archive_revives stored_world demo_goal progress_half
              "main" true None true true)
    as (_ & _ & goal' & _ & Hlisted & _).
  - vm_compute. reflexivity.
  - vm_compute. reflexivity.
  - exact Hlisted.
Defined.

(** ** [complete] and [createManualSnapshot] *)

Lemma computeChanges_unchanged (before after : Goal) :
  json_num_eqb (goal_progress before) (goal_progress after) = true ->
  goal_status after = goal_status before ->
  goal_current_state after = goal_current_state before ->
  goal_desired_state after = goal_desired_state before ->
  computeChanges before after default_fields = [].
Proof.
  intros Hp Hs Hc Hd. unfold computeChanges, default_fields. simpl.
  rewrite Hp, Hs, Hc, Hd, !String.eqb_refl.
  destruct (goal_status before); reflexivity.
Qed.

(** X15: [complete] of a goal that [loadGoal] finds returns and stores the
    goal with status [completed], progress 1 and the caller as the last to
    touch it. With a non-empty summary it ends the goal's snapshots with a
    saved [milestone] snapshot that carries the summary; without one, and
    for a goal that already is completed at progress 1, it records no
    snapshot at all. *)
Theorem complete_marks_completed (w : World) (goalId : string)
    (summary : option string) (updatedBy : string) (goal : Goal) :
  (loadGoal goalId w).1 = Some goal ->
  let r := GoalService.complete goalId summary updatedBy w in
  exists goal',
    r.1 = Some goal' /\
    (loadGoal (goal_id goal) r.2).1 = Some goal' /\
    goal_status goal' = completed /\
    goal_progress goal' = Fin 1 /\
    goal_last_touched_by goal' = updatedBy /\
    (forall text, summary = Some text -> truthy text = true ->
     exists s,
       last (goal_snapshots goal') = Some (snap_id s) /\
       (loadSnapshot (goal_id goal) (snap_id s) r.2).1 = Some s /\
       snap_trigger s = trigger_milestone /\
       snap_event s = "Goal completed" /\
       snap_summary s = text /\
       snap_status s = completed /\
       snap_progress s = Fin 1) /\
    (summary = None \/ summary = Some "" ->
     goal_status goal = completed ->
     json_num_eqb (goal_progress goal) (Fin 1) = true ->
     goal_snapshots goal' = goal_snapshots goal /\
     snapshot_files r.2 = snapshot_files w).
Proof.
  intros Hload r.
  pose proof (update_run goalId GoalService.completed_patch updatedBy true
                (Some "Goal completed") true goal w Hload) as H.
  cbv zeta in H.
  set (g1 := (updateGoal goal GoalService.completed_patch updatedBy w).1) in *.
  set (ru := GoalService.update goalId GoalService.completed_patch updatedBy
               true (Some "Goal completed") true w) in *.
  destruct H as (_ & _ & _ & H).
  assert (exists gu,
            ru.1 = Some gu /\
            active_dir ru.2 = <[yaml_file (goal_id goal) := gu]> (active_dir w) /\
            goal_id gu = goal_id goal /\
            goal_status gu = completed /\ goal_progress gu = Fin 1 /\
            goal_last_touched_by gu = updatedBy /\
            (takes_snapshot true GoalService.completed_patch goal g1 = false ->
             goal_snapshots gu = goal_snapshots goal /\
             snapshot_files ru.2 = snapshot_files w))
    as (gu & Hru & Hactive & Hid & Hstatus & Hprogress & Htouched & Hquiet).
  { destruct (takes_snapshot true GoalService.completed_patch goal g1);
      destruct H as (Hru & Ha & Hs); eexists;
      (split; [exact Hru|]); (split; [exact Ha|]);
      (split; [reflexivity|]); (split; [reflexivity|]);
      (split; [reflexivity|]); (split; [reflexivity|]);
      [discriminate | intros _; split; [reflexivity | exact Hs]]. }
  assert (r = (let (res, wu) := ru in
               match res, summary with
               | Some goal, Some summary =>
                   if truthy summary then
                     (let* snapshot :=
                        createSnapshot goal "Goal completed" summary
                          trigger_milestone [] None in
                      let goal := push_snapshot (snap_id snapshot) goal in
                      saveSnapshot snapshot;;
                      saveGoal goal;;
                      ret (Some goal)) wu
                   else (Some goal, wu)
               | _, _ => (res, wu)
               end)) as Hr.
  { subst r ru. unfold GoalService.complete, bind at 1.
    destruct (GoalService.update goalId GoalService.completed_patch updatedBy
                true (Some "Goal completed") true w) as [[res|] wu];
      [|reflexivity].
    destruct summary as [text|]; [|reflexivity].
    destruct (truthy text); reflexivity. }
  clearbody r ru. destruct ru as [res wu]. cbn [fst snd] in *. subst res.
  destruct summary as [text|].
  - destruct (truthy text) eqn:Etruthy.
    + unfold bind, saveSnapshot, saveGoal, modify, ret in Hr.
      pose proof (read_only_createSnapshot gu "Goal completed" text
                    trigger_milestone [] None wu) as [F _].
      assert (snap_goal_id
                (createSnapshot gu "Goal completed" text trigger_milestone []
                   None wu).1 = goal_id gu) as Hsg by reflexivity.
      assert (forall s,
                s = (createSnapshot gu "Goal completed" text trigger_milestone
                       [] None wu).1 ->
                snap_trigger s = trigger_milestone /\
                snap_event s = "Goal completed" /\
                snap_summary s = text /\
                snap_status s = goal_status gu /\
                snap_progress s = goal_progress gu) as Hfields
        by (intros s ->; repeat split).
      destruct (createSnapshot gu "Goal completed" text trigger_milestone []
                  None wu) as [s w2].
      cbn [fst snd] in *. subst r. cbn [fst snd].
      exists (push_snapshot (snap_id s) gu).
      split; [reflexivity|]. split.
      { apply loadGoal_active.
        cbn [active_dir set_active_dir set_snapshot_files].
        change (goal_id (push_snapshot (snap_id s) gu)) with (goal_id gu).
        rewrite Hid. apply lookup_insert_eq. }
      split; [exact Hstatus|]. split; [exact Hprogress|].
      split; [exact Htouched|]. split.
      * intros text' [= <-] _. exists s.
        split; [apply last_snoc|]. split.
        { unfold loadSnapshot, gets.
          cbn [fst snapshot_files set_active_dir set_snapshot_files].
          rewrite Hsg, Hid. apply lookup_insert_eq. }
        destruct (Hfields s eq_refl) as (? & ? & ? & ? & ?).
        repeat split; congruence.
      * intros [?|[= ->]]; [discriminate|]. discriminate.
    + subst r. cbn [fst snd]. exists gu. split; [reflexivity|]. split.
      { apply loadGoal_active. rewrite Hactive. apply lookup_insert_eq. }
      split; [exact Hstatus|]. split; [exact Hprogress|].
      split; [exact Htouched|]. split; [intros ? [= <-]; congruence|].
      intros _ Hs Hp. apply Hquiet. unfold takes_snapshot.
      rewrite (computeChanges_unchanged goal g1); [reflexivity | | | |];
        [exact Hp | exact (eq_sym Hs) | reflexivity | reflexivity].
  - subst r. cbn [fst snd]. exists gu. split; [reflexivity|]. split.
    { apply loadGoal_active. rewrite Hactive. apply lookup_insert_eq. }
    split; [exact Hstatus|]. split; [exact Hprogress|].
    split; [exact Htouched|]. split; [intros ? [=]|].
    intros _ Hs Hp. apply Hquiet. unfold takes_snapshot.
    rewrite (computeChanges_unchanged goal g1); [reflexivity | | | |];
      [exact Hp | exact (eq_sym Hs) | reflexivity | reflexivity].
Qed.

Lemma complete_marks_completed_witness :
  exists goal',
    (GoalService.complete (goal_id demo_goal) (Some "shipped") "main"
       stored_world).1 = Some goal' /\
    goal_status goal' = completed /\
    exists s, last (goal_snapshots goal') = Some (snap_id s) /\
              snap_trigger s = trigger_milestone.
Proof.
  destruct (complete_marks_completed stored_world (goal_id demo_goal)
              (Some "shipped") "main" demo_goal)
    as (goal' & Hres & _ & Hstatus & _ & _ & Hmilestone & _).
  { vm_compute. reflexivity. }
  exists goal'. split; [exact Hres|]. split; [exact Hstatus|].
  destruct (Hmilestone "shipped" eq_refl) as (s & Hlast & _ & Htrigger & _).
  { vm_compute. reflexivity. }
  exists s. split; assumption.
Defined.

Lemma createManualSnapshot_run goalId event summary goal w :
  (loadGoal goalId w).1 = Some goal ->
  let s := (createSnapshot goal event summary trigger_manual [] None w).1 in
  let r := GoalService.createManualSnapshot goalId event summary w in
  r.1 = Some s /\
  active_dir r.2
  = <[yaml_file (goal_id goal) := push_snapshot (snap_id s) goal]>
      (active_dir w) /\
  archived_dir r.2 = archived_dir w /\
  snapshot_files r.2
  = <[(goal_id goal, yaml_file (snap_id s)) := s]> (snapshot_files w) /\
  branch_files r.2 = branch_files w /\
  project_dir r.2 = project_dir w /\
  index_json r.2 = index_json w.
Proof.
  intros Hload s r.
  set (w1 := (createSnapshot goal event summary trigger_manual [] None w).2).
  assert (r = (Some s,
               set_active_dir
                 (<[yaml_file (goal_id goal) := push_snapshot (snap_id s) goal]>
                    (active_dir w1))
                 (set_snapshot_files
                    (<[(goal_id goal, yaml_file (snap_id s)) := s]>
                       (snapshot_files w1)) w1))) as ->.
  { subst r s w1. unfold GoalService.createManualSnapshot, bind.
    rewrite (loadGoal_run goalId w), Hload.
    destruct (createSnapshot goal event summary trigger_manual [] None w)
      as [s' w1] eqn:E.
    assert (snap_goal_id s' = goal_id goal) as Hsg
      by (change s' with (s', w1).1; rewrite <- E; reflexivity).
    unfold saveSnapshot, saveGoal, modify, ret. cbn [fst snd].
    rewrite Hsg. reflexivity. }
  pose proof (read_only_createSnapshot goal event summary trigger_manual []
                None w) as [F I].
  fold w1 in F, I. destruct F. cbn [fst snd].
  cbn [active_dir archived_dir snapshot_files branch_files project_dir
       index_json set_active_dir set_snapshot_files].
  repeat split; congruence.
Qed.

(** X16: [createManualSnapshot] of a goal that [loadGoal] finds returns a
    [manual] snapshot of the goal's state, which [getSnapshot] finds under
    the goal's id, and stores the goal with the snapshot's id appended; the
    snapshot links to the goal's previously last snapshot, so that a second
    manual snapshot of a goal stored under its own id links to the first.
    The index cache is not refreshed. *)
Theorem createManualSnapshot_extends_history (w : World)
    (goalId event summary : string) (goal : Goal) :
  (loadGoal goalId w).1 = Some goal ->
  let r := GoalService.createManualSnapshot goalId event summary w in
  exists s,
    r.1 = Some s /\
    (GoalService.getSnapshot (goal_id goal) (snap_id s) r.2).1 = Some s /\
    (loadGoal (goal_id goal) r.2).1 = Some (push_snapshot (snap_id s) goal) /\
    snap_trigger s = trigger_manual /\
    snap_event s = event /\ snap_summary s = summary /\
    snap_progress s = goal_progress goal /\
    snap_status s = goal_status goal /\
    snap_previous_snapshot s = last (goal_snapshots goal) /\
    index_json r.2 = index_json w /\
    forall event' summary',
      exists s',
        (GoalService.createManualSnapshot (goal_id goal) event' summary' r.2).1
        = Some s' /\
        snap_previous_snapshot s' = Some (snap_id s).
Proof.
  intros Hload r.
  destruct (createManualSnapshot_run goalId event summary goal w Hload)
    as (Hres & Hactive & _ & Hsnaps & _ & _ & Hindex).
  fold r in Hres, Hactive, Hsnaps, Hindex.
  set (s := (createSnapshot goal event summary trigger_manual [] None w).1)
    in *.
  assert ((loadGoal (goal_id goal) r.2).1
          = Some (push_snapshot (snap_id s) goal)) as Hstored.
  { apply loadGoal_active. rewrite Hactive. apply lookup_insert_eq. }
  exists s. split; [exact Hres|]. split.
  { unfold GoalService.getSnapshot, loadSnapshot, gets. cbn [fst].
    rewrite Hsnaps. apply lookup_insert_eq. }
  split; [exact Hstored|].
  repeat (split; [reflexivity|]).
  split; [apply last_snapshot_last|]. split; [exact Hindex|].
  intros event' summary'.
  destruct (createManualSnapshot_run (goal_id goal) event' summary'
              (push_snapshot (snap_id s) goal) r.2 Hstored) as (Hres' & _).
  eexists. split; [exact Hres'|].
  cbn [snap_previous_snapshot createSnapshot]. 
  apply last_snapshot_push.
Qed.

Lemma createManualSnapshot_extends_history_witness :
  exists s,
    (GoalService.createManualSnapshot (goal_id demo_goal) "checkpoint"
       "before refactoring" stored_world).1 = Some s /\
    snap_previous_snapshot s = last (goal_snapshots demo_goal).
Proof.
  destruct (createManualSnapshot_extends_history stored_world
              (goal_id demo_goal) "checkpoint" "before refactoring" demo_goal)
    as (s & Hres & _ & _ & _ & _ & _ & _ & _ & Hprev & _).
  { vm_compute. reflexivity. }
  exists s. split; assumption.
Defined.

(** ** Branches of a goal *)

Lemma createGoalBranch_run goalId name description goal w :
  (loadGoal goalId w).1 = Some goal ->
  let s :=
    (createSnapshot goal ("Branch created: " +:+ name)
       ("Starting exploration: " +:+ or_else (Some description) name)
       trigger_branch_create [] None w).1 in
  let r := GoalService.createGoalBranch goalId name description w in
  exists branch,
    r.1 = Some branch /\
    br_id branch = generateBranchId name /\
    br_name branch = name /\
    br_goal_id branch = goal_id goal /\
    br_status branch = branch_active /\
    br_branch_point branch = snap_id s /\
    active_dir r.2
    = <[yaml_file (goal_id goal) :=
          set_branches (goal_branches goal ++ [new_branch_ref name])
            (push_snapshot (snap_id s) goal)]> (active_dir w) /\
    archived_dir r.2 = archived_dir w /\
    branch_files r.2
    = <[(goal_id goal, yaml_file (generateBranchId name)) := branch]>
        (branch_files w) /\
    snapshot_files r.2
    = <[(goal_id goal, yaml_file (snap_id s)) := s]> (snapshot_files w).
Proof.
  intros Hload s r.
  change (wp (GoalService.createGoalBranch goalId name description)
            (fun result w' =>
               exists branch,
                 result = Some branch /\
                 br_id branch = generateBranchId name /\
                 br_name branch = name /\
                 br_goal_id branch = goal_id goal /\
                 br_status branch = branch_active /\
                 br_branch_point branch = snap_id s /\
                 active_dir w'
                 = <[yaml_file (goal_id goal) :=
                       set_branches (goal_branches goal ++ [new_branch_ref name])
                         (push_snapshot (snap_id s) goal)]> (active_dir w) /\
                 archived_dir w' = archived_dir w /\
                 branch_files w'
                 = <[(goal_id goal, yaml_file (generateBranchId name)) := branch]>
                     (branch_files w) /\
                 snapshot_files w'
                 = <[(goal_id goal, yaml_file (snap_id s)) := s]>
                     (snapshot_files w)) w).
  unfold GoalService.createGoalBranch.
  apply wp_bind. unfold wp at 1. rewrite Hload.
  change (loadGoal goalId w).2 with w.
  apply wp_bind, wp_read_only; [auto with read_only|].
  intros snapshot w1 Es F1 _. fold s in Es. subst snapshot.
  apply wp_bind. unfold saveSnapshot. apply wp_modify.
  apply wp_bind, wp_read_only; [auto with read_only|].
  intros branch w2 Eb F2 _.
  assert (br_branch_point branch = snap_id s) as Hpoint.
  { assert (br_branch_point branch
            = latest_snapshot (goal_snapshots goal ++ [snap_id s])) as ->
      by (subst branch; reflexivity).
    pose proof (latest_snapshot_last (goal_snapshots goal ++ [snap_id s]))
      as Hl.
    rewrite last_snoc in Hl.
    assert (Some (snap_id s)
            = Some (latest_snapshot (goal_snapshots goal ++ [snap_id s])))
      as E by (apply Hl; destruct (goal_snapshots goal); discriminate).
    congruence. }
  assert (br_id branch = generateBranchId name /\ br_name branch = name /\
          br_goal_id branch = goal_id goal /\ br_status branch = branch_active)
    as (Hbid & Hbname & Hbgoal & Hbstatus)
    by (subst branch; repeat split).
  clear Eb.
  apply wp_bind. unfold saveBranch. apply wp_modify.
  apply wp_bind. unfold saveGoal. apply wp_modify.
  apply wp_bind, wp_rebuildIndex. intros index w3 F3. apply wp_ret.
  exists branch. split; [reflexivity|].
  repeat (split; [assumption|]).
  destruct F1 as [_ A1 R1 S1 B1 _], F2 as [_ A2 R2 S2 B2 _],
    F3 as [_ A3 R3 S3 B3 _].
  cbn [host active_dir archived_dir snapshot_files branch_files project_dir
       set_active_dir set_snapshot_files set_branch_files] in *.
  assert (snap_goal_id s = goal_id goal) as Hsg by reflexivity.
  split; [|split; [|split]].
  - rewrite A3, Hbid, Hbname.
    change (goal_id (set_branches
                       (goal_branches (push_snapshot (snap_id s) goal)
                        ++ [new_branch_ref name])
                       (push_snapshot (snap_id s) goal)))
      with (goal_id goal).
    f_equal. congruence.
  - congruence.
  - rewrite B3, Hbgoal, Hbid. f_equal. congruence.
  - rewrite S3, S2, Hsg. f_equal. congruence.
Qed.

Lemma count_id_app branchId xs ys :
  count_id branchId (xs ++ ys) = count_id branchId xs + count_id branchId ys.
Proof. unfold count_id. rewrite List.filter_app. apply length_app. Qed.

Lemma count_id_new_branch_ref name :
  count_id (generateBranchId name) [new_branch_ref name] = 1.
Proof. unfold count_id. simpl. rewrite String.eqb_refl. reflexivity. Qed.

(** X17: branch ids are slugs of the branch names, and [createGoalBranch]
    does not check whether the id is taken. When two names have the same
    slug, the second [createGoalBranch] overwrites the branch file of the
    first, the goal gets two references with that id, and [switchBranch] to
    the id flags both of them as current. *)
Theorem branches_with_one_slug_collide (w : World) (goal : Goal)
    (name1 name2 description1 description2 : string) :
  let goalId := goal_id goal in
  let branchId := generateBranchId name1 in
  (loadGoal goalId w).1 = Some goal ->
  generateBranchId name2 = branchId ->
  let w1 := (GoalService.createGoalBranch goalId name1 description1 w).2 in
  let r2 := GoalService.createGoalBranch goalId name2 description2 w1 in
  exists branch2 goal2,
    r2.1 = Some branch2 /\
    br_name branch2 = name2 /\
    (loadBranch goalId branchId r2.2).1 = Some branch2 /\
    (loadGoal goalId r2.2).1 = Some goal2 /\
    count_id branchId (goal_branches goal2)
    = count_id branchId (goal_branches goal) + 2 /\
    exists goal3,
      (GoalService.switchBranch goalId branchId r2.2).1 = Some goal3 /\
      count_current (goal_branches goal3)
      = count_id branchId (goal_branches goal) + 2.
Proof.
  intros goalId branchId Hload Hslug w1 r2.
  destruct (createGoalBranch_run goalId name1 description1 goal w Hload)
    as (branch1 & _ & _ & _ & _ & _ & _ & Hactive1 & _).
  fold w1 in Hactive1.
  set (goal1 := set_branches (goal_branches goal ++ [new_branch_ref name1])
                  (push_snapshot _ goal)) in Hactive1.
  assert ((loadGoal goalId w1).1 = Some goal1) as Hload1.
  { apply loadGoal_active. rewrite Hactive1. apply lookup_insert_eq. }
  destruct (createGoalBranch_run goalId name2 description2 goal1 w1 Hload1)
    as (branch2 & Hres2 & Hid2 & Hname2 & _ & _ & _ & Hactive2 & _ & Hfiles2
        & _).
  fold r2 in Hres2, Hactive2, Hfiles2.
  set (goal2 := set_branches (goal_branches goal1 ++ [new_branch_ref name2])
                  (push_snapshot _ goal1)) in Hactive2.
  assert ((loadGoal goalId r2.2).1 = Some goal2) as Hload2.
  { apply loadGoal_active. rewrite Hactive2. apply lookup_insert_eq. }
  assert (count_id branchId (goal_branches goal2)
          = count_id branchId (goal_branches goal) + 2) as Hcount.
  { change (goal_branches goal2)
      with ((goal_branches goal ++ [new_branch_ref name1])
            ++ [new_branch_ref name2]).
    rewrite !count_id_app. unfold branchId at 2.
    rewrite count_id_new_branch_ref, <- Hslug, count_id_new_branch_ref. lia. }
  exists branch2, goal2. split; [exact Hres2|]. split; [exact Hname2|].
  split.
  { unfold loadBranch, gets. cbn [fst]. rewrite Hfiles2, Hslug.
    apply lookup_insert_eq. }
  split; [exact Hload2|]. split; [exact Hcount|].
  pose proof (wp_switchBranch goalId branchId goal2 r2.2 Hload2) as Hswitch.
  unfold wp in Hswitch. destruct Hswitch as (goal3 & Hres3 & _ & Hbranches & _).
  exists goal3. split; [exact Hres3|].
  rewrite Hbranches, count_current_flagged. exact Hcount.
Qed.

Lemma branches_with_one_slug_collide_witness :
  exists goal3,
    (GoalService.switchBranch (goal_id demo_goal) "branch_try_cache"
       (GoalService.createGoalBranch (goal_id demo_goal) "TRY-cache" ""
          branched_world).2).1 = Some goal3 /\
    count_current (goal_branches goal3) = 2.
Proof.
  destruct (branches_with_one_slug_collide stored_world demo_goal
              "Try cache" "TRY-cache" "explore caching" "")
    as (_ & _ & _ & _ & _ & _ & _ & goal3 & Hres & Hcount).
  - vm_compute. reflexivity.
  - vm_compute. reflexivity.
  - exists goal3. split; [exact Hres|]. rewrite Hcount.
    vm_compute. reflexivity.
Defined.






(** ** Generated branch and project ids *)

Lemma all_chars_underscore_runs (in_run : bool) (s : string) :
  all_chars slug_char (underscore_runs in_run s) = true.
Proof.
  revert in_run. induction s as [|c s IH]; intros in_run; [reflexivity|].
  cbn [underscore_runs]. destruct (is_lower_or_digit c) eqn:E.
  - cbn [all_chars]. unfold slug_char at 1. rewrite E. apply IH.
  - destruct in_run; [apply IH|]. cbn [all_chars]. apply IH.
Qed.

Lemma all_chars_substring (p : ascii -> bool) (n m : nat) (s : string) :
  all_chars p s = true -> all_chars p (substring n m s) = true.
Proof.
  revert n m. induction s as [|c s IH]; intros n m H.
  - destruct n, m; reflexivity.
  - cbn [all_chars] in H. apply andb_true_iff in H as [Hc Hs].
    destruct n as [|n]; destruct m as [|m]; cbn [substring all_chars];
      try reflexivity.
    + rewrite Hc. apply IH, Hs.
    + apply IH, Hs.
    + apply IH, Hs.
Qed.

Lemma length_substring_le (n m : nat) (s : string) :
  String.length (substring n m s) <= m.
Proof.
  revert n m. induction s as [|c s IH]; intros n m.
  - destruct n, m; simpl; lia.
  - destruct n as [|n]; destruct m as [|m]; cbn [substring String.length];
      try lia.
    + specialize (IH 0 m). lia.
    + apply IH.
    + apply IH.
Qed.

Lemma all_chars_excludes (p : ascii -> bool) (c : ascii) (s : string) :
  p c = false -> all_chars p s = true -> contains_char c s = false.
Proof.
  intros Hc. induction s as [|d s IH]; intros H; [reflexivity|].
  cbn [all_chars] in H. apply andb_true_iff in H as [Hd Hs].
  cbn [contains_char]. rewrite (IH Hs), orb_false_r.
  destruct (Ascii.eqb c d) eqn:E; [|reflexivity].
  apply Ascii.eqb_eq in E. congruence.
Qed.

Lemma lower_char_not_upper (c : ascii) :
  is_upper (if is_upper c then ascii_of_nat (nat_of_ascii c + 32) else c)
  = false.
Proof.
  destruct c as [[] [] [] [] [] [] [] []]; vm_compute; reflexivity.
Qed.

Lemma toLowerCase_idempotent (s : string) :
  toLowerCase (toLowerCase s) = toLowerCase s.
Proof.
  induction s as [|c s IH]; [reflexivity|].
  cbn [toLowerCase]. rewrite lower_char_not_upper, IH. reflexivity.
Qed.

(** X19: the ids made by [generateBranchId] and [generateProjectId] are
    the prefix [branch_] or [proj_] followed by a slug of at most 20 or 30
    characters, all of them lower-case letters, digits or underscores; so
    the ids contain neither a dot nor a path separator, and names that
    differ only in the case of their letters get the same id. *)
Theorem generated_ids_are_slugs (name : string) :
  (exists slug,
     generateBranchId name = "branch_" +:+ slug /\
     String.length slug <= 20 /\ all_chars slug_char slug = true) /\
  (exists slug,
     generateProjectId name = "proj_" +:+ slug /\
     String.length slug <= 30 /\ all_chars slug_char slug = true) /\
  contains_char "." (generateBranchId name) = false /\
  contains_char "/" (generateBranchId name) = false /\
  contains_char "." (generateProjectId name) = false /\
  contains_char "/" (generateProjectId name) = false /\
  generateBranchId (toLowerCase name) = generateBranchId name /\
  generateProjectId (toLowerCase name) = generateProjectId name.
Proof.
  assert (forall n,
            all_chars slug_char
              (slice 0 n (underscore_runs false (toLowerCase name))) = true)
    as Hslug.
  { intros n. apply all_chars_substring, all_chars_underscore_runs. }
  assert (forall n, String.length
                      (slice 0 n (underscore_runs false (toLowerCase name)))
                    <= n) as Hlen.
  { intros n. unfold slice. etransitivity; [apply length_substring_le|]. lia. }
  split; [eexists; split; [reflexivity|]; split; [apply Hlen | apply Hslug]|].
  split; [eexists; split; [reflexivity|]; split; [apply Hlen | apply Hslug]|].
  unfold generateBranchId, generateProjectId.
  rewrite !contains_char_app, toLowerCase_idempotent.
  rewrite !(all_chars_excludes slug_char "." _ eq_refl (Hslug _)).
  rewrite !(all_chars_excludes slug_char "/" _ eq_refl (Hslug _)).
  repeat split; reflexivity.
Qed.

(** ** [findBestMatchingProject] *)

Lemma alias_fold_spec (testPath : string) (project : Project)
    (aliases : list string) (acc : option Project * nat) :
  let acc' :=
    fold_left (fun a alias =>
      if startsWith testPath alias && (a.2 <? String.length alias)%nat
      then (Some project, String.length alias) else a) aliases acc in
  acc.2 <= acc'.2 /\ (acc' = acc \/ (acc'.1 = Some project /\ acc.2 < acc'.2)).
Proof.
  revert acc. induction aliases as [|alias rest IH]; intros acc; simpl.
  - split; [lia | left; reflexivity].
  - destruct (startsWith testPath alias && (acc.2 <? String.length alias)%nat)
      eqn:E.
    + apply andb_true_iff in E as [_ E]. apply Nat.ltb_lt in E.
      destruct (IH (Some project, String.length alias)) as [Hle Hcase].
      simpl in Hle. split; [lia|]. right.
      destruct Hcase as [-> | [H1 H2]]; simpl in *; split;
        try reflexivity; try assumption; lia.
    + apply IH.
Qed.

Lemma best_match_fold (testPath : string) (projects seen : list Project)
    (acc : option Project * nat) :
  (acc.1 = None -> acc.2 = 0) ->
  (forall p, acc.1 = Some p ->
     p ∈ seen /\ pathMatchesProject p testPath = true /\ 0 < acc.2) ->
  (forall q, q ∈ seen -> pathMatchesProject q testPath = true ->
     String.length (proj_path q) <= acc.2) ->
  let acc' := fold_left (best_match_step testPath) projects acc in
  (acc'.1 = None -> acc'.2 = 0) /\
  (forall p, acc'.1 = Some p ->
     p ∈ seen ++ projects /\ pathMatchesProject p testPath = true /\
     0 < acc'.2) /\
  (forall q, q ∈ seen ++ projects -> pathMatchesProject q testPath = true ->
     String.length (proj_path q) <= acc'.2).
Proof.
  revert seen acc. induction projects as [|project rest IH];
    intros seen acc Hnone Hsome Hmax; cbn [fold_left].
  - rewrite app_nil_r. auto.
  - replace (seen ++ project :: rest) with ((seen ++ [project]) ++ rest)
      by (rewrite <- app_assoc; reflexivity).
    apply IH; unfold best_match_step;
      destruct (pathMatchesProject project testPath) eqn:Ematch;
      cbn [negb].
    + set (acc1 := if (acc.2 <? String.length (proj_path project))%nat
                   then (Some project, String.length (proj_path project))
                   else acc).
      destruct (alias_fold_spec testPath project (proj_aliases project) acc1)
        as [Hle [-> | [H1 H2]]].
      * subst acc1.
        destruct (acc.2 <? String.length (proj_path project))%nat;
          [discriminate | exact Hnone].
      * rewrite H1. discriminate.
    + exact Hnone.
    + set (acc1 := if (acc.2 <? String.length (proj_path project))%nat
                   then (Some project, String.length (proj_path project))
                   else acc).
      assert (forall p, acc1.1 = Some p ->
                p ∈ seen ++ [project] /\
                pathMatchesProject p testPath = true /\ 0 < acc1.2) as Hacc1.
      { intros p Hp. subst acc1.
        destruct (acc.2 <? String.length (proj_path project))%nat eqn:E.
        - apply Nat.ltb_lt in E. simpl in Hp |- *. injection Hp as <-.
          split; [apply elem_of_app; right; left|]. split; [exact Ematch|lia].
        - destruct (Hsome p Hp) as (? & ? & ?).
          split; [apply elem_of_app; left; assumption|]. split; assumption. }
      destruct (alias_fold_spec testPath project (proj_aliases project) acc1)
        as [Hle [-> | [H1 H2]]]; [exact Hacc1|].
      intros p Hp. rewrite H1 in Hp. injection Hp as <-.
      split; [apply elem_of_app; right; left|]. split; [exact Ematch | lia].
    + intros p Hp. destruct (Hsome p Hp) as (? & ? & ?).
      split; [apply elem_of_app; left; assumption|]. split; assumption.
    + set (acc1 := if (acc.2 <? String.length (proj_path project))%nat
                   then (Some project, String.length (proj_path project))
                   else acc).
      assert (acc.2 <= acc1.2 /\ String.length (proj_path project) <= acc1.2)
        as [Hmono Hpath].
      { subst acc1.
        destruct (acc.2 <? String.length (proj_path project))%nat eqn:E;
          [apply Nat.ltb_lt in E | apply Nat.ltb_ge in E]; simpl; lia. }
      destruct (alias_fold_spec testPath project (proj_aliases project) acc1)
        as [Hle _].
      intros q Hq Hmatch. apply elem_of_app in Hq as [Hq|Hq].
      * specialize (Hmax q Hq Hmatch). lia.
      * apply list_elem_of_singleton in Hq. subst q. lia.
    + intros q Hq Hmatch. apply elem_of_app in Hq as [Hq|Hq].
      * apply Hmax; assumption.
      * apply list_elem_of_singleton in Hq. subst q. congruence.
Qed.



(** ** Goals and their project *)

Lemma loadAllProjects_run (w : World) :
  loadAllProjects w
  = (omap (fun id => project_dir w !! yaml_file id)
          (yaml_ids (readdirSync (project_dir w))), w).
Proof.
  unfold loadAllProjects, bind, listProjects. unfold gets at 1.
  apply (load_each_gets (fun id w => project_dir w !! yaml_file id)).
Qed.

(** [findProjectByPath] reads the project files only. *)
Lemma findProjectByPath_projects (path : string) (w w' : World) :
  project_dir w' = project_dir w ->
  (findProjectByPath path w').1 = (findProjectByPath path w).1.
Proof.
  intros H. unfold findProjectByPath, bind. rewrite !loadAllProjects_run.
  cbn [fst snd ret]. rewrite H. reflexivity.
Qed.

Lemma findProjectByPath_run (path : string) (w : World) :
  findProjectByPath path w = ((findProjectByPath path w).1, w).
Proof.
  unfold findProjectByPath, bind. rewrite loadAllProjects_run. reflexivity.
Qed.

(** The lists of a project after [addGoalToProject], for every status, the
    status [blocked] of the cast in [update] included. *)
Lemma addGoalToProject_lists_total project goalId status w s :
  goal_list s (addGoalToProject project goalId status w).1
  = lists_after goalId status (fun s' => goal_list s' project) s.
Proof. destruct s, status; reflexivity. Qed.

(** What [update] does to the project files. *)
Lemma update_projects goalId input updatedBy autoSnapshot snapshotEvent
    autoIndex goal w :
  (loadGoal goalId w).1 = Some goal ->
  let r := GoalService.update goalId input updatedBy autoSnapshot
             snapshotEvent autoIndex w in
  exists wq,
    project_dir r.2 =
    match ugi_status input with
    | Some status =>
        if negb (status_eqb status (goal_status goal))
        then projects_after goalId status
               (findProjectByPath (goal_project goal) w).1 wq (project_dir w)
        else project_dir w
    | None => project_dir w
    end.
Proof.
  intros Hload r.
  change (wp (GoalService.update goalId input updatedBy autoSnapshot
                snapshotEvent autoIndex)
            (fun _ w' =>
               exists wq,
                 project_dir w' =
                 match ugi_status input with
                 | Some status =>
                     if negb (status_eqb status (goal_status goal))
                     then projects_after goalId status
                            (findProjectByPath (goal_project goal) w).1 wq
                            (project_dir w)
                     else project_dir w
                 | None => project_dir w
                 end) w).
  unfold GoalService.update.
  apply wp_bind. unfold wp at 1. rewrite Hload.
  change (loadGoal goalId w).2 with w.
  apply wp_bind, wp_read_only; [auto with read_only|].
  intros g1 w1 Eg1 F1 _.
  assert (goal_project g1 = goal_project goal) as Hproject
    by (subst g1; reflexivity).
  clear Eg1. apply wp_bind.
  set (tail := fun updatedGoal : Goal => _).
  assert (forall g w2,
            goal_project g = goal_project goal ->
            project_dir w2 = project_dir w ->
            tail g w2) as Htail.
  { intros g w2 Hg Hw2. subst tail. cbv beta.
    apply wp_bind. unfold saveGoal. apply wp_modify.
    match goal with
    | |- wp _ _ ?x =>
        set (w3 := x);
        assert (project_dir w3 = project_dir w) as Hw3 by exact Hw2;
        clearbody w3
    end.
    apply wp_bind.
    assert (forall (Q : unit -> World -> Prop) w4,
              (forall w5, project_dir w5 = project_dir w4 -> Q tt w5) ->
              wp (if autoIndex then rebuildIndex;; ret tt else ret tt) Q w4)
      as Hindex.
    { intros Q w4 HQ. destruct autoIndex.
      - apply wp_bind, wp_rebuildIndex. intros index w5 F. apply wp_ret.
        apply HQ, F.
      - apply wp_ret, HQ. reflexivity. }
    destruct (ugi_status input) as [status|].
    - destruct (negb (status_eqb status (goal_status goal))).
      + apply wp_bind. unfold wp at 1.
        rewrite (findProjectByPath_run (goal_project g) w3). cbn [fst snd].
        rewrite Hg, (findProjectByPath_projects _ w w3 Hw3).
        destruct (findProjectByPath (goal_project goal) w).1 as [project|].
        * apply wp_bind, wp_value. intros updated w4 Eu Ew.
          assert (project_dir w4 = project_dir w3) as Hw4.
          { subst w4.
            apply (read_only_addGoalToProject project goalId status w3). }
          unfold saveProject. apply wp_modify.
          apply wp_bind, Hindex. intros w5 Hw5. apply wp_ret.
          exists w3. rewrite Hw5. cbn [project_dir set_project_dir].
          unfold projects_after. rewrite Hw4, Hw3, Eu. reflexivity.
        * apply wp_ret. apply wp_bind, Hindex. intros w5 Hw5. apply wp_ret.
          exists w. rewrite Hw5. exact Hw3.
      + apply wp_ret. apply wp_bind, Hindex. intros w5 Hw5. apply wp_ret.
        exists w. rewrite Hw5. exact Hw3.
    - apply wp_ret. apply wp_bind, Hindex. intros w5 Hw5. apply wp_ret.
      exists w. rewrite Hw5. exact Hw3. }
  clearbody tail. destruct F1 as [_ _ _ _ _ P1].
  destruct (autoSnapshot && _).
  - destruct (computeChanges goal g1 default_fields) as [|change rest].
    + apply wp_ret, Htail; assumption.
    + apply wp_bind, wp_gets.
      apply wp_bind, wp_read_only; [auto with read_only|].
      intros snapshot w2 _ [_ _ _ _ _ P2] _.
      apply wp_bind. unfold saveSnapshot. apply wp_modify. apply wp_ret.
      apply Htail; [exact Hproject|].
      cbn [project_dir set_snapshot_files]. congruence.
  - apply wp_ret, Htail; assumption.
Qed.

Lemma status_eqb_eq (a b : GoalStatus) : status_eqb a b = true <-> a = b.
Proof. destruct a, b; simpl; split; congruence. Qed.

Lemma occurrences_single (id goalId : string) :
  occurrences id [goalId] = if String.eqb goalId id then 1 else 0.
Proof.
  unfold occurrences. simpl. destruct (string_dec goalId id) as [->|Hne].
  - rewrite String.eqb_refl. reflexivity.
  - apply String.eqb_neq in Hne. rewrite Hne. reflexivity.
Qed.

(** How often an id occurs in the four lists after [addGoalToProject]. *)
Lemma getAllProjectGoals_after project goalId status w id :
  occurrences id
    (getAllProjectGoals (addGoalToProject project goalId status w).1)
  = if String.eqb goalId id
    then (if status_eqb status blocked then 0 else 1)
    else occurrences id (getAllProjectGoals project).
Proof.
  unfold getAllProjectGoals. rewrite !occurrences_app.
  destruct (String.eqb goalId id) eqn:E.
  - apply String.eqb_eq in E. subst id.
    destruct status; cbn [addGoalToProject bind ret Date_now_iso fst
                          active_goals paused_goals completed_goals
                          abandoned_goals status_eqb];
      rewrite ?occurrences_app, !occurrences_without, ?occurrences_single,
        ?String.eqb_refl; reflexivity.
  - assert (id <> goalId) as Hne
      by (intros ->; rewrite String.eqb_refl in E; discriminate).
    destruct status; cbn [addGoalToProject bind ret Date_now_iso fst
                          active_goals paused_goals completed_goals
                          abandoned_goals];
      rewrite ?occurrences_app, !(occurrences_without_ne goalId id) by exact Hne;
      rewrite ?occurrences_single, ?E; lia.
Qed.

(** X21: when [update] changes the status of a goal whose project is
    registered, it files the goal anew in the stored project: the id is
    removed from all four lists and appended to the list of the new status,
    so it occurs exactly once in the project's goals; the other ids keep
    their occurrences. A goal that becomes [blocked] is removed from all
    four lists and appended to none. Without a status in the patch, with
    the status the goal already has, or without a registered project, the
    project files stay as they are. *)
Theorem update_files_goal_in_project (w : World) (goalId : string)
    (input : UpdateGoalInput) (updatedBy : string) (autoSnapshot : bool)
    (snapshotEvent : option string) (autoIndex : bool) (goal : Goal) :
  (loadGoal goalId w).1 = Some goal ->
  let r := GoalService.update goalId input updatedBy autoSnapshot
             snapshotEvent autoIndex w in
  let found := (findProjectByPath (goal_project goal) w).1 in
  (forall status project,
     ugi_status input = Some status -> status <> goal_status goal ->
     found = Some project ->
     exists project',
       (loadProject (proj_id project) r.2).1 = Some project' /\
       (forall s, goal_list s project'
                  = lists_after goalId status
                      (fun s' => goal_list s' project) s) /\
       occurrences goalId (getAllProjectGoals project')
       = (if status_eqb status blocked then 0 else 1) /\
       forall id, id <> goalId ->
         occurrences id (getAllProjectGoals project')
         = occurrences id (getAllProjectGoals project)) /\
  (ugi_status input = None \/ ugi_status input = Some (goal_status goal) \/
   found = None ->
   project_dir r.2 = project_dir w).
Proof.
  intros Hload r found.
  destruct (update_projects goalId input updatedBy autoSnapshot snapshotEvent
              autoIndex goal w Hload) as [wq Hdir].
  fold r found in Hdir. split.
  - intros status project Hstatus Hchanged Hfound.
    rewrite Hstatus, Hfound in Hdir.
    assert (status_eqb status (goal_status goal) = false) as E.
    { destruct (status_eqb status (goal_status goal)) eqn:E; [|reflexivity].
      apply status_eqb_eq in E. contradiction. }
    rewrite E in Hdir. cbn [negb projects_after] in Hdir.
    exists (addGoalToProject project goalId status wq).1.
    split; [|split; [|split]].
    + unfold loadProject, gets. cbn [fst]. rewrite Hdir.
      apply lookup_insert_eq.
    + intros s. apply addGoalToProject_lists_total.
    + rewrite getAllProjectGoals_after, String.eqb_refl. reflexivity.
    + intros id Hne. rewrite getAllProjectGoals_after.
      assert (String.eqb goalId id = false) as ->; [|reflexivity].
      apply String.eqb_neq. congruence.
  - intros [Hnone | [Hsame | Hnone]].
    + rewrite Hnone in Hdir. exact Hdir.
    + rewrite Hsame in Hdir.
      assert (status_eqb (goal_status goal) (goal_status goal) = true) as E
        by (apply status_eqb_eq; reflexivity).
      rewrite E in Hdir. exact Hdir.
    + rewrite Hnone in Hdir. unfold projects_after in Hdir.
      destruct (ugi_status input) as [status|]; [|exact Hdir].
      destruct (negb (status_eqb status (goal_status goal))); exact Hdir.
Qed.

Lemma update_files_goal_in_project_witness :
  exists project',
    (loadProject "proj_demo"
       (GoalService.update (goal_id demo_goal) blocked_patch "main" true None
          true project_world).2).1 = Some project' /\
    occurrences (goal_id demo_goal) (getAllProjectGoals project') = 0.
Proof.
  destruct (update_files_goal_in_project project_world (goal_id demo_goal)
              blocked_patch "main" true None true demo_goal) as [Hmoved _].
  { vm_compute. reflexivity. }
  destruct (Hmoved blocked demo_project) as (project' & Hload & _ & Hocc & _).
  - reflexivity.
  - discriminate.
  - vm_compute. reflexivity.
  - exists project'. split; [exact Hload | exact Hocc].
Defined.

(** What [create] does to the goal and project files. *)
Lemma create_run input createdBy autoSnapshot autoIndex w :
  let r := GoalService.create input createdBy autoSnapshot autoIndex w in
  active_dir r.2 !! yaml_file (goal_id r.1) = Some r.1 /\
  exists wq,
    project_dir r.2
    = projects_after (goal_id r.1) active
        (findProjectByPath (cgi_project input) w).1 wq (project_dir w).
Proof.
  intros r.
  change (wp (GoalService.create input createdBy autoSnapshot autoIndex)
            (fun goal w' =>
               active_dir w' !! yaml_file (goal_id goal) = Some goal /\
               exists wq,
                 project_dir w'
                 = projects_after (goal_id goal) active
                     (findProjectByPath (cgi_project input) w).1 wq
                     (project_dir w)) w).
  unfold GoalService.create.
  apply wp_bind, wp_read_only; [auto with read_only|].
  intros g0 w1 _ [_ _ _ _ _ P1] _.
  apply wp_bind. unfold saveGoal at 1. apply wp_modify.
  apply wp_bind.
  set (tail := fun goal : Goal => _).
  assert (forall g w2,
            active_dir w2 !! yaml_file (goal_id g) = Some g ->
            project_dir w2 = project_dir w ->
            tail g w2) as Htail.
  { intros g w2 Hstored Hw2. subst tail. cbv beta.
    assert (forall (Q : unit -> World -> Prop) w4,
              (forall w5, active_dir w5 = active_dir w4 ->
                          project_dir w5 = project_dir w4 -> Q tt w5) ->
              wp (if autoIndex then rebuildIndex;; ret tt else ret tt) Q w4)
      as Hindex.
    { intros Q w4 HQ. destruct autoIndex.
      - apply wp_bind, wp_rebuildIndex. intros index w5 F. apply wp_ret.
        apply HQ; apply F.
      - apply wp_ret, HQ; reflexivity. }
    apply wp_bind. unfold wp at 1.
    rewrite (findProjectByPath_run (cgi_project input) w2). cbn [fst snd].
    rewrite (findProjectByPath_projects _ w w2 Hw2).
    destruct (findProjectByPath (cgi_project input) w).1 as [project|].
    - apply wp_bind. apply wp_bind, wp_value. intros updated w3 Eu Ew.
      assert (same_files w2 w3) as [_ A3 _ _ _ P3].
      { subst w3.
        apply (read_only_addGoalToProject project (goal_id g) active w2). }
      unfold saveProject. apply wp_modify.
      apply wp_bind, Hindex. intros w5 A5 P5. apply wp_ret. split.
      + rewrite A5. cbn [active_dir set_project_dir]. rewrite A3.
        exact Hstored.
      + exists w2. rewrite P5. cbn [project_dir set_project_dir].
        unfold projects_after. rewrite P3, Hw2, Eu. reflexivity.
    - apply wp_bind, wp_ret.
      apply wp_bind, Hindex. intros w5 A5 P5. apply wp_ret. split.
      + rewrite A5. exact Hstored.
      + exists w. rewrite P5. exact Hw2. }
  clearbody tail. destruct autoSnapshot.
  - apply wp_bind. apply wp_read_only; [auto with read_only|].
    intros snapshot w2 _ [_ _ _ _ _ P2] _.
    apply wp_bind. unfold saveSnapshot. apply wp_modify.
    apply wp_bind. unfold saveGoal. apply wp_modify.
    apply wp_ret. apply Htail.
    + cbn [active_dir set_active_dir]. apply lookup_insert_eq.
    + cbn [project_dir set_active_dir set_snapshot_files] in *. congruence.
  - apply wp_ret. apply Htail.
    + cbn [active_dir set_active_dir]. apply lookup_insert_eq.
    + cbn [project_dir set_active_dir] in *. congruence.
Qed.

Lemma load_each_loadGoal (ids : list string) (w : World) :
  load_each loadGoal ids w = (omap (fun id => (loadGoal id w).1) ids, w).
Proof. apply (load_each_gets (fun id w => (loadGoal id w).1)). Qed.

(** X22: [create] files the new goal in the project registered for the
    path of its input: the stored project lists the goal's id as the last
    of its active goals and nowhere else, and [getProjectActiveGoals] and
    [getProjectGoals] of that project return the goal. When no project is
    registered for the path the goal is stored all the same and the project
    files stay as they are. *)
Theorem create_files_goal_in_project (w : World) (input : CreateGoalInput)
    (createdBy : string) (autoSnapshot autoIndex : bool) :
  let r := GoalService.create input createdBy autoSnapshot autoIndex w in
  let found := (findProjectByPath (cgi_project input) w).1 in
  (loadGoal (goal_id r.1) r.2).1 = Some r.1 /\
  (forall project,
     found = Some project ->
     exists project',
       (loadProject (proj_id project) r.2).1 = Some project' /\
       active_goals project'
       = without (goal_id r.1) (active_goals project) ++ [goal_id r.1] /\
       occurrences (goal_id r.1) (getAllProjectGoals project') = 1 /\
       r.1 ∈ (GoalService.getProjectActiveGoals (proj_id project) r.2).1 /\
       r.1 ∈ (GoalService.getProjectGoals (proj_id project) r.2).1) /\
  (found = None -> project_dir r.2 = project_dir w).
Proof.
  intros r found.
  destruct (create_run input createdBy autoSnapshot autoIndex w)
    as (Hstored & wq & Hdir).
  fold r found in Hstored, Hdir.
  assert ((loadGoal (goal_id r.1) r.2).1 = Some r.1) as Hload
    by apply loadGoal_active, Hstored.
  split; [exact Hload|]. split.
  - intros project Hfound. rewrite Hfound in Hdir. cbn [projects_after] in Hdir.
    set (project' := (addGoalToProject project (goal_id r.1) active wq).1)
      in *.
    assert ((loadProject (proj_id project) r.2) 
            = (Some project', r.2)) as Hproject.
    { unfold loadProject, gets. rewrite Hdir, lookup_insert_eq. reflexivity. }
    assert (active_goals project'
            = without (goal_id r.1) (active_goals project) ++ [goal_id r.1])
      as Hactive by reflexivity.
    exists project'. split; [rewrite Hproject; reflexivity|].
    split; [exact Hactive|]. split.
    { subst project'. rewrite getAllProjectGoals_after, String.eqb_refl.
      reflexivity. }
    split.
    + unfold GoalService.getProjectActiveGoals, bind. rewrite Hproject.
      rewrite load_each_loadGoal. cbn [fst].
      apply list_elem_of_omap. exists (goal_id r.1). split; [|exact Hload].
      rewrite Hactive. apply elem_of_app. right. left.
    + unfold GoalService.getProjectGoals, bind. rewrite Hproject.
      rewrite load_each_loadGoal. cbn [fst].
      apply list_elem_of_omap. exists (goal_id r.1). split; [|exact Hload].
      unfold getAllProjectGoals. rewrite Hactive.
      apply elem_of_app. left. apply elem_of_app. right. left.
  - intros Hnone. rewrite Hnone in Hdir. exact Hdir.
Qed.

Lemma create_files_goal_in_project_witness :
  (GoalService.create demo_input "main" true true project_world).1
  ∈ (GoalService.getProjectActiveGoals "proj_demo"
       (GoalService.create demo_input "main" true true project_world).2).1.
Proof.
  destruct (create_files_goal_in_project project_world demo_input "main" true
              true) as (_ & Hfiled & _).
  destruct (Hfiled demo_project) as (project' & _ & _ & _ & Hactive & _).
  - vm_compute. reflexivity.
  - exact Hactive.
Defined.

(** ** Registering projects *)

Lemma generateProjectId_plain (name : string) :
  contains_char "." (generateProjectId name) = false.
Proof.
  unfold generateProjectId. rewrite contains_char_app.
  rewrite (all_chars_excludes slug_char "."
             (slice 0 30 (underscore_runs false (toLowerCase name))) eq_refl);
    [reflexivity|].
  apply all_chars_substring, all_chars_underscore_runs.
Qed.

Lemma best_match_exists (projects : list Project) (testPath : string)
    (p : Project) :
  p ∈ projects -> pathMatchesProject p testPath = true -> proj_path p <> "" ->
  is_Some (findBestMatchingProject projects testPath).
Proof.
  intros Hin Hmatch Hpath.
  destruct (best_match_fold testPath projects [] (None, 0))
    as (Hnone & _ & Hmax); simpl.
  - reflexivity.
  - discriminate.
  - intros q Hq. apply elem_of_nil in Hq. contradiction.
  - unfold findBestMatchingProject. simpl in Hnone, Hmax.
    destruct (fold_left (best_match_step testPath) projects (None, 0)).1
      as [q|] eqn:E; [eauto|].
    specialize (Hnone eq_refl). specialize (Hmax p Hin Hmatch).
    destruct (proj_path p); [contradiction | simpl in Hmax; lia].
Qed.

(** X23: [registerProject] stores the project that it returns under the
    project's id. When a project is already registered for the path, it is
    that project with the new name and settings: id, path, creation time
    and the four goal lists are kept. Otherwise the project is new, with
    the id made from the name, the path without trailing slashes and no
    goals, whatever was stored under that id before; it is among
    [loadAllProjects], and unless detection is switched off or the path is
    the root, [detectProjectFromPath] finds a project for the path
    afterwards. *)
Theorem registerProject_updates_or_creates (w : World)
    (input : CreateProjectInput) :
  let r := GoalService.registerProject input w in
  let found := (findProjectByPath (cpi_path input) w).1 in
  (loadProject (proj_id r.1) r.2).1 = Some r.1 /\
  (forall existing,
     found = Some existing ->
     proj_id r.1 = proj_id existing /\
     proj_path r.1 = proj_path existing /\
     proj_created r.1 = proj_created existing /\
     proj_name r.1 = cpi_name input /\
     forall s, goal_list s r.1 = goal_list s existing) /\
  (found = None ->
   proj_id r.1 = generateProjectId (cpi_name input) /\
   proj_path r.1 = strip_trailing_slashes (cpi_path input) /\
   getAllProjectGoals r.1 = [] /\
   r.1 ∈ (loadAllProjects r.2).1 /\
   (cpi_auto_detect input <> Some false ->
    strip_trailing_slashes (cpi_path input) <> "" ->
    is_Some (GoalService.detectProjectFromPath (cpi_path input) r.2).1)).
Proof.
  intros r found. subst r. unfold GoalService.registerProject, bind.
  rewrite (findProjectByPath_run (cpi_path input) w). fold found.
  destruct found as [existing|].
  - cbn [fst snd Date_now_iso saveProject modify ret].
    split.
    { unfold loadProject, gets. cbn [fst project_dir set_project_dir proj_id].
      apply lookup_insert_eq. }
    split; [|discriminate].
    intros ? [= <-]. repeat split; try (intros s; destruct s; reflexivity).
  - set (project := (createProject input w).1).
    set (w1 := (createProject input w).2).
    assert (createProject input w = (project, w1)) as -> by reflexivity.
    cbn [fst snd saveProject modify ret].
    assert (project_dir (set_project_dir
                           (<[yaml_file (proj_id project) := project]>
                              (project_dir w1)) w1)
            !! yaml_file (proj_id project) = Some project) as Hfile
      by apply lookup_insert_eq.
    split; [exact Hfile|]. split; [discriminate|]. intros _.
    repeat (split; [reflexivity|]).
    assert (project
            ∈ (loadAllProjects
                 (set_project_dir
                    (<[yaml_file (proj_id project) := project]>
                       (project_dir w1)) w1)).1) as Hlisted.
    { rewrite loadAllProjects_run. cbn [fst].
      apply list_elem_of_omap. exists (proj_id project).
      split; [|exact Hfile].
      apply elem_of_yaml_ids_plain;
        [apply generateProjectId_plain | rewrite Hfile; eauto]. }
    split; [exact Hlisted|].
    intros Hdetect Hroot. unfold GoalService.detectProjectFromPath, bind.
    rewrite loadAllProjects_run. cbn [fst snd ret].
    rewrite loadAllProjects_run in Hlisted. cbn [fst] in Hlisted.
    apply (best_match_exists _ _ project Hlisted); [|exact Hroot].
    unfold pathMatchesProject.
    assert (proj_auto_detect project = true) as ->.
    { change (proj_auto_detect project)
        with (default true (cpi_auto_detect input)).
      destruct (cpi_auto_detect input) as [[]|]; try reflexivity.
      contradiction. }
    cbn [negb].
    change (proj_path project) with (strip_trailing_slashes (cpi_path input)).
    rewrite String.eqb_refl. reflexivity.
Qed.

Lemma registerProject_updates_or_creates_witness :
  is_Some
    (GoalService.detectProjectFromPath "/srv/app/"
       (GoalService.registerProject
          {| cpi_name := "App Server"; cpi_path := "/srv/app/";
             cpi_description := None; cpi_repo := None; cpi_branch := None;
             cpi_aliases := None; cpi_auto_detect := None;
             cpi_tech_stack := None; cpi_conventions := None |}
          project_world).2).1.
Proof.
  destruct (registerProject_updates_or_creates project_world
              {| cpi_name := "App Server"; cpi_path := "/srv/app/";
                 cpi_description := None; cpi_repo := None;
                 cpi_branch := None; cpi_aliases := None;
                 cpi_auto_detect := None; cpi_tech_stack := None;
                 cpi_conventions := None |}) as (_ & _ & Hnew).
  destruct Hnew as (_ & _ & _ & _ & Hdetect).
  - vm_compute. reflexivity.
  - apply Hdetect.
    + discriminate.
    + vm_compute. discriminate.
Defined.

(** ** Parallel contexts of the session state *)

Lemma findIndex_None {A : Type} (p : A -> bool) (xs : list A) :
  findIndex p xs = None <-> List.filter p xs = [].
Proof.
  induction xs as [|x rest IH]; [split; reflexivity|]. simpl.
  destruct (p x); [split; discriminate|].
  destruct (findIndex p rest); simpl.
  - split; [discriminate|]. intros H. apply IH in H. discriminate.
  - split; [intros _; apply IH; reflexivity | reflexivity].
Qed.

Lemma findIndex_Some {A : Type} (p : A -> bool) (xs : list A) (i : nat) :
  findIndex p xs = Some i ->
  exists pre x post,
    xs = pre ++ x :: post /\ length pre = i /\ p x = true /\
    List.filter p pre = [].
Proof.
  revert i. induction xs as [|x rest IH]; intros i H; [discriminate|].
  simpl in H. destruct (p x) eqn:E.
  - injection H as <-. exists [], x, rest. repeat split. exact E.
  - destruct (findIndex p rest) as [j|]; [|discriminate].
    injection H as <-.
    destruct (IH j eq_refl) as (pre & y & post & -> & Hlen & Hy & Hpre).
    exists (x :: pre), y, post. simpl. rewrite E, Hlen. repeat split;
      assumption.
Qed.

Lemma addParallelContext_contexts state context w :
  let p := fun c => String.eqb (pc_goal c) (pc_goal context) in
  let after := ss_parallel_contexts (addParallelContext state context w).1 in
  (List.filter p (ss_parallel_contexts state) = [] /\
   after = ss_parallel_contexts state ++ [context]) \/
  (exists pre x post,
     ss_parallel_contexts state = pre ++ x :: post /\
     p x = true /\ List.filter p pre = [] /\
     after = pre ++ context :: post).
Proof.
  intros p after. subst after. unfold addParallelContext, bind.
  cbn [Date_now_iso ret fst ss_parallel_contexts]. fold p.
  destruct (findIndex p (ss_parallel_contexts state)) as [i|] eqn:E.
  - right. destruct (findIndex_Some p _ i E)
      as (pre & x & post & Hsplit & Hlen & Hx & Hpre).
    exists pre, x, post. repeat split; try assumption.
    rewrite Hsplit, <- Hlen.
    rewrite insert_app_r_alt by lia. rewrite Nat.sub_diag. reflexivity.
  - left. split; [apply findIndex_None, E | reflexivity].
Qed.

(** X24: [addParallelContext] puts the context in place of the first
    context of the same goal, or at the end when the goal has none: the
    first context of that goal is then the given one, the contexts of the
    other goals stay as they are and in their order, the list grows by at
    most one, and when no goal had two contexts before, none has two
    afterwards. Adding the same context again changes nothing in the
    list. *)
Theorem addParallelContext_upserts (state : SessionState)
    (context : ParallelContext) (w : World) :
  let before := ss_parallel_contexts state in
  let after := ss_parallel_contexts (addParallelContext state context w).1 in
  head (contexts_of (pc_goal context) after) = Some context /\
  (forall goal, goal <> pc_goal context ->
     contexts_of goal after = contexts_of goal before) /\
  length after
  = (if decide (contexts_of (pc_goal context) before = [])
     then S (length before) else length before) /\
  (NoDup (List.map pc_goal before) -> NoDup (List.map pc_goal after)) /\
  (forall w',
     ss_parallel_contexts
       (addParallelContext (addParallelContext state context w).1 context w').1
     = after).
Proof.
  intros before after.
  assert (forall l, contexts_of (pc_goal context) [context] ++ l
                    = context :: l) as Hself.
  { intros l. unfold contexts_of. simpl. rewrite String.eqb_refl.
    reflexivity. }
  assert (forall goal x, goal <> pc_goal context ->
            String.eqb (pc_goal x) (pc_goal context) = true ->
            String.eqb (pc_goal x) goal = false) as Hother.
  { intros goal x Hne Hx. apply String.eqb_eq in Hx.
    apply String.eqb_neq. congruence. }
  destruct (addParallelContext_contexts state context w)
    as [[Hnone Hafter] | (pre & x & post & Hsplit & Hx & Hpre & Hafter)];
    fold after before in Hafter, Hnone || fold after before in Hafter, Hsplit.
  - split; [|split; [|split; [|split]]].
    + rewrite Hafter. unfold contexts_of. rewrite List.filter_app.
      fold before in Hnone. rewrite Hnone. simpl.
      rewrite String.eqb_refl. reflexivity.
    + intros goal Hne. rewrite Hafter. unfold contexts_of.
      rewrite List.filter_app. simpl.
      assert (String.eqb (pc_goal context) goal = false) as ->
        by (apply String.eqb_neq; congruence).
      apply app_nil_r.
    + rewrite Hafter, length_app. simpl.
      destruct (decide (contexts_of (pc_goal context) before = []));
        [lia | contradiction].
    + intros Hnodup. rewrite Hafter, List.map_app. simpl.
      apply NoDup_app. split; [exact Hnodup|]. split; [|apply NoDup_singleton].
      intros g Hg Hin. apply list_elem_of_singleton in Hin. subst g.
      apply list_elem_of_fmap in Hg as (c & Hc & Hin).
      assert (c ∈ List.filter
                    (fun c => String.eqb (pc_goal c) (pc_goal context)) before)
        as Hfound.
      { apply list_elem_of_In, filter_In. split; [apply list_elem_of_In, Hin|].
        apply String.eqb_eq. congruence. }
      rewrite Hnone in Hfound. apply elem_of_nil in Hfound. contradiction.
    + intros w'.
      destruct (addParallelContext_contexts
                  (addParallelContext state context w).1 context w')
        as [[Hnone' _] | (pre' & x' & post' & Hsplit' & Hx' & Hpre' & ->)].
      * exfalso. fold after in Hnone'. rewrite Hafter in Hnone'.
        rewrite List.filter_app in Hnone'. simpl in Hnone'.
        rewrite String.eqb_refl in Hnone'.
        apply app_eq_nil in Hnone' as [_ H]. discriminate.
      * fold after in Hsplit'. rewrite Hsplit'.
        assert (x' = context) as ->; [|reflexivity].
        rewrite Hafter in Hsplit'.
        destruct post' as [|y post'] using rev_ind.
        -- apply app_inj_tail in Hsplit' as [_ H]. congruence.
        -- clear IHpost'. exfalso.
           replace (pre' ++ x' :: post' ++ [y])
             with ((pre' ++ x' :: post') ++ [y]) in Hsplit'
             by (rewrite <- app_assoc; reflexivity).
           apply app_inj_tail in Hsplit' as [Hb _].
           fold before in Hnone. rewrite Hb in Hnone.
           rewrite List.filter_app in Hnone. simpl in Hnone.
           rewrite Hx' in Hnone.
           apply app_eq_nil in Hnone as [_ H]. discriminate.
  - fold before in Hsplit.
    split; [|split; [|split; [|split]]].
    + rewrite Hafter. unfold contexts_of. rewrite List.filter_app, Hpre.
      simpl. rewrite String.eqb_refl. reflexivity.
    + intros goal Hne. rewrite Hafter, Hsplit. unfold contexts_of.
      rewrite !List.filter_app. simpl.
      rewrite (Hother goal x Hne Hx).
      assert (String.eqb (pc_goal context) goal = false) as ->
        by (apply String.eqb_neq; congruence).
      reflexivity.
    + rewrite Hafter, Hsplit, !length_app. simpl.
      destruct (decide (contexts_of (pc_goal context) (pre ++ x :: post) = []))
        as [Hnone|_]; [|reflexivity].
      exfalso. unfold contexts_of in Hnone.
      rewrite List.filter_app in Hnone. simpl in Hnone. rewrite Hx in Hnone.
      apply app_eq_nil in Hnone as [_ H]. discriminate.
    + intros Hnodup. rewrite Hsplit in Hnodup. rewrite Hafter.
      rewrite List.map_app in *. simpl in *.
      apply String.eqb_eq in Hx. rewrite <- Hx. exact Hnodup.
    + intros w'.
      destruct (addParallelContext_contexts
                  (addParallelContext state context w).1 context w')
        as [[Hnone' _] | (pre' & x' & post' & Hsplit' & Hx' & Hpre' & ->)].
      * exfalso. fold after in Hnone'. rewrite Hafter in Hnone'.
        rewrite List.filter_app in Hnone'. simpl in Hnone'.
        rewrite String.eqb_refl in Hnone'.
        apply app_eq_nil in Hnone' as [_ H]. discriminate.
      * fold after in Hsplit'. rewrite Hsplit'.
        assert (x' = context) as ->; [|reflexivity].
        rewrite Hafter in Hsplit'.
        assert (List.filter
                  (fun c => String.eqb (pc_goal c) (pc_goal context))
                  [context] <> []) as Hctx
          by (simpl; rewrite String.eqb_refl; discriminate).
        clear -Hsplit' Hpre Hpre' Hx'.
        revert pre' Hsplit' Hpre'.
        induction pre as [|a pre IH]; intros pre' Hsplit' Hpre'.
        -- destruct pre' as [|b pre']; simpl in Hsplit'; [congruence|].
           injection Hsplit' as <- _. simpl in Hpre'.
           rewrite String.eqb_refl in Hpre'. discriminate.
        -- simpl in Hpre.
           destruct (String.eqb (pc_goal a) (pc_goal context)) eqn:Ea;
             [discriminate|].
           destruct pre' as [|b pre']; simpl in Hsplit'.
           ++ injection Hsplit' as -> _. congruence.
           ++ injection Hsplit' as <- Hrest. simpl in Hpre'.
              rewrite Ea in Hpre'. apply (IH Hpre pre' Hrest Hpre').
Qed.

Lemma addParallelContext_upserts_witness :
  NoDup
    (List.map pc_goal
       (ss_parallel_contexts
          (addParallelContext
             (addParallelContext (createEmptySessionState "laptop"
                                    empty_world).1 demo_context empty_world).1
             demo_context empty_world).1)).
Proof.
  destruct (addParallelContext_upserts
              (addParallelContext (createEmptySessionState "laptop"
                                     empty_world).1 demo_context empty_world).1
              demo_context empty_world) as (_ & _ & _ & Hnodup & _).
  apply Hnodup. apply (bool_decide_unpack _). vm_compute. exact I.
Defined.

(** ** Descendants and ancestors *)

(** With distinct goal ids, the parent edges and the parent entries of a
    rebuilt index agree. *)
Lemma rebuilt_parent_edges_agree (w : World) :
  NoDup (List.map goal_id (loadAllGoals true w).1) ->
  parent_edges_agree (rebuildIndex w).1.
Proof.
  intros Hnodup c p. set (goals := (loadAllGoals true w).1) in *.
  assert (children_in (rebuildIndex w).1 p
          = if truthy p then List.map goal_id (with_parent p goals) else [])
    as ->.
  { destruct (rebuildIndex_run w) as [-> _]. apply children_in_buildIndex. }
  unfold next_in. rewrite rebuilt_parent_in. fold goals. split.
  - intros Hin. destruct (truthy p) eqn:Ep;
      [|apply elem_of_nil in Hin; contradiction].
    apply list_elem_of_fmap in Hin as (g & -> & Hg).
    unfold with_parent in Hg. apply list_elem_of_In, filter_In in Hg as [Hg Hp].
    apply list_elem_of_In in Hg.
    rewrite (with_id_unique goals g Hnodup Hg). simpl.
    destruct (goal_parent g) as [q|]; [|discriminate].
    apply String.eqb_eq in Hp. subst q. simpl. rewrite Ep. reflexivity.
  - intros Hnext.
    destruct (last (with_id c goals)) as [g|] eqn:Elast; [|discriminate].
    simpl in Hnext. destruct (goal_parent g) as [q|] eqn:Eq; [|discriminate].
    destruct (truthy q) eqn:Etruthy; [|discriminate].
    injection Hnext as ->. rewrite Etruthy.
    apply last_Some_elem_of in Elast. unfold with_id in Elast.
    apply list_elem_of_In, filter_In in Elast as [Hg Hid].
    apply String.eqb_eq in Hid. subst c.
    apply list_elem_of_fmap. exists g. split; [reflexivity|].
    apply list_elem_of_In, filter_In. split; [exact Hg|].
    rewrite Eq. apply String.eqb_refl.
Qed.

Lemma descends_above (index : GoalIndex) :
  parent_edges_agree index ->
  forall a d, descends index a d <-> above index d a.
Proof.
  intros Hagree a d. split.
  - induction 1 as [p c Hc | p c d Hc Hd IH].
    + exists 0. simpl. apply Hagree, Hc.
    + destruct IH as [n Hn]. exists (S n).
      change (walk index d (S (S n)))
        with (walk index d (S n) ≫= next_in index).
      rewrite Hn. simpl. apply Hagree, Hc.
  - intros [n Hn]. revert a Hn. induction n as [|n IH]; intros a Hn.
    + simpl in Hn. apply descends_child, Hagree, Hn.
    + change (walk index d (S (S n)))
        with (walk index d (S n) ≫= next_in index) in Hn.
      destruct (walk index d (S n)) as [c|] eqn:Ec; [|discriminate].
      simpl in Hn. apply descends_step with c.
      * apply Hagree, Hn.
      * apply IH. reflexivity.
Qed.

Lemma chain_above (index : GoalIndex) (d : string) (chain : list string) :
  ancestor_chain index d chain ->
  forall a, a ∈ chain <-> above index d a.
Proof.
  induction 1 as [id Hnone | id p rest Hnext _ IH]; intros a.
  - split; [intros H; apply elem_of_nil in H; contradiction|].
    intros [n Hn]. rewrite walk_shift, Hnone in Hn. discriminate.
  - split.
    + intros Hin. apply elem_of_cons in Hin as [->|Hin].
      * exists 0. simpl. exact Hnext.
      * apply IH in Hin as [n Hn]. exists (S n).
        rewrite walk_shift, Hnext. exact Hn.
    + intros [n Hn]. rewrite walk_shift, Hnext in Hn. simpl in Hn.
      destruct n as [|n].
      * simpl in Hn. injection Hn as ->. left.
      * right. apply IH. exists n. exact Hn.
Qed.

(** What the loop of [getAncestors] returns is the chain of ancestors. *)
Lemma ancestors_on_sound (index : GoalIndex) (fuel : nat) :
  forall id ancestors result,
    ancestors_on index fuel (next_in index id) ancestors = Some result ->
    exists chain,
      result = ancestors ++ chain /\ ancestor_chain index id chain.
Proof.
  induction fuel as [|fuel IH]; intros id ancestors result H.
  - destruct (next_in index id) as [p|] eqn:Hnext.
    + simpl in H. rewrite (next_in_truthy _ _ _ Hnext) in H. discriminate.
    + simpl in H. injection H as <-. exists [].
      split; [rewrite app_nil_r; reflexivity | apply chain_top, Hnext].
  - destruct (next_in index id) as [p|] eqn:Hnext.
    + simpl in H. rewrite (next_in_truthy _ _ _ Hnext) in H. simpl in H.
      rewrite ancestors_on_next in H.
      destruct (IH p (ancestors ++ [p]) result H) as (chain & -> & Hchain).
      exists (p :: chain). split.
      * rewrite <- app_assoc. reflexivity.
      * apply chain_parent; assumption.
    + simpl in H. injection H as <-. exists [].
      split; [rewrite app_nil_r; reflexivity | apply chain_top, Hnext].
Qed.

Lemma collect_Some_inv (below : string -> option (list string))
    (children : list string) :
  forall descendants l,
    collect below children descendants = Some l ->
    forall c, c ∈ children -> is_Some (below c).
Proof.
  induction children as [|child rest IH]; intros descendants l H c Hc.
  - apply elem_of_nil in Hc. contradiction.
  - cbn [collect] in H. destruct (below child) as [under|] eqn:E;
      [|discriminate].
    apply elem_of_cons in Hc as [->|Hc]; [rewrite E; eauto|].
    apply (IH _ _ H c Hc).
Qed.

Lemma descendants_on_depth (index : GoalIndex) (n : nat) :
  forall id l, descendants_on index n id = Some l -> depth_within index n id.
Proof.
  induction n as [|n IH]; intros id l H; [discriminate|].
  constructor. intros c Hc. cbn [descendants_on] in H.
  destruct (collect_Some_inv _ _ _ _ H c Hc) as [l' Hl'].
  apply (IH c l' Hl').
Qed.

(** What [getDescendants] returns on a cached index are the goals below. *)
Lemma descendants_on_sound (index : GoalIndex) (n : nat) (id : string)
    (l : list string) :
  descendants_on index n id = Some l ->
  forall d, d ∈ l <-> descends index id d.
Proof.
  intros H.
  destruct (descendants_on_bounded index n id (descendants_on_depth _ _ _ _ H))
    as (l' & Hl' & Hmem).
  assert (l' = l) as -> by congruence. exact Hmem.
Qed.

(** X25: on an index rebuilt from goals with distinct ids, [getDescendants]
    and [getAncestors] are converse to each other: whenever the two calls
    return, a goal is among the descendants of another exactly when that
    other goal is among its ancestors. *)
Theorem descendants_are_converse_to_ancestors (w : World) (a d : string)
    (fuel fuel' : nat) (descendants ancestors : list string) :
  let w' := (rebuildIndex w).2 in
  NoDup (List.map goal_id (loadAllGoals true w).1) ->
  (getDescendants fuel a w').1 = Some descendants ->
  (getAncestors fuel' d w').1 = Some ancestors ->
  (d ∈ descendants <-> a ∈ ancestors).
Proof.
  intros w' Hnodup Hdesc Hanc.
  assert (parent_edges_agree (JSON_index (rebuildIndex w).1)) as Hagree.
  { intros c p. unfold next_in. rewrite parent_in_JSON.
    apply (rebuilt_parent_edges_agree w Hnodup c p). }
  assert (index_json w' = Some (JSON_index (rebuildIndex w).1)) as Hcached
    by apply rebuildIndex_run.
  rewrite (getDescendants_cached _ _ Hcached) in Hdesc. cbn [fst] in Hdesc.
  rewrite getAncestors_run, (getIndex_cached _ _ Hcached) in Hanc.
  cbn [fst] in Hanc. rewrite ancestors_on_next in Hanc.
  destruct (ancestors_on_sound _ _ _ _ _ Hanc) as (chain & -> & Hchain).
  rewrite (descendants_on_sound _ _ _ _ Hdesc), (descends_above _ Hagree).
  rewrite app_nil_l. symmetry. apply chain_above, Hchain.
Qed.

Lemma descendants_are_converse_to_ancestors_witness :
  "goal_c" ∈ ["goal_b"; "goal_c"] <-> "goal_a" ∈ ["goal_b"; "goal_a"].
Proof.
  apply (descendants_are_converse_to_ancestors family_world "goal_a" "goal_c"
           3 3).
  - apply (bool_decide_unpack _). vm_compute. exact I.
  - vm_compute. reflexivity.
  - vm_compute. reflexivity.
Defined.

(** ** Snapshot ids *)

(** X26: snapshot ids are made from the clock, to the second, and two
    random characters, and nothing checks that an id is new. Two manual
    snapshots of a goal stored under its own id are both listed in the
    goal's snapshots, and the second links to the first; when their ids
    differ both are found by [getSnapshot], but when the ids coincide the
    file of the first is overwritten: [getSnapshot] returns the second
    snapshot under that id, the goal lists the id twice, and the second
    snapshot names itself as its previous snapshot. *)
Theorem manual_snapshots_share_ids (w : World) (goal : Goal)
    (event1 summary1 event2 summary2 : string) :
  let goalId := goal_id goal in
  (loadGoal goalId w).1 = Some goal ->
  let r1 := GoalService.createManualSnapshot goalId event1 summary1 w in
  let r2 := GoalService.createManualSnapshot goalId event2 summary2 r1.2 in
  exists s1 s2 goal2,
    r1.1 = Some s1 /\ r2.1 = Some s2 /\
    snap_event s1 = event1 /\ snap_event s2 = event2 /\
    (loadGoal goalId r2.2).1 = Some goal2 /\
    goal_snapshots goal2 = goal_snapshots goal ++ [snap_id s1; snap_id s2] /\
    snap_previous_snapshot s2 = Some (snap_id s1) /\
    (GoalService.getSnapshot goalId (snap_id s2) r2.2).1 = Some s2 /\
    (snap_id s1 <> snap_id s2 ->
     (GoalService.getSnapshot goalId (snap_id s1) r2.2).1 = Some s1) /\
    (snap_id s1 = snap_id s2 ->
     (GoalService.getSnapshot goalId (snap_id s1) r2.2).1 = Some s2 /\
     snap_previous_snapshot s2 = Some (snap_id s2)).
Proof.
  intros goalId Hload r1 r2.
  destruct (createManualSnapshot_run goalId event1 summary1 goal w Hload)
    as (Hres1 & Hactive1 & _ & Hsnaps1 & _).
  fold r1 in Hres1, Hactive1, Hsnaps1.
  set (s1 := (createSnapshot goal event1 summary1 trigger_manual [] None w).1)
    in *.
  set (goal1 := push_snapshot (snap_id s1) goal) in *.
  assert ((loadGoal goalId r1.2).1 = Some goal1) as Hload1.
  { apply loadGoal_active. rewrite Hactive1. apply lookup_insert_eq. }
  destruct (createManualSnapshot_run goalId event2 summary2 goal1 r1.2 Hload1)
    as (Hres2 & Hactive2 & _ & Hsnaps2 & _).
  fold r2 in Hres2, Hactive2, Hsnaps2.
  set (s2 := (createSnapshot goal1 event2 summary2 trigger_manual [] None
                r1.2).1) in *.
  change (goal_id goal1) with goalId in Hactive2, Hsnaps2.
  assert (snap_previous_snapshot s2 = Some (snap_id s1)) as Hprev
    by apply last_snapshot_push.
  assert ((GoalService.getSnapshot goalId (snap_id s2) r2.2).1 = Some s2)
    as Hsecond.
  { unfold GoalService.getSnapshot, loadSnapshot, gets. cbn [fst].
    rewrite Hsnaps2. apply lookup_insert_eq. }
  exists s1, s2, (push_snapshot (snap_id s2) goal1).
  split; [exact Hres1|]. split; [exact Hres2|].
  split; [reflexivity|]. split; [reflexivity|]. split.
  { apply loadGoal_active. rewrite Hactive2. apply lookup_insert_eq. }
  split.
  { cbn [goal_snapshots push_snapshot goal1]. rewrite <- app_assoc.
    reflexivity. }
  split; [exact Hprev|]. split; [exact Hsecond|]. split.
  - intros Hne. unfold GoalService.getSnapshot, loadSnapshot, gets. cbn [fst].
    rewrite Hsnaps2, lookup_insert_ne.
    + rewrite Hsnaps1. apply lookup_insert_eq.
    + intros E. apply Hne. apply (f_equal snd) in E. cbn [snd] in E.
      apply yaml_file_inj in E. symmetry. exact E.
  - intros Heq. split; [rewrite Heq; exact Hsecond|]. rewrite <- Heq.
    exact Hprev.
Qed.

(** On a host whose clock and random source repeat, the ids coincide. *)
Lemma manual_snapshots_share_ids_witness :
  exists s2,
    (GoalService.createManualSnapshot (goal_id demo_goal) "second" "..."
       (GoalService.createManualSnapshot (goal_id demo_goal) "first" "..."
          stored_world).2).1 = Some s2 /\
    snap_previous_snapshot s2 = Some (snap_id s2).
Proof.
  destruct (manual_snapshots_share_ids stored_world demo_goal "first" "..."
              "second" "...")
    as (s1 & s2 & goal2 & Hres1 & Hres2 & _ & _ & _ & _ & _ & _ & _ & Hsame).
  { vm_compute. reflexivity. }
  exists s2. split; [exact Hres2|]. apply Hsame.
  assert (Some (snap_id s1) = Some (snap_id s2)) as [= E]; [|exact E].
  change (snap_id <$> Some s1 = snap_id <$> Some s2).
  rewrite <- Hres1, <- Hres2. vm_compute. reflexivity.
Defined.

(** ** [pause] and [resume] *)

Lemma takes_snapshot_status_change (before after : Goal)
    (status : GoalStatus) :
  status_eqb (goal_status before) (goal_status after) = false ->
  takes_snapshot true (GoalService.status_only status) before after = true.
Proof.
  intros Hs. unfold takes_snapshot, computeChanges, default_fields.
  cbn [flat_map field_value json_eqb ugi_progress ugi_status
       GoalService.status_only].
  rewrite Hs.
  destruct (json_num_eqb (goal_progress before) (goal_progress after));
    reflexivity.
Qed.

(** X27: [pause] followed by [resume] of an active goal stored under its
    own id brings the goal back to the status [active] with its progress
    unchanged, and leaves two more snapshots in its history: one of the
    paused goal with the event [Goal paused], then one of the resumed goal
    with the event [Goal resumed], which links to the first. *)
Theorem pause_then_resume (w : World) (goal : Goal)
    (pausedBy resumedBy : string) :
  let goalId := goal_id goal in
  (loadGoal goalId w).1 = Some goal ->
  goal_status goal = active ->
  let r1 := GoalService.pause goalId pausedBy w in
  let r2 := GoalService.resume goalId resumedBy r1.2 in
  exists halted resumed s1 s2,
    r1.1 = Some halted /\ goal_status halted = paused /\
    r2.1 = Some resumed /\ goal_status resumed = active /\
    (loadGoal goalId r2.2).1 = Some resumed /\
    goal_progress resumed = goal_progress goal /\
    goal_last_touched_by resumed = resumedBy /\
    goal_snapshots resumed = goal_snapshots goal ++ [snap_id s1; snap_id s2] /\
    snap_event s1 = "Goal paused" /\ snap_status s1 = paused /\
    snap_event s2 = "Goal resumed" /\ snap_status s2 = active /\
    snap_previous_snapshot s2 = Some (snap_id s1).
Proof.
  intros goalId Hload Hactive r1 r2.
  pose proof (update_run goalId (GoalService.status_only paused) pausedBy true
                (Some "Goal paused") true goal w Hload) as H1.
  cbv zeta in H1. fold (GoalService.pause goalId pausedBy) in H1.
  fold r1 in H1.
  set (g1 := (updateGoal goal (GoalService.status_only paused) pausedBy w).1)
    in *.
  rewrite takes_snapshot_status_change in H1
    by (change (goal_status g1) with paused; rewrite Hactive; reflexivity).
  destruct H1 as (_ & _ & _ & Hres1 & Hactive1 & _).
  match type of Hres1 with
  | _ = Some (push_snapshot (snap_id ?s) _) => set (s1 := s) in *
  end.
  set (halted := push_snapshot (snap_id s1) g1) in *.
  assert ((loadGoal goalId r1.2).1 = Some halted) as Hload1.
  { apply loadGoal_active. rewrite Hactive1. apply lookup_insert_eq. }
  pose proof (update_run goalId (GoalService.status_only active) resumedBy
                true (Some "Goal resumed") true halted r1.2 Hload1) as H2.
  cbv zeta in H2. fold (GoalService.resume goalId resumedBy) in H2.
  fold r2 in H2.
  set (g2 := (updateGoal halted (GoalService.status_only active) resumedBy
                r1.2).1) in *.
  rewrite takes_snapshot_status_change in H2 by reflexivity.
  destruct H2 as (_ & _ & _ & Hres2 & Hactive2 & _).
  match type of Hres2 with
  | _ = Some (push_snapshot (snap_id ?s) _) => set (s2 := s) in *
  end.
  exists halted, (push_snapshot (snap_id s2) g2), s1, s2.
  split; [exact Hres1|]. split; [reflexivity|].
  split; [exact Hres2|]. split; [reflexivity|]. split.
  { apply loadGoal_active. rewrite Hactive2. apply lookup_insert_eq. }
  split; [reflexivity|]. split; [reflexivity|]. split.
  { cbn [goal_snapshots push_snapshot]. 
    change (goal_snapshots g2) with (goal_snapshots goal ++ [snap_id s1]).
    rewrite <- app_assoc. reflexivity. }
  split; [reflexivity|]. split; [reflexivity|].
  split; [reflexivity|]. split; [reflexivity|].
  change (snap_previous_snapshot s2)
    with (last_snapshot (goal_snapshots goal ++ [snap_id s1])).
  apply last_snapshot_push.
Qed.

Lemma pause_then_resume_witness :
  exists resumed,
    (GoalService.resume (goal_id demo_goal) "main"
       (GoalService.pause (goal_id demo_goal) "main" stored_world).2).1
    = Some resumed /\
    goal_status resumed = active /\
    length (goal_snapshots resumed) = 2.
Proof.
  destruct (pause_then_resume stored_world demo_goal "main" "main")
    as (halted & resumed & s1 & s2 & _ & _ & Hres & Hstatus & _ & _ & _
        & Hsnaps & _).
  - vm_compute. reflexivity.
  - reflexivity.
  - exists resumed. split; [exact Hres|]. split; [exact Hstatus|].
    rewrite Hsnaps. reflexivity.
Defined.
